(** * uiautomator2.xpath: shorthand queries, selectors and element geometry

    A shallow embedding of [uiautomator2/xpath.py].  Python values are
    modelled as follows.

    - [str] is [string]; every [ascii] stands for the code point of the
      same number, so the strings of this development are the Python strings
      over code points below 256.
    - [int] is [Z].
    - [float] is [spec_float] at precision 53 and maximal exponent 1024
      (IEEE 754 binary64), with the operations of [SpecFloat].
    - A raised exception is the [Raise] case of [result].
    - The lxml document is a tree of [element]s, the attribute mapping of an
      element is a [gmap string string], and a node is identified by its
      position in document order.
    - lxml's parser, its check of a tag that is assigned and its XPath
      evaluator are outside the repository: they are the fields of an
      [Engine], as is the order in which Python iterates a set.
    - Time is a clock in milliseconds that [time.sleep] and the dump of the
      hierarchy advance; [time.sleep] refuses a delay that is negative or
      too long, and [int] a numeral of more than 4300 digits. *)

From Stdlib Require Import ZArith String Ascii Lia SpecFloat DecimalString.
From stdpp Require Import base list gmap strings.

Local Open Scope Z_scope.

(** ** Python strings *)

Module PyStr.

Definition dquote : ascii := ascii_of_nat 34.
Definition squote : ascii := "'"%char.
Definition backslash : ascii := "\"%char.

(** [s.startswith(p)] *)
Definition startswith (p s : string) : bool := String.prefix p s.

(** [s.endswith(p)] *)
Definition endswith (p s : string) : bool :=
  (String.length p <=? String.length s)%nat
  && String.eqb (substring (String.length s - String.length p) (String.length p) s) p.

(** A slice bound [i] of a sequence of length [len], as Python clamps it. *)
Definition slice_bound (len i : Z) : Z :=
  if i <? 0 then Z.max 0 (i + len) else Z.min i len.

(** [s[lo:hi]], an omitted bound being [None]. *)
Definition slice (lo hi : option Z) (s : string) : string :=
  let n := Z.of_nat (String.length s) in
  let a := match lo with Some i => slice_bound n i | None => 0 end in
  let b := match hi with Some j => slice_bound n j | None => n end in
  substring (Z.to_nat a) (Z.to_nat (b - a)) s.

(** [s.replace(a, b)] for one-character [a] and [b]. *)
Fixpoint replace_char (a b : ascii) (s : string) : string :=
  match s with
  | EmptyString => EmptyString
  | String c r => String (if Ascii.eqb c a then b else c) (replace_char a b r)
  end.

(** [c in s] for a character [c]. *)
Fixpoint contains_char (c : ascii) (s : string) : bool :=
  match s with
  | EmptyString => false
  | String d r => Ascii.eqb d c || contains_char c r
  end.

(** [str(n)] for a non-negative [int]. *)
Definition str_of_nat (n : nat) : string := NilEmpty.string_of_uint (Nat.to_uint n).

(** *** [repr] of a string *)

Definition hexdigit (n : N) : ascii :=
  match String.get (N.to_nat n) "0123456789abcdef" with
  | Some c => c
  | None => "0"%char
  end.

(** [str.isprintable] on one code point below 256: the controls
    (0..31, 127..159), the no-break space (160) and the soft hyphen (173)
    are not printable. *)
Definition isprintable (c : ascii) : bool :=
  let n := N_of_ascii c in
  ((32 <=? n) && (n <? 127) || (161 <=? n) && negb (n =? 173))%N.

Definition repr_char (quote c : ascii) : string :=
  if Ascii.eqb c quote || Ascii.eqb c backslash then String backslash (String c EmptyString)
  else if (N_of_ascii c =? 9)%N then "\t"
  else if (N_of_ascii c =? 10)%N then "\n"
  else if (N_of_ascii c =? 13)%N then "\r"
  else if isprintable c then String c EmptyString
  else String backslash (String "x" (String (hexdigit (N_of_ascii c / 16))
         (String (hexdigit (N_of_ascii c mod 16)) EmptyString))).

Fixpoint repr_body (quote : ascii) (s : string) : string :=
  match s with
  | EmptyString => EmptyString
  | String c r => repr_char quote c +:+ repr_body quote r
  end.

(** The quote [repr] chooses: a double quote when the string has a single
    quote and no double quote, a single quote otherwise. *)
Definition repr_quote (s : string) : ascii :=
  if contains_char squote s && negb (contains_char dquote s) then dquote else squote.

(** [repr(s)], which is also what the format field [{!r}] produces. *)
Definition repr (s : string) : string :=
  let q := repr_quote s in
  String q (repr_body q s +:+ String q EmptyString).

End PyStr.

(** ** The query translator *)

Definition safe_xmlstr (s : string) : string := PyStr.replace_char "$" "-" s.

Definition string_quote (s : string) : string := PyStr.repr s.

Definition strict_xpath (xpath : string) : string :=
  if PyStr.startswith "//" xpath then xpath
  else if PyStr.startswith "@" xpath then
    "//*[@resource-id=" +:+ PyStr.repr (PyStr.slice (Some 1) None xpath) +:+ "]"
  else if PyStr.startswith "^" xpath then
    "//*[re:match(text(), " +:+ PyStr.repr xpath +:+ ")]"
  else if PyStr.startswith "%" xpath && PyStr.endswith "%" xpath then
    "//*[contains(@text, " +:+ string_quote (PyStr.slice (Some 1) (Some (-1)) xpath) +:+ ")]"
  else if PyStr.startswith "%" xpath then
    let text := PyStr.slice (Some 1) None xpath in
    "//*[" +:+ PyStr.repr text +:+ " = substring(@text, string-length(@text) - "
      +:+ PyStr.str_of_nat (String.length text) +:+ " + 1)]"
  else if PyStr.endswith "%" xpath then
    let text := PyStr.slice None (Some (-1)) xpath in
    "//*[starts-with(@text, " +:+ PyStr.repr text +:+ ")]"
  else
    "//*[@text=" +:+ string_quote xpath +:+ " or @content-desc=" +:+ string_quote xpath +:+ "]".

(** The translator as the specification words it: the same seven rules, the
    fourth one only for strings of length greater than one. *)
Definition strict_xpath_spec (xpath : string) : string :=
  if PyStr.startswith "//" xpath then xpath
  else if PyStr.startswith "@" xpath then
    "//*[@resource-id=" +:+ PyStr.repr (PyStr.slice (Some 1) None xpath) +:+ "]"
  else if PyStr.startswith "^" xpath then
    "//*[re:match(text(), " +:+ PyStr.repr xpath +:+ ")]"
  else if PyStr.startswith "%" xpath && PyStr.endswith "%" xpath
          && (1 <? String.length xpath)%nat then
    "//*[contains(@text, " +:+ PyStr.repr (PyStr.slice (Some 1) (Some (-1)) xpath) +:+ ")]"
  else if PyStr.startswith "%" xpath then
    let text := PyStr.slice (Some 1) None xpath in
    "//*[" +:+ PyStr.repr text +:+ " = substring(@text, string-length(@text) - "
      +:+ PyStr.str_of_nat (String.length text) +:+ " + 1)]"
  else if PyStr.endswith "%" xpath then
    "//*[starts-with(@text, " +:+ PyStr.repr (PyStr.slice None (Some (-1)) xpath) +:+ ")]"
  else
    "//*[@text=" +:+ PyStr.repr xpath +:+ " or @content-desc=" +:+ PyStr.repr xpath +:+ "]".

(** A string on which none of the first five rules fires. *)
Definition no_sigil (s : string) : Prop :=
  PyStr.startswith "//" s = false /\ PyStr.startswith "@" s = false
  /\ PyStr.startswith "^" s = false /\ PyStr.startswith "%" s = false.


(** ** Exceptions and results *)

Inductive exn :=
| IndexError
| ValueError
| TypeError
| OverflowError
| AssertionError
| RuntimeError (args : list string)
| XMLSyntaxError
| XPathEvalError
| XPathElementNotFoundError (xpaths : list string).

Inductive result (A : Type) :=
| Ok (a : A)
| Raise (e : exn).
Arguments Ok {A} a.
Arguments Raise {A} e.

#[global] Instance result_ret : MRet result := fun A a => Ok a.
#[global] Instance result_bind : MBind result := fun A B f r =>
  match r with
  | Ok a => f a
  | Raise e => Raise e
  end.

#[global] Instance result_fmap : FMap result := fun A B f r =>
  match r with
  | Ok a => Ok (f a)
  | Raise e => Raise e
  end.

(** [xs[0]] *)
Definition first_item {A : Type} (xs : list A) : result A :=
  match xs with
  | x :: _ => Ok x
  | [] => Raise IndexError
  end.

(** [a or b] on strings: the empty string is false. *)
Definition str_or (a b : string) : string :=
  match a with
  | EmptyString => b
  | _ => a
  end.

(** ** Python floats *)

Module PyFloat.

Definition prec : Z := 53.
Definition emax : Z := 1024.

(** The literals [0.5] and [1.0]. *)
Definition half : spec_float := S754_finite false 4503599627370496 (-53).
Definition one : spec_float := S754_finite false 4503599627370496 (-52).

(** [float(n)]: the nearest binary64 number, [OverflowError] when there is none. *)
Definition of_int (n : Z) : result spec_float :=
  match binary_normalize prec emax n 0 false with
  | S754_infinity _ => Raise OverflowError
  | f => Ok f
  end.

(** The absolute value of a finite number [m * 2 ^ e], rounded down. *)
Definition magnitude (m : positive) (e : Z) : Z :=
  if 0 <=? e then Z.pos m * 2 ^ e else Z.pos m / 2 ^ (- e).

(** [int(f)]: the fractional part is dropped. *)
Definition to_int (f : spec_float) : result Z :=
  match f with
  | S754_zero _ => Ok 0
  | S754_finite s m e => Ok (if s then - magnitude m e else magnitude m e)
  | S754_infinity _ => Raise OverflowError
  | S754_nan => Raise ValueError
  end.

(** [n * f] for an [int] [n] and a [float] [f]. *)
Definition int_mul (n : Z) (f : spec_float) : result spec_float :=
  x ← of_int n; Ok (SFmul prec emax x f).

(** [n - f] for an [int] [n] and a [float] [f]. *)
Definition int_sub (n : Z) (f : spec_float) : result spec_float :=
  x ← of_int n; Ok (SFsub prec emax x f).

(** [0 < f] *)
Definition is_positive (f : spec_float) : bool := SFltb (S754_zero false) f.

(** [f <= g] *)
Definition leb (f g : spec_float) : bool := SFleb f g.

(** [int(n * f)] *)
Definition int_of_product (n : Z) (f : spec_float) : result Z :=
  p ← int_mul n f; to_int p.

End PyFloat.

(** ** The regular expression [\d+] and [int] on its matches *)

Module Re.

Definition is_digit (c : ascii) : bool :=
  let n := N_of_ascii c in ((48 <=? n) && (n <=? 57))%N.

(** The matches of [\d+] in [s], from left to right, [run] being the digits
    of the match under way. *)
Fixpoint scan_digits (run : string) (s : string) : list string :=
  match s with
  | EmptyString =>
      match run with
      | EmptyString => []
      | _ => [run]
      end
  | String c r =>
      if is_digit c then scan_digits (run +:+ String c EmptyString) r
      else
        match run with
        | EmptyString => scan_digits EmptyString r
        | _ => run :: scan_digits EmptyString r
        end
  end.

(** [re.findall(r"\d+", s)] *)
Definition findall_digits (s : string) : list string := scan_digits EmptyString s.

Definition digit_value (c : ascii) : Z := Z.of_N (N_of_ascii c) - 48.

Fixpoint digits_value_from (acc : Z) (s : string) : Z :=
  match s with
  | EmptyString => acc
  | String c r => digits_value_from (10 * acc + digit_value c) r
  end.

(** The number a run of digits writes in base ten. *)
Definition digits_value (s : string) : Z := digits_value_from 0 s.

(** [sys.get_int_max_str_digits()], as CPython sets it by default. *)
Definition max_str_digits : Z := 4300.

(** [int(s)] for a run of digits: a [ValueError] when the run is longer than
    the limit on the digits of a numeral. *)
Definition int_of_digits (s : string) : result Z :=
  if max_str_digits <? Z.of_nat (String.length s) then Raise ValueError
  else Ok (digits_value s).

(** [map(int, runs)] read to its end.  Every failure of [int] and of the
    unpacking that reads it is a [ValueError], so how far the unpacking reads
    does not show. *)
Fixpoint map_int (runs : list string) : result (list Z) :=
  match runs with
  | [] => Ok []
  | s :: r => n ← int_of_digits s; ns ← map_int r; Ok (n :: ns)
  end.

End Re.

(** ** The parsed hierarchy *)

Local Unset Elimination Schemes.

(** An lxml element: its tag, its attribute mapping and its child elements. *)
Inductive element :=
| Element (tag : string) (attrib : gmap string string) (children : list element).

Local Set Elimination Schemes.

Definition tag (e : element) : string :=
  match e with Element t _ _ => t end.

Definition attrib (e : element) : gmap string string :=
  match e with Element _ a _ => a end.

Definition children (e : element) : list element :=
  match e with Element _ _ cs => cs end.

(** The elements of a tree in document order, the root first. *)
Fixpoint iter (e : element) : list element :=
  match e with
  | Element _ _ cs => e :: flat_map iter cs
  end.

(** The loop at the head of [XPathSelector.all]:
    [for node in root.xpath("//node"):
       node.tag = safe_xmlstr(node.attrib.pop("class", "")) or "node"].
    [//node] selects every element whose tag is [node]. *)
Definition retag_node (a : gmap string string) : string :=
  str_or (safe_xmlstr (default EmptyString (a !! "class"))) "node".

(** The tree once the loop has run to its end. *)
Fixpoint retagged (e : element) : element :=
  match e with
  | Element t a cs =>
      if String.eqb t "node"
      then Element (retag_node a) (delete "class" a) (retagged <$> cs)
      else Element t a (retagged <$> cs)
  end.

(** The XPath predicate [@name = value] on one element. *)
Definition attr_is (name value : string) (e : element) : bool :=
  bool_decide (attrib e !! name = Some value).

(** What the repository takes from lxml and from Python's [set].
    - [parse_xml] is [etree.fromstring]; [None] stands for its syntax error.
    - [tag_ok] is the check lxml makes when a tag is assigned: whether the
      string is a name it accepts as a tag.
    - [xpath_eval root q] is [root.xpath(q, namespaces=...)] for a query whose
      value is a set of elements, each given by its position in [iter root];
      [None] stands for the evaluator's error.  A position beyond the
      document denotes no element.
    - [set_iter] is the order in which a [set] of elements is iterated,
      which Python leaves open. *)
Record Engine := {
  parse_xml : string -> option element;
  tag_ok : string -> bool;
  xpath_eval : element -> string -> option (list nat);
  set_iter : gset nat -> list nat;
  set_iter_perm : forall X, set_iter X ≡ₚ elements X
}.

(** Whether every assignment of the loop is accepted. *)
Definition tags_ok (E : Engine) (root : element) : bool :=
  forallb (fun e => negb (String.eqb (tag e) "node") || tag_ok E (retag_node (attrib e)))
          (iter root).

(** The loop: lxml raises [ValueError] at the first tag it refuses. *)
Definition retag (E : Engine) (root : element) : result element :=
  if tags_ok E root then Ok (retagged root) else Raise ValueError.

(** The value [functools.reduce] folds in [XPathSelector.all]: the first
    match list itself, or a set once two lists have been intersected. *)
Inductive matches :=
| MatchList (l : list nat)
| MatchSet (s : gset nat).

(** [set(x)] *)
Definition to_set (m : matches) : gset nat :=
  match m with
  | MatchList l => list_to_set l
  | MatchSet s => s
  end.

(** [lambda x, y: set(x).intersection(y)] *)
Definition intersect (x : matches) (y : list nat) : matches :=
  MatchSet (to_set x ∩ list_to_set y).

(** [functools.reduce(f, match_sets)], a [TypeError] on the empty list. *)
Definition reduce_intersection (match_sets : list (list nat)) : result matches :=
  match match_sets with
  | [] => Raise TypeError
  | m :: rest => Ok (foldl intersect (MatchList m) rest)
  end.

(** [for node in match_nodes] *)
Definition iterate (E : Engine) (m : matches) : list nat :=
  match m with
  | MatchList l => l
  | MatchSet s => set_iter E s
  end.

(** [root.xpath(xpath, ...)] for every query of the list, in order. *)
Fixpoint eval_all (E : Engine) (root : element) (xpath_list : list string)
  : result (list (list nat)) :=
  match xpath_list with
  | [] => Ok []
  | q :: qs =>
      match xpath_eval E root q with
      | None => Raise XPathEvalError
      | Some m => ms ← eval_all E root qs; Ok (m :: ms)
      end
  end.

(** ** The three classes' data *)

(** An [XMLElement]: the element it wraps, with the element's position in
    the document as its identity. *)
Record XMLElement := mkXMLElement {
  el_id : nat;
  elem : element
}.

(** [[XMLElement(node, parent) for node in match_nodes]] *)
Definition wrap (root : element) (ids : list nat) : list XMLElement :=
  omap (fun i => mkXMLElement i <$> (iter root !! i)) ids.

(** The part of [XPathSelector.all] after the snapshot is chosen. *)
Definition resolve (E : Engine) (xml_content : string) (xpath_list : list string)
  : result (list XMLElement) :=
  match parse_xml E xml_content with
  | None => Raise XMLSyntaxError
  | Some root0 =>
      root ← retag E root0;
      match_sets ← eval_all E root xpath_list;
      match_nodes ← reduce_intersection match_sets;
      Ok (wrap root (iterate E match_nodes))
  end.

(** The fields of [XPath] the model reads; times are in milliseconds. *)
Record XPath := mkXPath {
  wait_timeout : Z;
  _click_before_delay : Z;
  _click_after_delay : option Z;
  p_last_source : option string;
  send_click_callbacks : nat
}.

(** The fields of [XPathSelector]. *)
Record XPathSelector := mkXPathSelector {
  _xpath_list : list string;
  _source : option string;
  _last_source : option string
}.

(** What the program does that can be seen from outside, in order. *)
Inductive event :=
| EvDump
| EvResolve (xml_content : string)
| EvSleep (ms : Z)
| EvCallback (x y : Z)
| EvClick (x y : Z)
| EvSwipe (sx sy tx ty : Z).

(** The device: the hierarchy it shows at each instant, and how long one
    dump takes. *)
Record Device := {
  hierarchy_at : Z -> string;
  dump_latency : Z
}.

Record State := mkState {
  clock : Z;
  trace : list event;
  parent : XPath;
  selector : XPathSelector
}.

Definition with_clock (t : Z) (st : State) : State :=
  mkState t (trace st) (parent st) (selector st).

Definition with_event (ev : event) (st : State) : State :=
  mkState (clock st) (trace st ++ [ev]) (parent st) (selector st).

Definition with_parent (p : XPath) (st : State) : State :=
  mkState (clock st) (trace st) p (selector st).

Definition with_selector (sel : XPathSelector) (st : State) : State :=
  mkState (clock st) (trace st) (parent st) sel.

(** ** Stateful code *)

Definition M (A : Type) : Type := State -> result (A * State).

Definition ret {A : Type} (a : A) : M A := fun st => Ok (a, st).

Definition bind {A B : Type} (c : M A) (k : A -> M B) : M B :=
  fun st =>
    match c st with
    | Ok (a, st') => k a st'
    | Raise e => Raise e
    end.

Definition raise {A : Type} (e : exn) : M A := fun _ => Raise e.

Definition lift {A : Type} (r : result A) : M A :=
  fun st =>
    match r with
    | Ok a => Ok (a, st)
    | Raise e => Raise e
    end.

Definition get_state : M State := fun st => Ok (st, st).

Definition modify (f : State -> State) : M unit := fun st => Ok (tt, f st).

Notation "'let*' x ':=' c 'in' k" := (bind c (fun x => k))
  (at level 10, x name, c at level 100, k at level 200, only parsing).
Notation "'let*' ' p ':=' c 'in' k" := (bind c (fun p => k))
  (at level 10, p strict pattern, c at level 100, k at level 200, only parsing).

(** The longest delay [time.sleep] accepts, in milliseconds: it keeps the
    delay as a signed 64-bit count of nanoseconds. *)
Definition sleep_max : Z := 9223372036854.

(** [time.sleep(ms / 1000)]: a [ValueError] for a negative delay, an
    [OverflowError] for one that is too long. *)
Definition sleep (ms : Z) : M unit :=
  if ms <? 0 then raise ValueError
  else if sleep_max <? ms then raise OverflowError
  else modify (fun st => with_event (EvSleep ms) (with_clock (clock st + ms) st)).

(** [time.time()] *)
Definition now : M Z := fun st => Ok (clock st, st).

(** A string that counts as true: [None] and the empty string do not. *)
Definition truthy (s : option string) : option string :=
  match s with
  | Some EmptyString => None
  | _ => s
  end.

(** ** class XPath *)

Module XPath.

Definition set_last_source (s : string) (p : XPath) : XPath :=
  mkXPath (wait_timeout p) (_click_before_delay p) (_click_after_delay p)
          (Some s) (send_click_callbacks p).

(** [self._last_source = self._d.dump_hierarchy(); return self._last_source] *)
Definition dump_hierarchy (dev : Device) : M string :=
  fun st =>
    let s := hierarchy_at dev (clock st) in
    Ok (s, mkState (clock st + dump_latency dev) (trace st ++ [EvDump])
                   (set_last_source s (parent st)) (selector st)).

Definition run_callbacks (n : nat) (x y : Z) : M unit :=
  modify (fun st => mkState (clock st) (trace st ++ replicate n (EvCallback x y))
                            (parent st) (selector st)).

Definition send_click (x y : Z) : M unit :=
  let* st := get_state in
  let p := parent st in
  let* _ := (if _click_before_delay p =? 0 then ret tt else sleep (_click_before_delay p)) in
  let* _ := run_callbacks (send_click_callbacks p) x y in
  let* _ := modify (with_event (EvClick x y)) in
  match _click_after_delay p with
  | Some d => if d =? 0 then ret tt else sleep d
  | None => ret tt
  end.

Definition send_swipe (sx sy tx ty : Z) : M unit :=
  modify (with_event (EvSwipe sx sy tx ty)).

End XPath.

(** ** class XMLElement *)

(** The dictionary [XMLElement.info] returns, a field for each key; the
    value of an attribute that is absent is [None]. *)
Record Info := mkInfo {
  info_text : option string;
  info_focusable : option string;
  info_enabled : option string;
  info_focused : option string;
  info_scrollable : option string;
  info_selected : option string;
  info_className : string;
  info_bounds : Z * Z * Z * Z;
  info_contentDescription : option string;
  info_longClickable : option string;
  info_packageName : option string
}.

Module XMLElement.

(** [lx, ly, rx, ry = map(int, re.findall(r"\d+", bounds))]: [re.findall]
    wants a string, [int] a numeral within its limit, and the unpacking four
    values. *)
Definition bounds (el : XMLElement) : result (Z * Z * Z * Z) :=
  match attrib (elem el) !! "bounds" with
  | None => Raise TypeError
  | Some b =>
      vals ← Re.map_int (Re.findall_digits b);
      match vals with
      | [lx; ly; rx; ry] => Ok (lx, ly, rx, ry)
      | _ => Raise ValueError
      end
  end.

Definition rect (el : XMLElement) : result (Z * Z * Z * Z) :=
  '(lx, ly, rx, ry) ← bounds el;
  Ok (lx, ly, rx - lx, ry - ly).

Definition offset (el : XMLElement) (px py : spec_float) : result (Z * Z) :=
  '(x, y, width, height) ← rect el;
  dx ← PyFloat.int_of_product width px;
  dy ← PyFloat.int_of_product height py;
  Ok (x + dx, y + dy).

Definition center (el : XMLElement) : result (Z * Z) :=
  offset el PyFloat.half PyFloat.half.

Definition click (el : XMLElement) : M unit :=
  let* '(x, y) := lift (center el) in
  XPath.send_click x y.

Definition swipe (el : XMLElement) (direction : string) (scale : spec_float) : M unit :=
  let _swipe (_from _to : Z * Z) := XPath.send_swipe _from.1 _from.2 _to.1 _to.2 in
  if negb (PyFloat.is_positive scale && PyFloat.leb scale PyFloat.one) then raise AssertionError
  else
    let* '(lx, ly, rx, ry) := lift (bounds el) in
    let width := rx - lx in
    let height := ry - ly in
    let* rest := lift (PyFloat.int_sub 1 scale) in
    let* h := lift (p ← PyFloat.int_mul width rest; PyFloat.to_int p) in
    let h_offset := h / 2 in
    let* v := lift (p ← PyFloat.int_mul height rest; PyFloat.to_int p) in
    let v_offset := v / 2 in
    let left := (lx + h_offset, ly + height / 2) in
    let up := (lx + width / 2, ly + v_offset) in
    let right := (rx - h_offset, ly + height / 2) in
    let bottom := (lx + width / 2, ry - v_offset) in
    if String.eqb direction "left" then _swipe right left
    else if String.eqb direction "right" then _swipe left right
    else if String.eqb direction "up" then _swipe bottom up
    else if String.eqb direction "down" then _swipe up bottom
    else raise (RuntimeError ["Unknown direction:"; direction]).

(** [info]: the six attributes, the tag as the class name, the bounds as
    (left, top, right, bottom), and three attributes under other names. *)
Definition info (el : XMLElement) : result Info :=
  let a := attrib (elem el) in
  '(lx, ly, rx, ry) ← bounds el;
  Ok (mkInfo (a !! "text") (a !! "focusable") (a !! "enabled") (a !! "focused")
             (a !! "scrollable") (a !! "selected") (tag (elem el)) (lx, ly, rx, ry)
             (a !! "content-desc") (a !! "long-clickable") (a !! "package")).

End XMLElement.

(** ** class XPathSelector *)

Module XPathSelector.

(** [XPathSelector(parent, xpath, source)] for a string [xpath]. *)
Definition init (xpath : string) (source : option string) : XPathSelector :=
  mkXPathSelector [strict_xpath xpath] source None.

(** [self._xpath_list.append(strict_xpath(xpath)); return self] *)
Definition xpath (xp : string) (sel : XPathSelector) : XPathSelector :=
  mkXPathSelector (_xpath_list sel ++ [strict_xpath xp]) (_source sel) (_last_source sel).

Definition set_last_source (s : string) (sel : XPathSelector) : XPathSelector :=
  mkXPathSelector (_xpath_list sel) (_source sel) (Some s).

(** [source or self._source or self._parent.dump_hierarchy()] *)
Definition choose_source (dev : Device) (source : option string) : M string :=
  let* st := get_state in
  match truthy source with
  | Some s => ret s
  | None =>
      match truthy (_source (selector st)) with
      | Some s => ret s
      | None => XPath.dump_hierarchy dev
      end
  end.

Definition all (dev : Device) (E : Engine) (source : option string) : M (list XMLElement) :=
  let* xml_content := choose_source dev source in
  let* _ := modify (fun st => with_selector (set_last_source xml_content (selector st)) st) in
  let* _ := modify (with_event (EvResolve xml_content)) in
  let* st := get_state in
  lift (resolve E xml_content (_xpath_list (selector st))).

(** [len(self.all()) > 0] *)
Definition exists_ (dev : Device) (E : Engine) : M bool :=
  let* els := all dev E None in
  ret (0 <? length els)%nat.

(** [self.all(self._last_source)[0]] *)
Definition get_last_match (dev : Device) (E : Engine) : M XMLElement :=
  let* st := get_state in
  let* els := all dev E (_last_source (selector st)) in
  lift (first_item els).

(** [timeout or self._global_timeout]: [None] and zero give the default. *)
Definition timeout_or (timeout : option Z) (global_timeout : Z) : Z :=
  match timeout with
  | Some t => if t =? 0 then global_timeout else t
  | None => global_timeout
  end.

(** The loop of [wait]; [None] when [fuel] iterations do not reach its end. *)
Fixpoint wait_loop (dev : Device) (E : Engine) (fuel : nat) (deadline : Z) (st : State)
  : option (result (option XMLElement * State)) :=
  match fuel with
  | O => None
  | S fuel' =>
      if clock st <? deadline then
        match exists_ dev E st with
        | Raise e => Some (Raise e)
        | Ok (true, st1) =>
            Some ((let* el := get_last_match dev E in ret (Some el)) st1)
        | Ok (false, st1) =>
            match sleep 200 st1 with
            | Ok (_, st2) => wait_loop dev E fuel' deadline st2
            | Raise e => Some (Raise e)
            end
        end
      else Some (Ok (None, st))
  end.

Definition wait (dev : Device) (E : Engine) (fuel : nat) (timeout : option Z) (st : State)
  : option (result (option XMLElement * State)) :=
  let deadline := clock st + timeout_or timeout (wait_timeout (parent st)) in
  wait_loop dev E fuel deadline st.

(** [get]: the match, or [XPathElementNotFoundError] when [wait] gives none. *)
Definition get (dev : Device) (E : Engine) (fuel : nat) (st : State)
  : option (result (XMLElement * State)) :=
  match wait dev E fuel (Some (wait_timeout (parent st))) st with
  | None => None
  | Some (Raise e) => Some (Raise e)
  | Some (Ok (None, st')) => Some (Raise (XPathElementNotFoundError (_xpath_list (selector st'))))
  | Some (Ok (Some _, st')) => Some (get_last_match dev E st')
  end.

Definition click_nowait (dev : Device) (E : Engine) : M unit :=
  let* els := all dev E None in
  let* el := lift (first_item els) in
  let* '(x, y) := lift (XMLElement.center el) in
  XPath.send_click x y.

(** [XPathSelector(parent, xpath, source)] for a list [xpath], which is
    taken as the query list as it is. *)
Definition init_list (xpath_list : list string) (source : option string) : XPathSelector :=
  mkXPathSelector xpath_list source None.

(** The loop of [wait_gone]; [None] when [fuel] iterations do not reach its
    end. *)
Fixpoint wait_gone_loop (dev : Device) (E : Engine) (fuel : nat) (deadline : Z) (st : State)
  : option (result (bool * State)) :=
  match fuel with
  | O => None
  | S fuel' =>
      if clock st <? deadline then
        match exists_ dev E st with
        | Raise e => Some (Raise e)
        | Ok (false, st1) => Some (Ok (true, st1))
        | Ok (true, st1) =>
            match sleep 200 st1 with
            | Ok (_, st2) => wait_gone_loop dev E fuel' deadline st2
            | Raise e => Some (Raise e)
            end
        end
      else Some (Ok (false, st))
  end.

Definition wait_gone (dev : Device) (E : Engine) (fuel : nat) (timeout : option Z) (st : State)
  : option (result (bool * State)) :=
  let deadline := clock st + timeout_or timeout (wait_timeout (parent st)) in
  wait_gone_loop dev E fuel deadline st.

(** [self.get().attrib.get("text", "")] *)
Definition get_text (dev : Device) (E : Engine) (fuel : nat) (st : State)
  : option (result (string * State)) :=
  match get dev E fuel st with
  | None => None
  | Some (Raise e) => Some (Raise e)
  | Some (Ok (el, st')) => Some (Ok (default EmptyString (attrib (elem el) !! "text"), st'))
  end.

End XPathSelector.

(** ** The methods of class XPath that make a selector *)

Module XPathCalls.

(** The [xpath] argument of [XPath.__call__]: a shorthand string, or a list
    of queries. *)
Inductive xpath_arg :=
| XStr (xpath : string)
| XList (xpath_list : list string).

(** [XPathSelector(self, xpath, source)] *)
Definition call (xpath : xpath_arg) (source : option string) : XPathSelector :=
  match xpath with
  | XStr s => XPathSelector.init s source
  | XList l => XPathSelector.init_list l source
  end.

(** A computation on a selector of its own, which the caller's selector
    does not see. *)
Definition on_selector {A : Type} (sel : XPathSelector) (c : M A) : M A :=
  fun st =>
    match c (with_selector sel st) with
    | Ok (a, st') => Ok (a, with_selector (selector st) st')
    | Raise e => Raise e
    end.

(** [len(self(xpath, source).all()) > 0] *)
Definition match_ (dev : Device) (E : Engine) (xpath : xpath_arg) (source : option string)
  : M bool :=
  on_selector (call xpath source) (XPathSelector.exists_ dev E).

(** How [XPath.click] ends: it returns, or raises [TimeoutException] with
    the timeout it waited for, or lets another exception through. *)
Inductive click_result :=
| Clicked (st : State)
| TimeoutException (timeout : Z) (st : State)
| Raised (e : exn).

(** [if pre_delay: time.sleep(pre_delay)] *)
Definition pre_sleep (pre_delay : option Z) : M unit :=
  match pre_delay with
  | Some d => if d =? 0 then ret tt else sleep d
  | None => ret tt
  end.

(** One turn of the loop of [XPath.click] up to the test of the deadline:
    whether the element was there, in which case it has been clicked. *)
Definition click_attempt (dev : Device) (E : Engine) (xpath : xpath_arg)
    (pre_delay : option Z) : M bool :=
  let* source := XPath.dump_hierarchy dev in
  on_selector (call xpath (Some source))
    (let* found := XPathSelector.exists_ dev E in
     if found then
       let* _ := pre_sleep pre_delay in
       let* el := XPathSelector.get_last_match dev E in
       let* _ := XMLElement.click el in
       let* _ := sleep 500 in
       ret true
     else ret false).

(** The loop of [XPath.click]; [None] when [fuel] iterations do not reach its
    end. *)
Fixpoint click_loop (dev : Device) (E : Engine) (fuel : nat) (xpath : xpath_arg)
    (pre_delay : option Z) (timeout deadline : Z) (st : State) : option click_result :=
  match fuel with
  | O => None
  | S fuel' =>
      match click_attempt dev E xpath pre_delay st with
      | Raise e => Some (Raised e)
      | Ok (true, st1) => Some (Clicked st1)
      | Ok (false, st1) =>
          if deadline <? clock st1 then Some (TimeoutException timeout st1)
          else
            match sleep 500 st1 with
            | Ok (_, st2) => click_loop dev E fuel' xpath pre_delay timeout deadline st2
            | Raise e => Some (Raised e)
            end
      end
  end.

(** [XPath.click(xpath, timeout=timeout, pre_delay=pre_delay)] *)
Definition click (dev : Device) (E : Engine) (fuel : nat) (xpath : xpath_arg)
    (timeout pre_delay : option Z) (st : State) : option click_result :=
  let timeout := XPathSelector.timeout_or timeout (wait_timeout (parent st)) in
  let deadline := clock st + timeout in
  click_loop dev E fuel xpath pre_delay timeout deadline st.

End XPathCalls.

(** ** The XPath literal the translator writes

    XPath 1.0 has two forms of string literal, a run of characters other
    than the double quote between double quotes, and a run of characters
    other than the single quote between single quotes; neither has an
    escape. *)

Module XPathSyntax.

(** The characters of [s] before the first [q], and what follows that [q]. *)
Fixpoint until_quote (q : ascii) (s : string) : option (string * string) :=
  match s with
  | EmptyString => None
  | String c r =>
      if Ascii.eqb c q then Some (EmptyString, r)
      else '(v, rest) ← until_quote q r; Some (String c v, rest)
  end.

(** The literal at the head of [s]: its value and the text after it. *)
Definition literal (s : string) : option (string * string) :=
  match s with
  | EmptyString => None
  | String q r =>
      if Ascii.eqb q PyStr.squote || Ascii.eqb q PyStr.dquote then until_quote q r
      else None
  end.

(** [s] is one literal and nothing more, and its value is [v]. *)
Definition denotes (s v : string) : Prop := literal s = Some (v, EmptyString).

End XPathSyntax.

(** ** A session to run the model on *)

Module Example.

(** [XPath(d)] for a device whose default timeout is [timeout]. *)
Definition session (timeout : Z) : XPath := mkXPath timeout 0 None None 0.

Definition start (timeout : Z) (sel : XPathSelector) : State :=
  mkState 0 [] (session timeout) sel.

(** A device that always shows the same hierarchy and answers at once. *)
Definition still (xml : string) : Device :=
  {| hierarchy_at := fun _ => xml; dump_latency := 0 |}.

Fixpoint positions (p : element -> bool) (i : nat) (es : list element) : list nat :=
  match es with
  | [] => []
  | e :: r => if p e then i :: positions p (S i) r else positions p (S i) r
  end.

Fixpoint assoc {A : Type} (k : string) (table : list (string * A)) : option A :=
  match table with
  | [] => None
  | (k', v) :: r => if String.eqb k k' then Some v else assoc k r
  end.

(** A name of XML with no colon, for code points below 256: a letter or an
    underscore, then letters, digits, underscores, hyphens, full stops and
    middle dots. *)
Definition name_start (c : ascii) : bool :=
  let n := N_of_ascii c in
  ((65 <=? n) && (n <=? 90) || (97 <=? n) && (n <=? 122) || (n =? 95)
   || (192 <=? n) && (n <=? 214) || (216 <=? n) && (n <=? 246) || (248 <=? n))%N.

Definition name_char (c : ascii) : bool :=
  let n := N_of_ascii c in
  (name_start c || (48 <=? n) && (n <=? 57) || (n =? 45) || (n =? 46) || (n =? 183))%N.

Fixpoint all_name_chars (s : string) : bool :=
  match s with
  | EmptyString => true
  | String c r => name_char c && all_name_chars r
  end.

Definition xml_name (s : string) : bool :=
  match s with
  | EmptyString => false
  | String c r => name_start c && all_name_chars r
  end.

(** An engine that knows the documents and the queries of two tables: a
    document by its text, a query [//*[p]] by its text and the elements its
    predicate holds of.  It accepts the names of XML as tags. *)
Definition table_engine (docs : list (string * element))
    (queries : list (string * (element -> bool))) : Engine :=
  {| parse_xml := fun s => assoc s docs;
     tag_ok := xml_name;
     xpath_eval := fun root q => (fun p => positions p 0 (iter root)) <$> assoc q queries;
     set_iter := elements;
     set_iter_perm := fun X => Permutation_refl (elements X) |}.

Definition settings_xml : string :=
  "<hierarchy rotation='0'><node text='Settings' class='android.widget.TextView' bounds='[0,0][200,50]'/></hierarchy>".

Definition settings_tree : element :=
  Element "hierarchy" {[ "rotation" := "0" ]}
    [Element "node"
       {[ "text" := "Settings"; "class" := "android.widget.TextView";
          "bounds" := "[0,0][200,50]" ]} []].

Definition mixed_xml : string :=
  "<hierarchy><view class='a.B' bounds='[0,0][9,9]'/><node class='a.B' bounds='[0,9][9,18]'/></hierarchy>".

Definition mixed_tree : element :=
  Element "hierarchy" ∅
    [Element "view" {[ "class" := "a.B"; "bounds" := "[0,0][9,9]" ]} [];
     Element "node" {[ "class" := "a.B"; "bounds" := "[0,9][9,18]" ]} []].

Definition text_or_desc (v : string) (e : element) : bool :=
  attr_is "text" v e || attr_is "content-desc" v e.

Definition engine : Engine :=
  table_engine
    [(settings_xml, settings_tree); (mixed_xml, mixed_tree)]
    [("//*[@text='Settings' or @content-desc='Settings']", text_or_desc "Settings");
     ("//*[@text='Wifi' or @content-desc='Wifi']", text_or_desc "Wifi");
     ("//*[@class='a.B']", attr_is "class" "a.B");
     ("//*", fun _ => true)].

(** A snapshot with a node whose class is no name: it holds a space. *)
Definition odd_xml : string :=
  "<hierarchy><node class='a b' bounds='[0,0][9,9]'/></hierarchy>".

Definition odd_tree : element :=
  Element "hierarchy" ∅ [Element "node" {[ "class" := "a b"; "bounds" := "[0,0][9,9]" ]} []].

Definition odd_engine : Engine :=
  table_engine [(odd_xml, odd_tree)] [("//*", fun _ => true)].

(** The same lxml in a run where every set is iterated the other way
    round. *)
Definition reversed (E : Engine) : Engine :=
  {| parse_xml := parse_xml E;
     tag_ok := tag_ok E;
     xpath_eval := xpath_eval E;
     set_iter := fun X => reverse (set_iter E X);
     set_iter_perm := fun X =>
       perm_trans (reverse_Permutation (set_iter E X)) (set_iter_perm E X) |}.

End Example.

(** ** Notions the statements use *)

(** Every character of [s] satisfies [p]. *)
Fixpoint all_chars (p : ascii -> bool) (s : string) : bool :=
  match s with
  | EmptyString => true
  | String c r => p c && all_chars p r
  end.

(** A literal [repr] writes down unchanged: printable characters, no
    backslash, and at most one of the two kinds of quote. *)
Definition plain_literal (v : string) : bool :=
  all_chars (fun c => PyStr.isprintable c && negb (Ascii.eqb c PyStr.backslash)) v
  && negb (PyStr.contains_char PyStr.squote v && PyStr.contains_char PyStr.dquote v).

(** The text [it's "x"]. *)
Definition both_quotes : string :=
  "it's " +:+ String PyStr.dquote ("x" +:+ String PyStr.dquote EmptyString).

(** A run of digits, and a run of other characters. *)
Definition digits (s : string) : bool :=
  all_chars Re.is_digit s && negb (String.eqb s EmptyString).

Definition nondigits (s : string) : bool :=
  all_chars (fun c => negb (Re.is_digit c)) s.

(** A run [int] reads: it is within the limit on the digits of a numeral. *)
Definition short_run (s : string) : bool :=
  Z.of_nat (String.length s) <=? Re.max_str_digits.

(** The character [c] written [n] times. *)
Fixpoint repeated (c : ascii) (n : nat) : string :=
  match n with
  | O => EmptyString
  | S n' => String c (repeated c n')
  end.

(** A text that does not go on with a digit. *)
Definition starts_nondigit (s : string) : bool :=
  match s with
  | EmptyString => true
  | String c _ => negb (Re.is_digit c)
  end.

(** A text seen as separators and digit runs: each run with the separator
    before it, and the text after the last run. *)
Fixpoint spaced (toks : list (string * string)) (tail : string) : string :=
  match toks with
  | [] => tail
  | (sep, run) :: r => sep +:+ run +:+ spaced r tail
  end.

(** The runs are digit runs, the separators hold no digit, and two runs are
    never adjacent. *)
Definition well_spaced (toks : list (string * string)) (tail : string) : bool :=
  forallb (fun t => nondigits t.1 && digits t.2) toks
  && forallb (fun t => negb (String.eqb t.1 EmptyString)) (List.tl toks)
  && nondigits tail.

(** An element wrapper whose only attribute is [bounds]. *)
Definition with_bounds (b : string) : XMLElement :=
  mkXMLElement 0 (Element "node" {[ "bounds" := b ]} []).

(** The value of a float as a fraction with a positive denominator; none
    for an infinity or a NaN. *)
Definition float_ratio (f : spec_float) : option (Z * Z) :=
  match f with
  | S754_zero _ => Some (0, 1)
  | S754_finite s m e =>
      let n := if s then Z.neg m else Z.pos m in
      Some (if 0 <=? e then (n * 2 ^ e, 1) else (n, 2 ^ (- e)))
  | _ => None
  end.

(** [floor(n * f)], the product being the float product. *)
Definition floor_of_product (n : Z) (f : spec_float) : option Z :=
  match PyFloat.int_mul n f with
  | Ok p => '(a, d) ← float_ratio p; Some (a / d)
  | Raise _ => None
  end.

(** The offset as the specification words it:
    [left + floor(width * px), top + floor(height * py)]. *)
Definition offset_spec (el : XMLElement) (px py : spec_float) : option (Z * Z) :=
  match XMLElement.rect el with
  | Ok (x, y, width, height) =>
      dx ← floor_of_product width px;
      dy ← floor_of_product height py;
      Some (x + dx, y + dy)
  | Raise _ => None
  end.

(** The literal [-0.125]. *)
Definition minus_eighth : spec_float := S754_finite true 4503599627370496 (-55).

(** The swipe as the specification words it. *)

Inductive edge := LeftEdge | RightEdge | TopEdge | BottomEdge.

(** The rectangle (left, top, right, bottom) with [h] trimmed from its left
    and right sides and [v] from its top and bottom. *)
Definition inset (r : Z * Z * Z * Z) (h v : Z) : Z * Z * Z * Z :=
  let '(lx, ly, rx, ry) := r in (lx + h, ly + v, rx - h, ry - v).

(** The midpoint of an edge of a rectangle, halves rounded down. *)
Definition edge_mid (r : Z * Z * Z * Z) (e : edge) : Z * Z :=
  let '(lx, ly, rx, ry) := r in
  match e with
  | LeftEdge => (lx, (ly + ry) / 2)
  | RightEdge => (rx, (ly + ry) / 2)
  | TopEdge => ((lx + rx) / 2, ly)
  | BottomEdge => ((lx + rx) / 2, ry)
  end.

(** The edge a swipe starts from and the edge it ends at. *)
Definition swipe_edges (direction : string) : option (edge * edge) :=
  if String.eqb direction "left" then Some (RightEdge, LeftEdge)
  else if String.eqb direction "right" then Some (LeftEdge, RightEdge)
  else if String.eqb direction "up" then Some (BottomEdge, TopEdge)
  else if String.eqb direction "down" then Some (TopEdge, BottomEdge)
  else None.

(** What is trimmed from each side of an extent: half of
    [int(extent * (1 - scale))], rounded down. *)
Definition trim (extent : Z) (scale : spec_float) : result Z :=
  rest ← PyFloat.int_sub 1 scale;
  n ← PyFloat.int_of_product extent rest;
  Ok (n / 2).

(** [0 < scale <= 1.0] *)
Definition scale_ok (scale : spec_float) : bool :=
  PyFloat.is_positive scale && PyFloat.leb scale PyFloat.one.

(** A selector on which the queries [shs] have been attached one after the
    other with [.xpath()]. *)
Definition attach (sel : XPathSelector) (shs : list string) : XPathSelector :=
  foldl (fun s sh => XPathSelector.xpath sh s) sel shs.

(** How many events of a trace satisfy [p]. *)
Fixpoint count (p : event -> bool) (tr : list event) : nat :=
  match tr with
  | [] => 0
  | ev :: r => (if p ev then 1 else 0) + count p r
  end.

Definition is_resolve (ev : event) : bool :=
  match ev with EvResolve _ => true | _ => false end.

Definition is_sleep (ev : event) : bool :=
  match ev with EvSleep _ => true | _ => false end.

Definition is_dump (ev : event) : bool :=
  match ev with EvDump => true | _ => false end.

(** The resolves and the sleeps of a run. *)
Definition resolves (st : State) : nat := count is_resolve (trace st).
Definition sleeps (st : State) : nat := count is_sleep (trace st).

(** An error that resolving can raise: the parser's, the one of a tag that
    lxml refuses, the evaluator's, the one of an empty list of queries, and
    the one of the first element of an empty result. *)
Definition resolve_error (e : exn) : Prop :=
  e = XMLSyntaxError \/ e = ValueError \/ e = XPathEvalError \/ e = TypeError
  \/ e = IndexError.

(** The result of a run with the final state summed up as its resolves, its
    sleeps and its clock. *)
Definition report {A : Type} (r : option (result (A * State)))
  : option (result (A * (nat * nat * Z))) :=
  match r with
  | None => None
  | Some (Raise e) => Some (Raise e)
  | Some (Ok (a, st)) => Some (Ok (a, (resolves st, sleeps st, clock st)))
  end.

(** The snapshot [all()] resolves in the state [st] for a selector made
    with [source]: the pinned one, or what the device shows now. *)
Definition snapshot_for (dev : Device) (source : option string) (st : State) : string :=
  match truthy source with
  | Some s => s
  | None => hierarchy_at dev (clock st)
  end.

Definition is_click (ev : event) : bool :=
  match ev with EvClick _ _ => true | _ => false end.


(** The clicks and the dumps of a run. *)
Definition clicks (st : State) : nat := count is_click (trace st).
Definition dumps (st : State) : nat := count is_dump (trace st).

(** The literal [0.0]. *)
Definition float_zero : spec_float := S754_zero false.



(** The snapshot [all(source)] resolves in the state [st]: the argument,
    else the selector's pinned snapshot, else what the device shows now; an
    empty string counts as none. *)
Definition chosen_source (dev : Device) (source : option string) (st : State) : string :=
  match truthy source with
  | Some s => s
  | None => snapshot_for dev (_source (selector st)) st
  end.

(** Whether [all(source)] has a snapshot without asking the device. *)
Definition pinned (source : option string) (st : State) : bool :=
  match truthy source with
  | Some _ => true
  | None =>
      match truthy (_source (selector st)) with
      | Some _ => true
      | None => false
      end
  end.

(** The settings of a session: its timeout, its delays and its callbacks. *)
Definition same_settings (p p' : XPath) : Prop :=
  wait_timeout p' = wait_timeout p
  /\ _click_before_delay p' = _click_before_delay p
  /\ _click_after_delay p' = _click_after_delay p
  /\ send_click_callbacks p' = send_click_callbacks p.

(** The state [all(source)] leaves when it returns. *)
Definition after_all (dev : Device) (source : option string) (st : State) : State :=
  let xml := chosen_source dev source st in
  if pinned source st then
    mkState (clock st) (trace st ++ [EvResolve xml]) (parent st)
            (XPathSelector.set_last_source xml (selector st))
  else
    mkState (clock st + dump_latency dev) (trace st ++ [EvDump; EvResolve xml])
            (XPath.set_last_source xml (parent st))
            (XPathSelector.set_last_source xml (selector st)).

(** What [all] raises: the errors of resolving but for [IndexError]. *)
Definition all_error (e : exn) : Prop :=
  e = XMLSyntaxError \/ e = ValueError \/ e = XPathEvalError \/ e = TypeError.

(** The snapshot a poll at the instant [c] resolves for a selector made with
    [source], the events of the poll, and the time it takes: nothing is
    dumped when a snapshot is pinned. *)
Definition snapshot_at (dev : Device) (source : option string) (c : Z) : string :=
  match truthy source with
  | Some s => s
  | None => hierarchy_at dev c
  end.

Definition poll_events (dev : Device) (source : option string) (c : Z) : list event :=
  match truthy source with
  | Some s => [EvResolve s]
  | None => [EvDump; EvResolve (hierarchy_at dev c)]
  end.

Definition poll_cost (dev : Device) (source : option string) : Z :=
  match truthy source with
  | Some _ => 0
  | None => dump_latency dev
  end.

(** A run of polls from the instant [c] to the instant [c']: each poll
    starts before the deadline, resolves the snapshot of its instant, finds
    something or nothing as [found] says, and is followed by a sleep of
    200 ms. *)
Inductive polls (dev : Device) (E : Engine) (source : option string) (qs : list string)
    (found : bool) (deadline : Z) : Z -> list event -> Z -> Prop :=
| polls_done (c : Z) : polls dev E source qs found deadline c [] c
| polls_poll (c : Z) (R : list XMLElement) (tr : list event) (c' : Z) :
    c < deadline ->
    resolve E (snapshot_at dev source c) qs = Ok R ->
    (0 <? length R)%nat = found ->
    polls dev E source qs found deadline (c + poll_cost dev source + 200) tr c' ->
    polls dev E source qs found deadline c (poll_events dev source c ++ EvSleep 200 :: tr) c'.






(** Two runs of one lxml: the same parser, the same check of tags and the
    same evaluator.  What they may differ in is the order in which a set of
    elements is iterated, which follows the addresses of the elements of the
    parse. *)
Definition same_lxml (E1 E2 : Engine) : Prop :=
  (forall s, parse_xml E1 s = parse_xml E2 s)
  /\ (forall t, tag_ok E1 t = tag_ok E2 t)
  /\ (forall root q, xpath_eval E1 root q = xpath_eval E2 root q).

(** A selector for the queries [qs] that has resolved the snapshot [xml]. *)
Definition resolved_selector (qs : list string) (xml : string) : State :=
  mkState 0 [] (Example.session 20000) (mkXPathSelector qs None (Some xml)).

(** The positions in the document of the elements of a result, and the
    position of the element a run returns. *)
Definition positions_of (r : result (list XMLElement)) : result (list nat) :=
  match r with
  | Ok R => Ok (el_id <$> R)
  | Raise e => Raise e
  end.

Definition position_of (r : result (XMLElement * State)) : result nat :=
  match r with
  | Ok (x, _) => Ok (el_id x)
  | Raise e => Raise e
  end.
(** ** Facts on Python strings *)

Section PyStrFacts.
Import PyStr.

Lemma length_append (s t : string) :
  String.length (s +:+ t) = (String.length s + String.length t)%nat.
Proof. induction s as [|c s IH]; simpl; [reflexivity | now rewrite IH]. Qed.

Lemma substring_whole (s : string) : substring 0 (String.length s) s = s.
Proof. induction s as [|c s IH]; simpl; [reflexivity | now rewrite IH]. Qed.

Lemma substring_head (s t : string) : substring 0 (String.length s) (s +:+ t) = s.
Proof.
  induction s as [|c s IH]; simpl.
  - now destruct t.
  - now rewrite IH.
Qed.

Lemma substring_tail (s t : string) :
  substring (String.length s) (String.length t) (s +:+ t) = t.
Proof. induction s as [|c s IH]; simpl; [apply substring_whole | exact IH]. Qed.

Lemma startswith_cons (a : ascii) (p s : string) :
  startswith (String a p) (String a s) = startswith p s.
Proof. unfold startswith; simpl. destruct (ascii_dec a a); [reflexivity | congruence]. Qed.

Lemma startswith_cons_ne (a b : ascii) (p s : string) :
  a <> b -> startswith (String a p) (String b s) = false.
Proof. intros Hn. unfold startswith; simpl. destruct (ascii_dec a b); [contradiction | reflexivity]. Qed.

Lemma startswith_nil (s : string) : startswith EmptyString s = true.
Proof. now destruct s. Qed.

Lemma endswith_snoc (s : string) (c : ascii) :
  endswith (String c EmptyString) (s +:+ String c EmptyString) = true.
Proof.
  unfold endswith. rewrite length_append.
  replace (String.length s + String.length (String c EmptyString)
           - String.length (String c EmptyString))%nat with (String.length s) by lia.
  rewrite substring_tail, String.eqb_refl.
  apply andb_true_iff; split; [apply Nat.leb_le; lia | reflexivity].
Qed.

Lemma endswith_cons (c d : ascii) (s : string) :
  s <> EmptyString ->
  endswith (String d EmptyString) (String c s) = endswith (String d EmptyString) s.
Proof.
  intros Hs. destruct s as [|e s]; [contradiction|].
  unfold endswith. simpl String.length.
  replace (S (S (String.length s)) - 1)%nat with (S (String.length s)) by lia.
  replace (S (String.length s) - 1)%nat with (String.length s) by lia.
  reflexivity.
Qed.


Lemma slice_from_1 (c : ascii) (s : string) : slice (Some 1) None (String c s) = s.
Proof.
  unfold slice, slice_bound. change (1 <? 0) with false. cbv iota.
  simpl String.length.
  replace (Z.min 1 (Z.of_nat (S (String.length s)))) with 1 by lia.
  replace (Z.to_nat (Z.of_nat (S (String.length s)) - 1)) with (String.length s) by lia.
  simpl. apply substring_whole.
Qed.

Lemma slice_to_last (s : string) (c : ascii) :
  slice None (Some (-1)) (s +:+ String c EmptyString) = s.
Proof.
  unfold slice, slice_bound. change (-1 <? 0) with true. cbv iota.
  rewrite length_append. simpl String.length.
  replace (Z.to_nat (Z.max 0 (-1 + Z.of_nat (String.length s + 1)) - 0))
    with (String.length s) by lia.
  apply substring_head.
Qed.

Lemma slice_inner (c d : ascii) (s : string) :
  slice (Some 1) (Some (-1)) (String c (s +:+ String d EmptyString)) = s.
Proof.
  unfold slice, slice_bound. change (1 <? 0) with false. change (-1 <? 0) with true.
  cbv iota. simpl String.length. rewrite length_append. simpl String.length.
  replace (Z.min 1 (Z.of_nat (S (String.length s + 1)))) with 1 by lia.
  replace (Z.to_nat (Z.max 0 (-1 + Z.of_nat (S (String.length s + 1))) - 1))
    with (String.length s) by lia.
  simpl. apply substring_head.
Qed.

End PyStrFacts.

(** ** The translator's dispatch *)

Section Translator.
Import PyStr.

Ltac heads :=
  repeat first
    [ rewrite startswith_cons
    | rewrite startswith_nil
    | rewrite startswith_cons_ne by discriminate ].

Lemma strict_xpath_passthrough (r : string) :
  strict_xpath ("//" +:+ r) = "//" +:+ r.
Proof.
  change ("//" +:+ r) with (String "/" (String "/" r)).
  unfold strict_xpath. now heads.
Qed.

Lemma strict_xpath_resource_id (r : string) :
  strict_xpath ("@" +:+ r) = "//*[@resource-id=" +:+ repr r +:+ "]".
Proof.
  change ("@" +:+ r) with (String "@" r).
  unfold strict_xpath. heads. cbv iota.
  now rewrite slice_from_1.
Qed.

Lemma strict_xpath_regex (r : string) :
  strict_xpath ("^" +:+ r) = "//*[re:match(text(), " +:+ repr ("^" +:+ r) +:+ ")]".
Proof.
  change ("^" +:+ r) with (String "^" r).
  unfold strict_xpath. now heads.
Qed.

Lemma strict_xpath_contains (r : string) :
  strict_xpath ("%" +:+ r +:+ "%") = "//*[contains(@text, " +:+ repr r +:+ ")]".
Proof.
  change ("%" +:+ r +:+ "%") with (String "%" (r +:+ "%")).
  unfold strict_xpath, string_quote. heads. cbv iota.
  rewrite slice_inner.
  destruct r as [|c r].
  - reflexivity.
  - rewrite endswith_cons by (now destruct r).
    now rewrite (endswith_snoc (String c r) "%").
Qed.

Lemma strict_xpath_suffix (r : string) :
  r <> EmptyString -> endswith "%" r = false ->
  strict_xpath ("%" +:+ r) =
    "//*[" +:+ repr r +:+ " = substring(@text, string-length(@text) - "
      +:+ str_of_nat (String.length r) +:+ " + 1)]".
Proof.
  intros Hne Hend. change ("%" +:+ r) with (String "%" r).
  unfold strict_xpath. heads. cbv iota.
  rewrite endswith_cons, Hend by assumption. simpl andb. cbv iota.
  now rewrite slice_from_1.
Qed.

Lemma strict_xpath_prefix (r : string) :
  no_sigil (r +:+ "%") ->
  strict_xpath (r +:+ "%") = "//*[starts-with(@text, " +:+ repr r +:+ ")]".
Proof.
  intros (H1 & H2 & H3 & H4). unfold strict_xpath.
  rewrite H1, H2, H3, H4. simpl andb. cbv iota.
  now rewrite endswith_snoc, slice_to_last.
Qed.

Lemma strict_xpath_exact (s : string) :
  no_sigil s -> endswith "%" s = false ->
  strict_xpath s = "//*[@text=" +:+ repr s +:+ " or @content-desc=" +:+ repr s +:+ "]".
Proof.
  intros (H1 & H2 & H3 & H4) H5. unfold strict_xpath, string_quote.
  now rewrite H1, H2, H3, H4, H5.
Qed.

(** C2, as amended.  [strict_xpath] returns the query of the first of seven
    rules that fires: a string that starts with [//] is returned as it is;
    [@r] gives the equality of [resource-id] with [r]; [^r] gives the regular
    expression match of the text with the whole string, caret included; a
    string that starts and ends with [%] gives [contains] on what lies
    between, and this includes the one-character string [%], whose literal is
    empty; [%r] otherwise gives the comparison of [r] with the last
    [len(r)] characters of [@text]; [r%] gives [starts-with] on [r]; every
    other string gives the equality of [@text] or [@content-desc] with it. *)
Theorem strict_xpath_dispatch :
  (forall r, strict_xpath ("//" +:+ r) = "//" +:+ r)
  /\ (forall r, strict_xpath ("@" +:+ r) = "//*[@resource-id=" +:+ repr r +:+ "]")
  /\ (forall r, strict_xpath ("^" +:+ r)
                = "//*[re:match(text(), " +:+ repr ("^" +:+ r) +:+ ")]")
  /\ (forall r, strict_xpath ("%" +:+ r +:+ "%") = "//*[contains(@text, " +:+ repr r +:+ ")]")
  /\ strict_xpath "%" = "//*[contains(@text, " +:+ repr EmptyString +:+ ")]"
  /\ (forall r, r <> EmptyString -> endswith "%" r = false ->
        strict_xpath ("%" +:+ r)
        = "//*[" +:+ repr r +:+ " = substring(@text, string-length(@text) - "
            +:+ str_of_nat (String.length r) +:+ " + 1)]")
  /\ (forall r, no_sigil (r +:+ "%") ->
        strict_xpath (r +:+ "%") = "//*[starts-with(@text, " +:+ repr r +:+ ")]")
  /\ (forall s, no_sigil s -> endswith "%" s = false ->
        strict_xpath s
        = "//*[@text=" +:+ repr s +:+ " or @content-desc=" +:+ repr s +:+ "]").
Proof.
  repeat split.
  - apply strict_xpath_passthrough.
  - apply strict_xpath_resource_id.
  - apply strict_xpath_regex.
  - apply strict_xpath_contains.
  - apply strict_xpath_suffix.
  - apply strict_xpath_prefix.
  - apply strict_xpath_exact.
Qed.

(** The rules of C2 on the inputs the specification names. *)
Lemma strict_xpath_dispatch_examples :
  strict_xpath "@foo" = "//*[@resource-id='foo']"
  /\ strict_xpath "%abc%" = "//*[contains(@text, 'abc')]"
  /\ strict_xpath "%abc" = "//*['abc' = substring(@text, string-length(@text) - 3 + 1)]"
  /\ strict_xpath "abc%" = "//*[starts-with(@text, 'abc')]"
  /\ strict_xpath "Settings" = "//*[@text='Settings' or @content-desc='Settings']".
Proof.
  destruct strict_xpath_dispatch as (_ & Hid & _ & Hin & _ & Hsuf & Hpre & Hex).
  split; [exact (Hid "foo") |].
  split; [exact (Hin "abc") |].
  split; [apply (Hsuf "abc"); [discriminate | reflexivity] |].
  split; [apply (Hpre "abc"); repeat split |].
  apply (Hex "Settings"); repeat split.
Defined.

(** C2 as the specification states it fails on the one-character string
    [%]: its length is not greater than one, and the translator still gives
    the [contains] query, not the suffix comparison of the next rule nor the
    equality of the last one. *)
Lemma strict_xpath_percent_alone :
  String.length "%" = 1%nat
  /\ strict_xpath "%" = "//*[contains(@text, '')]"
  /\ strict_xpath_spec "%" = "//*['' = substring(@text, string-length(@text) - 0 + 1)]"
  /\ strict_xpath "%" <> strict_xpath_spec "%"
  /\ strict_xpath "%" <> "//*[@text='%' or @content-desc='%']".
Proof. repeat split; discriminate. Qed.

End Translator.

(** ** Quoting of literals *)

Section Quoting.
Import PyStr XPathSyntax.

Lemma until_quote_closing (q : ascii) (v : string) :
  contains_char q v = false ->
  until_quote q (v +:+ String q EmptyString) = Some (v, EmptyString).
Proof.
  induction v as [|c v IH]; simpl; intros Hq.
  - now rewrite Ascii.eqb_refl.
  - apply orb_false_iff in Hq as [Hc Hv].
    rewrite Hc, (IH Hv). reflexivity.
Qed.

Lemma repr_char_plain (q c : ascii) :
  Ascii.eqb c q = false -> Ascii.eqb c backslash = false -> isprintable c = true ->
  repr_char q c = String c EmptyString.
Proof.
  intros Hq Hb Hp. unfold repr_char. rewrite Hq, Hb, Hp. simpl orb. cbv iota.
  unfold isprintable in Hp.
  destruct (N.eqb_spec (N_of_ascii c) 9) as [E|_]; [rewrite E in Hp; discriminate|].
  destruct (N.eqb_spec (N_of_ascii c) 10) as [E|_]; [rewrite E in Hp; discriminate|].
  destruct (N.eqb_spec (N_of_ascii c) 13) as [E|_]; [rewrite E in Hp; discriminate|].
  reflexivity.
Qed.

Lemma repr_body_plain (q : ascii) (v : string) :
  contains_char q v = false ->
  all_chars (fun c => isprintable c && negb (Ascii.eqb c backslash)) v = true ->
  repr_body q v = v.
Proof.
  induction v as [|c v IH]; simpl; intros Hq Hv; [reflexivity|].
  apply orb_false_iff in Hq as [Hc Hq].
  apply andb_true_iff in Hv as [Hp Hv].
  apply andb_true_iff in Hp as [Hp Hb]. apply negb_true_iff in Hb.
  rewrite repr_char_plain, IH by assumption. reflexivity.
Qed.

Lemma repr_quote_absent (v : string) :
  (contains_char squote v && contains_char dquote v) = false ->
  contains_char (repr_quote v) v = false.
Proof.
  unfold repr_quote.
  destruct (contains_char squote v) eqn:Hs, (contains_char dquote v) eqn:Hd;
    simpl; intros H; congruence.
Qed.

(** Where the translator's quoting is right: the quoted form of a plain
    literal is one XPath literal, and it denotes the literal itself. *)
Lemma string_quote_plain (v : string) :
  plain_literal v = true -> denotes (string_quote v) v.
Proof.
  unfold plain_literal, denotes, string_quote, repr, literal.
  intros H. apply andb_true_iff in H as [Hc Hq]. apply negb_true_iff in Hq.
  pose proof (repr_quote_absent v Hq) as Habs.
  rewrite repr_body_plain by assumption.
  replace (Ascii.eqb (repr_quote v) squote || Ascii.eqb (repr_quote v) dquote) with true.
  - now apply until_quote_closing.
  - unfold repr_quote. now destruct (contains_char squote v && negb (contains_char dquote v)).
Qed.

(** C8 on the code.  A literal with a backslash is written with the
    backslash doubled, and XPath reads both; a literal with both kinds of
    quote is written between single quotes with a backslash before each
    single quote, and XPath ends the literal at the first of them.  In
    neither case does the quoted form denote the literal. *)
Theorem string_quote_not_xpath :
  string_quote "a\b" = "'a\\b'"
  /\ literal (string_quote "a\b") = Some ("a\\b", EmptyString)
  /\ ~ denotes (string_quote "a\b") "a\b"
  /\ string_quote both_quotes
     = "'it\'s " +:+ String dquote ("x" +:+ String dquote "'")
  /\ literal (string_quote both_quotes)
     = Some ("it\", "s " +:+ String dquote ("x" +:+ String dquote "'"))
  /\ ~ denotes (string_quote both_quotes) both_quotes
  /\ strict_xpath "a\b" = "//*[@text='a\\b' or @content-desc='a\\b']".
Proof. repeat split; discriminate. Qed.

End Quoting.

(** ** The bounds attribute *)

Section Bounds.
Import Re.

Lemma append_assoc (a b c : string) : (a +:+ b) +:+ c = a +:+ (b +:+ c).
Proof.
  induction a as [|x a IH]; [reflexivity|].
  change (String x ((a +:+ b) +:+ c) = String x (a +:+ (b +:+ c))). now rewrite IH.
Qed.

Lemma append_nil_r (a : string) : a +:+ EmptyString = a.
Proof.
  induction a as [|x a IH]; [reflexivity|].
  change (String x (a +:+ EmptyString) = String x a). now rewrite IH.
Qed.

Lemma scan_separator (sep rest : string) :
  nondigits sep = true ->
  scan_digits EmptyString (sep +:+ rest) = scan_digits EmptyString rest.
Proof.
  induction sep as [|c sep IH]; simpl; intros H; [reflexivity|].
  apply andb_true_iff in H as [Hc H]. apply negb_true_iff in Hc.
  rewrite Hc. now apply IH.
Qed.

Lemma scan_run (d run rest : string) :
  all_chars is_digit d = true ->
  scan_digits run (d +:+ rest) = scan_digits (run +:+ d) rest.
Proof.
  revert run. induction d as [|c d IH]; simpl; intros run H.
  - now rewrite append_nil_r.
  - apply andb_true_iff in H as [Hc H]. rewrite Hc, (IH _ H).
    now rewrite append_assoc.
Qed.

Lemma scan_run_end (run rest : string) :
  run <> EmptyString -> starts_nondigit rest = true ->
  scan_digits run rest = run :: scan_digits EmptyString rest.
Proof.
  intros Hrun Hrest. destruct rest as [|c rest]; simpl.
  - now destruct run.
  - simpl in Hrest. apply negb_true_iff in Hrest. rewrite Hrest. now destruct run.
Qed.

Lemma findall_token (sep d rest : string) :
  nondigits sep = true -> digits d = true -> starts_nondigit rest = true ->
  findall_digits (sep +:+ d +:+ rest) = d :: findall_digits rest.
Proof.
  unfold findall_digits, digits. intros Hs Hd Hr.
  apply andb_true_iff in Hd as [Hd Hne]. apply negb_true_iff in Hne.
  rewrite scan_separator, scan_run by assumption. simpl (EmptyString +:+ d).
  apply scan_run_end; [|assumption].
  intros ->. discriminate.
Qed.

Lemma starts_nondigit_nondigits (s : string) : nondigits s = true -> starts_nondigit s = true.
Proof. destruct s; simpl; [reflexivity|]. intros H. now apply andb_true_iff in H as [H _]. Qed.

Lemma starts_nondigit_append (s t : string) :
  s <> EmptyString -> nondigits s = true -> starts_nondigit (s +:+ t) = true.
Proof. destruct s; simpl; [congruence|]. intros _ H. now apply andb_true_iff in H as [H _]. Qed.

Lemma findall_nondigits (s : string) : nondigits s = true -> findall_digits s = [].
Proof.
  intros H. unfold findall_digits.
  rewrite <- (append_nil_r s), scan_separator by assumption. reflexivity.
Qed.

(** [re.findall] returns the digit runs of a text, whatever separates them. *)
Lemma findall_spaced (toks : list (string * string)) (tail : string) :
  well_spaced toks tail = true -> findall_digits (spaced toks tail) = toks.*2.
Proof.
  unfold well_spaced. intros H.
  apply andb_true_iff in H as [H Htail]. apply andb_true_iff in H as [Hruns Hseps].
  revert Hruns Hseps. induction toks as [|[sep run] r IH]; simpl; intros Hruns Hseps.
  - now apply findall_nondigits.
  - apply andb_true_iff in Hruns as [Hrun Hruns].
    apply andb_true_iff in Hrun as [Hsep Hrun]. simpl in Hsep, Hrun.
    rewrite findall_token; [| assumption | assumption |].
    + f_equal. apply IH; [assumption|].
      destruct r as [|t r']; [reflexivity|]. simpl in Hseps.
      now apply andb_true_iff in Hseps as [_ Hseps].
    + destruct r as [|[sep' run'] r']; simpl.
      * now apply starts_nondigit_nondigits.
      * simpl in Hseps, Hruns.
        apply andb_true_iff in Hseps as [Hne _]. apply negb_true_iff in Hne.
        apply andb_true_iff in Hruns as [Hrun' _].
        apply andb_true_iff in Hrun' as [Hsep' _]. simpl in Hsep'.
        apply starts_nondigit_append; [|assumption].
        intros ->. discriminate.
Qed.

(** Every text is made of digit runs and separators. *)
Lemma spaced_complete (s : string) :
  exists toks tail, well_spaced toks tail = true /\ s = spaced toks tail.
Proof.
  induction s as [|c s (toks & tail & Hw & ->)].
  - now exists [], EmptyString.
  - unfold well_spaced, digits, nondigits in Hw.
    apply andb_true_iff in Hw as [Hw Htail]. apply andb_true_iff in Hw as [Hruns Hseps].
    destruct (is_digit c) eqn:Hc.
    + destruct toks as [|[sep run] r].
      * exists [(EmptyString, String c EmptyString)], tail. split; [|reflexivity].
        unfold well_spaced, digits, nondigits. rewrite Htail.
        cbn [forallb List.tl fst snd all_chars String.eqb negb andb].
        now rewrite Hc.
      * cbn [forallb List.tl fst snd] in Hruns, Hseps.
        apply andb_true_iff in Hruns as [Hrun Hruns].
        apply andb_true_iff in Hrun as [Hsep Hrun].
        destruct sep as [|x sep].
        -- exists ((EmptyString, String c run) :: r), tail. split; [|reflexivity].
           unfold well_spaced, digits, nondigits. rewrite Htail.
           cbn [forallb List.tl fst snd]. rewrite Hruns, Hseps.
           apply andb_true_iff in Hrun as [Hrun _].
           cbn [all_chars String.eqb negb andb]. now rewrite Hc, Hrun.
        -- exists ((EmptyString, String c EmptyString) :: (String x sep, run) :: r), tail.
           split; [|reflexivity].
           unfold well_spaced, digits, nondigits. rewrite Htail.
           cbn [forallb List.tl fst snd]. rewrite Hruns, Hseps, Hsep, Hrun.
           cbn [all_chars String.eqb negb andb]. now rewrite Hc.
    + destruct toks as [|[sep run] r].
      * exists [], (String c tail). split; [|reflexivity].
        unfold well_spaced, nondigits. cbn [forallb List.tl andb all_chars].
        now rewrite Hc, Htail.
      * cbn [forallb List.tl fst snd] in Hruns, Hseps.
        apply andb_true_iff in Hruns as [Hrun Hruns].
        apply andb_true_iff in Hrun as [Hsep Hrun].
        exists ((String c sep, run) :: r), tail. split; [|reflexivity].
        unfold well_spaced, digits, nondigits. rewrite Htail.
        cbn [forallb List.tl fst snd]. rewrite Hruns, Hseps, Hrun.
        cbn [all_chars String.eqb negb andb]. now rewrite Hc, Hsep.
Qed.

(** [int] reads a digit run in base ten. *)
Lemma int_of_digits_snoc (d : string) (c : ascii) :
  digits_value (d +:+ String c EmptyString) = 10 * digits_value d + digit_value c.
Proof.
  unfold digits_value. generalize 0. induction d as [|x d IH]; simpl; intros acc.
  - reflexivity.
  - apply IH.
Qed.

Lemma int_of_digits_short (s : string) :
  int_of_digits s = if short_run s then Ok (digits_value s) else Raise ValueError.
Proof.
  unfold int_of_digits, short_run. rewrite Z.ltb_antisym.
  now destruct (Z.of_nat (String.length s) <=? max_str_digits).
Qed.

(** [map(int, runs)] gives the values of the runs when [int] reads them all. *)
Lemma map_int_runs (runs : list string) :
  map_int runs = if forallb short_run runs then Ok (digits_value <$> runs) else Raise ValueError.
Proof.
  induction runs as [|s r IH]; [reflexivity|]. cbn [map_int forallb].
  rewrite int_of_digits_short, IH. destruct (short_run s); [|reflexivity].
  now destruct (forallb short_run r).
Qed.

Lemma bounds_of_runs (el : XMLElement) (b : string) :
  attrib (elem el) !! "bounds" = Some b ->
  XMLElement.bounds el =
    match findall_digits b with
    | [l; t; r; bt] =>
        if short_run l && short_run t && short_run r && short_run bt
        then Ok (digits_value l, digits_value t, digits_value r, digits_value bt)
        else Raise ValueError
    | _ => Raise ValueError
    end.
Proof.
  intros Hb. unfold XMLElement.bounds. rewrite Hb, map_int_runs.
  destruct (findall_digits b) as [|l [|t [|r [|bt [|x rest]]]]]; cbn [forallb];
    try reflexivity;
    repeat match goal with
           | |- context [short_run ?x] => destruct (short_run x)
           | |- context [forallb ?f ?l] => destruct (forallb f l)
           end; reflexivity.
Qed.

(** C4, as amended.  For a bounds text made of digit runs and separators,
    [bounds] parses exactly when there are four runs and none of them is
    longer than the 4300 digits [int] reads, and then gives their values in
    order as left, top, right and bottom, whatever the separators are; with
    fewer or with more than four runs, or with a run that is too long, it
    raises [ValueError]. *)
Theorem bounds_exactly_four (el : XMLElement) (toks : list (string * string)) (tail : string) :
  well_spaced toks tail = true ->
  attrib (elem el) !! "bounds" = Some (spaced toks tail) ->
  XMLElement.bounds el =
    match toks with
    | [(_, l); (_, t); (_, r); (_, b)] =>
        if short_run l && short_run t && short_run r && short_run b
        then Ok (digits_value l, digits_value t, digits_value r, digits_value b)
        else Raise ValueError
    | _ => Raise ValueError
    end.
Proof.
  intros Hw Hb. rewrite (bounds_of_runs _ _ Hb), (findall_spaced _ _ Hw).
  destruct toks as [|[s1 l] [|[s2 t] [|[s3 r] [|[s4 b] [|[s5 x] rest]]]]]; reflexivity.
Qed.

(** C4 on the specification's form of bounds, on two texts with the same
    runs but other separators, on a text with two runs, and on a text with
    four runs of which the first has 4301 digits. *)
Lemma bounds_exactly_four_examples :
  XMLElement.bounds (with_bounds "[10,20][110,220]") = Ok (10, 20, 110, 220)
  /\ XMLElement.bounds (with_bounds "10 20 110 220") = Ok (10, 20, 110, 220)
  /\ XMLElement.bounds (with_bounds "[10,20]") = Raise ValueError
  /\ XMLElement.bounds
       (with_bounds (spaced [("[", repeated "1" 4301); (",", "2"); ("][", "3"); (",", "4")]
                            "]"))
     = Raise ValueError.
Proof.
  split; [| split; [| split]].
  - exact (bounds_exactly_four (with_bounds "[10,20][110,220]")
             [("[", "10"); (",", "20"); ("][", "110"); (",", "220")] "]"
             eq_refl eq_refl).
  - exact (bounds_exactly_four (with_bounds "10 20 110 220")
             [(EmptyString, "10"); (" ", "20"); (" ", "110"); (" ", "220")] EmptyString
             eq_refl eq_refl).
  - exact (bounds_exactly_four (with_bounds "[10,20]")
             [("[", "10"); (",", "20")] "]" eq_refl eq_refl).
  - rewrite (bounds_exactly_four _
               [("[", repeated "1" 4301); (",", "2"); ("][", "3"); (",", "4")] "]");
      vm_compute; reflexivity.
Defined.

(** C4 as the specification states it fails on a text with more than four
    digit runs: the first four are there, and [bounds] raises. *)
Lemma bounds_six_runs :
  findall_digits "[1,2][3,4][5,6]" = ["1"; "2"; "3"; "4"; "5"; "6"]
  /\ (4 <= length (findall_digits "[1,2][3,4][5,6]"))%nat
  /\ XMLElement.bounds (with_bounds "[1,2][3,4][5,6]") = Raise ValueError
  /\ XMLElement.bounds (with_bounds "[1,2][3,4][5,6]") <> Ok (1, 2, 3, 4).
Proof. repeat split; [simpl; lia | discriminate]. Qed.

End Bounds.

(** ** Binary64 arithmetic on small integers *)

Section SmallIntegers.
Import PyFloat.

Lemma iter_pos_eq {A} (f : A -> A) (p : positive) (x : A) : SpecFloat.iter_pos f p x = Pos.iter f x p.
Proof.
  revert x. induction p as [p IH|p IH|]; intros x; simpl.
  - rewrite !IH. now rewrite <- !Pos.iter_swap.
  - now rewrite !IH.
  - reflexivity.
Qed.

Lemma pos_iter_xO (m k : positive) : Z.pos (Pos.iter xO m k) = Z.pos m * 2 ^ Z.pos k.
Proof.
  rewrite (Pos.iter_swap_gen _ _ Z.pos xO (Z.mul 2)) by reflexivity.
  change (Pos.iter (Z.mul 2) (Z.pos m) k) with (Z.shiftl (Z.pos m) (Z.pos k)).
  now rewrite Z.shiftl_mul_pow2.
Qed.

Lemma digits_iter_xO (m k : positive) :
  Z.pos (digits2_pos (Pos.iter xO m k)) = Z.pos (digits2_pos m) + Z.pos k.
Proof.
  induction k as [|k IH] using Pos.peano_ind.
  - simpl. lia.
  - rewrite Pos.iter_succ. simpl. lia.
Qed.

Lemma shr_zeros (q k : positive) :
  SpecFloat.iter_pos shr_1 k (Build_shr_record (Z.pos (Pos.iter xO q k)) false false)
  = Build_shr_record (Z.pos q) false false.
Proof.
  rewrite iter_pos_eq. revert q. induction k as [|k IH] using Pos.peano_ind; intros q.
  - reflexivity.
  - rewrite Pos.iter_succ_r.
    replace (Pos.iter xO q (Pos.succ k)) with (xO (Pos.iter xO q k)) by (now rewrite Pos.iter_succ).
    cbn [shr_1 orb]. apply IH.
Qed.

Lemma digits2_pos_bound (m : positive) :
  2 ^ (Z.pos (digits2_pos m) - 1) <= Z.pos m < 2 ^ Z.pos (digits2_pos m).
Proof.
  assert (Hstep : forall d x, 0 < d -> 2 ^ (d - 1) <= x < 2 ^ d ->
            2 ^ (Z.succ d - 1) <= 2 * x <= 2 * x + 1 /\ 2 * x + 1 < 2 ^ Z.succ d).
  { intros d x Hd Hx. replace (Z.succ d - 1) with d by lia.
    rewrite Z.pow_succ_r by lia.
    assert (2 ^ d = 2 * 2 ^ (d - 1)) by (rewrite <- Z.pow_succ_r by lia; f_equal; lia).
    lia. }
  induction m as [m IH|m IH|]; simpl digits2_pos.
  - rewrite Pos2Z.inj_succ, Pos2Z.inj_xI.
    destruct (Hstep _ _ (Pos2Z.is_pos _) IH) as [[H1 H2] H3].
    split; [exact (Z.le_trans _ _ _ H1 H2) | exact H3].
  - rewrite Pos2Z.inj_succ, Pos2Z.inj_xO.
    destruct (Hstep _ _ (Pos2Z.is_pos _) IH) as [[H1 H2] H3].
    split; [exact H1 | exact (Z.le_lt_trans _ _ _ H2 H3)].
  - simpl. lia.
Qed.

Lemma digits2_pos_le (m : positive) (k : Z) :
  0 <= k -> Z.pos m < 2 ^ k -> Z.pos (digits2_pos m) <= k.
Proof.
  intros Hk Hm. destruct (digits2_pos_bound m) as [Hlo _].
  destruct (Z.le_gt_cases (Z.pos (digits2_pos m)) k) as [|Hgt]; [assumption|].
  assert (2 ^ k <= 2 ^ (Z.pos (digits2_pos m) - 1)) by (apply Z.pow_le_mono_r; lia).
  lia.
Qed.

Lemma shr_fexp_exact (mz : positive) (e : Z) :
  Z.pos (digits2_pos mz) = 53 -> -1074 <= e ->
  shr_fexp 53 1024 (Z.pos mz) e loc_Exact = (Build_shr_record (Z.pos mz) false false, e).
Proof.
  intros Hd He. unfold shr_fexp, fexp, Zdigits2. change (emin 53 1024) with (-1074).
  rewrite Hd. replace (Z.max (53 + e - 53) (-1074) - e) with 0 by lia. reflexivity.
Qed.

Lemma shr_fexp_zeros (mz : positive) (e : Z) :
  Z.pos (digits2_pos mz) = 53 -> -1074 <= e ->
  shr_fexp 53 1024 (Z.pos (Pos.iter xO mz 52)) (e - 52) loc_Exact
  = (Build_shr_record (Z.pos mz) false false, e).
Proof.
  intros Hd He. unfold shr_fexp, fexp, Zdigits2. change (emin 53 1024) with (-1074).
  rewrite digits_iter_xO, Hd.
  replace (Z.max (53 + 52 + (e - 52) - 53) (-1074) - (e - 52)) with 52 by lia.
  unfold shr, shr_record_of_loc. rewrite shr_zeros. f_equal. lia.
Qed.

Lemma round_exact (s : bool) (mz : positive) (e : Z) :
  Z.pos (digits2_pos mz) = 53 -> -1074 <= e <= 971 ->
  binary_round_aux 53 1024 s (Z.pos mz) e loc_Exact = S754_finite s mz e.
Proof.
  intros Hd He. unfold binary_round_aux. rewrite shr_fexp_exact by lia.
  cbn [shr_m loc_of_shr_record round_nearest_even]. rewrite shr_fexp_exact by lia.
  cbn [shr_m]. change (1024 - 53) with 971.
  destruct (Z.leb_spec e 971); [reflexivity | lia].
Qed.

Lemma round_zeros (s : bool) (mz : positive) (e : Z) :
  Z.pos (digits2_pos mz) = 53 -> -1074 <= e <= 971 ->
  binary_round_aux 53 1024 s (Z.pos (Pos.iter xO mz 52)) (e - 52) loc_Exact
  = S754_finite s mz e.
Proof.
  intros Hd He. unfold binary_round_aux. rewrite shr_fexp_zeros by lia.
  cbn [shr_m loc_of_shr_record round_nearest_even]. rewrite shr_fexp_exact by lia.
  cbn [shr_m]. change (1024 - 53) with 971.
  destruct (Z.leb_spec e 971); [reflexivity | lia].
Qed.

(** A positive integer below [2 ^ 53], brought to a mantissa of 53 bits. *)
Lemma shl_align_small (m : positive) :
  Z.pos (digits2_pos m) <= 53 ->
  exists mz, shl_align m 0 (fexp 53 1024 (Z.pos (digits2_pos m) + 0))
             = (mz, Z.pos (digits2_pos m) - 53)
    /\ Z.pos (digits2_pos mz) = 53
    /\ Z.pos mz = Z.pos m * 2 ^ (53 - Z.pos (digits2_pos m)).
Proof.
  intros Hd. unfold fexp. change (emin 53 1024) with (-1074).
  replace (Z.max (Z.pos (digits2_pos m) + 0 - 53) (-1074)) with (Z.pos (digits2_pos m) - 53) by lia.
  unfold shl_align.
  destruct (Z.pos (digits2_pos m) - 53 - 0) as [|p|p] eqn:Hx.
  - exists m. assert (Z.pos (digits2_pos m) = 53) by lia.
    repeat split; [f_equal; lia | assumption |].
    replace (53 - Z.pos (digits2_pos m)) with 0 by lia. lia.
  - lia.
  - exists (Pos.iter xO m p). repeat split.
    + rewrite digits_iter_xO. lia.
    + rewrite pos_iter_xO. f_equal. f_equal. lia.
Qed.

(** [float(n)] is exact below [2 ^ 53]. *)
Lemma float_of_small (s : bool) (m : positive) :
  Z.pos m < 2 ^ 53 ->
  exists mz,
    binary_round 53 1024 s m 0 = S754_finite s mz (Z.pos (digits2_pos m) - 53)
    /\ Z.pos (digits2_pos mz) = 53
    /\ Z.pos mz = Z.pos m * 2 ^ (53 - Z.pos (digits2_pos m)).
Proof.
  intros Hm. pose proof (digits2_pos_le m 53 ltac:(lia) Hm) as Hd.
  destruct (shl_align_small m Hd) as (mz & Hal & Hdz & Hv).
  exists mz. split; [|now split].
  unfold binary_round. rewrite Hal. apply round_exact; [assumption|].
  pose proof (Pos2Z.is_pos (digits2_pos m)). lia.
Qed.

Lemma mul_pow52 (mz : positive) : (mz * 4503599627370496)%positive = Pos.iter xO mz 52.
Proof.
  apply Pos2Z.inj. rewrite Pos2Z.inj_mul, pos_iter_xO. reflexivity.
Qed.

Lemma int_of_product_half_pos (s : bool) (m : positive) :
  Z.pos m < 2 ^ 53 ->
  to_int (SFmul prec emax (binary_round 53 1024 s m 0) half)
  = Ok (if s then - (Z.pos m / 2) else Z.pos m / 2).
Proof.
  intros Hm. destruct (float_of_small s m Hm) as (mz & -> & Hdz & Hv).
  pose proof (digits2_pos_le m 53 ltac:(lia) Hm) as Hd.
  pose proof (Pos2Z.is_pos (digits2_pos m)) as Hd0.
  unfold half, prec, emax. cbn [SFmul]. rewrite mul_pow52, xorb_false_r.
  replace (Z.pos (digits2_pos m) - 53 + -53) with (Z.pos (digits2_pos m) - 54 - 52) by lia.
  rewrite round_zeros by (try assumption; lia).
  cbn [to_int]. unfold magnitude.
  destruct (Z.leb_spec 0 (Z.pos (digits2_pos m) - 54)) as [|_]; [lia|].
  rewrite Hv.
  replace (- (Z.pos (digits2_pos m) - 54)) with (Z.succ (53 - Z.pos (digits2_pos m))) by lia.
  rewrite Z.pow_succ_r by lia.
  rewrite Z.div_mul_cancel_r; [reflexivity | lia |].
  apply Z.pow_nonzero; lia.
Qed.

(** Half of an integer below [2 ^ 53] in absolute value: [int(n * 0.5)] is
    [n] halved toward zero. *)
Lemma int_of_product_half (n : Z) :
  Z.abs n < 2 ^ 53 -> int_of_product n half = Ok (Z.quot n 2).
Proof.
  intros Hn. unfold int_of_product, int_mul, of_int, prec, emax.
  destruct n as [|m|m]; [reflexivity| |].
  - cbn [binary_normalize]. destruct (float_of_small false m Hn) as (mz & Hf & _).
    pose proof (int_of_product_half_pos false m Hn) as H.
    rewrite Hf in H |- *. cbn [mbind result_bind]. unfold prec, emax in H. rewrite H.
    now rewrite Z.quot_div_nonneg by lia.
  - cbn [binary_normalize]. destruct (float_of_small true m Hn) as (mz & Hf & _).
    pose proof (int_of_product_half_pos true m Hn) as H.
    rewrite Hf in H |- *. cbn [mbind result_bind]. unfold prec, emax in H. rewrite H.
    change (Z.neg m) with (- Z.pos m). rewrite Z.quot_opp_l by lia.
    now rewrite Z.quot_div_nonneg by lia.
Qed.

(** The product of an integer below [2 ^ 53] with zero is zero. *)
Lemma int_of_product_zero (n : Z) :
  Z.abs n < 2 ^ 53 -> int_of_product n (S754_zero false) = Ok 0.
Proof.
  intros Hn. unfold int_of_product, int_mul, of_int, prec, emax.
  destruct n as [|m|m]; [reflexivity| |]; cbn [binary_normalize].
  - destruct (float_of_small false m Hn) as (mz & -> & _). reflexivity.
  - destruct (float_of_small true m Hn) as (mz & -> & _). reflexivity.
Qed.

End SmallIntegers.

(** ** Rectangle, offset and centre *)

Section Geometry.
Import PyFloat.

(** [int] of a float drops the fraction: it is the quotient that rounds
    toward zero. *)
Lemma to_int_quot (f : spec_float) (n d : Z) :
  float_ratio f = Some (n, d) -> 0 < d /\ to_int f = Ok (Z.quot n d).
Proof.
  destruct f as [s|s| |s m e]; simpl; try discriminate.
  - intros [= <- <-]. split; [lia | reflexivity].
  - unfold magnitude. destruct (Z.leb_spec 0 e) as [He|He]; intros [= <- <-].
    + split; [lia|]. rewrite Z.quot_1_r. destruct s; [|reflexivity].
      f_equal. change (Z.neg m) with (- Z.pos m). lia.
    + assert (0 < 2 ^ (- e)) by (apply Z.pow_pos_nonneg; lia).
      split; [assumption|]. destruct s.
      * change (Z.neg m) with (- Z.pos m). rewrite Z.quot_opp_l by lia.
        now rewrite Z.quot_div_nonneg by lia.
      * now rewrite Z.quot_div_nonneg by lia.
Qed.

(** Rounding toward zero is rounding down exactly on the fractions that are
    not negative, or are whole. *)
Lemma quot_is_floor (n d : Z) :
  0 < d -> (Z.quot n d = n / d <-> 0 <= n \/ n mod d = 0).
Proof.
  intros Hd. split.
  - intros H. destruct (Z.lt_ge_cases n 0) as [Hn|]; [right | now left].
    pose proof (Z.quot_rem' n d) as Hq. pose proof (Z.div_mod n d ltac:(lia)) as Hm.
    pose proof (Z.rem_bound_pos_neg n d Hd ltac:(lia)). pose proof (Z.mod_pos_bound n d Hd).
    rewrite H in Hq. lia.
  - intros [Hn|Hm].
    + now apply Z.quot_div_nonneg.
    + apply Z.quot_div_exact; [lia|]. apply Z.mod_divide; [lia | assumption].
Qed.

Lemma rect_of_bounds (el : XMLElement) (lx ly rx ry : Z) :
  XMLElement.bounds el = Ok (lx, ly, rx, ry) ->
  XMLElement.rect el = Ok (lx, ly, rx - lx, ry - ly).
Proof. intros H. unfold XMLElement.rect. now rewrite H. Qed.

Lemma int_of_product_quot (n : Z) (f p : spec_float) (a d : Z) :
  int_mul n f = Ok p -> float_ratio p = Some (a, d) ->
  int_of_product n f = Ok (Z.quot a d).
Proof.
  intros Hp Hr. unfold int_of_product. rewrite Hp. simpl.
  now apply to_int_quot in Hr as [_ ->].
Qed.

Lemma center_halves (el : XMLElement) (lx ly rx ry : Z) :
  XMLElement.bounds el = Ok (lx, ly, rx, ry) ->
  Z.abs (rx - lx) < 2 ^ 53 -> Z.abs (ry - ly) < 2 ^ 53 ->
  XMLElement.center el = Ok (lx + Z.quot (rx - lx) 2, ly + Z.quot (ry - ly) 2).
Proof.
  intros Hb Hw Hh. unfold XMLElement.center, XMLElement.offset.
  rewrite (rect_of_bounds _ _ _ _ _ Hb). cbn [mbind result_bind].
  rewrite (int_of_product_half _ Hw). cbn [mbind result_bind].
  rewrite (int_of_product_half _ Hh). reflexivity.
Qed.

(** C5, as amended.  [rect] is (left, top, right - left, bottom - top);
    [offset(px, py)] adds to left and top the float products [width * px] and
    [height * py] with their fractions dropped, which is the rounding toward
    zero (it is the floor only where a product is not negative or is whole);
    [center] is the offset at 0.5 and 0.5, which for a width and a height
    below [2 ^ 53] in absolute value is (left + width ÷ 2, top + height ÷ 2),
    the halves rounded toward zero. *)
Theorem rect_offset_center (el : XMLElement) (lx ly rx ry : Z) :
  XMLElement.bounds el = Ok (lx, ly, rx, ry) ->
  XMLElement.rect el = Ok (lx, ly, rx - lx, ry - ly)
  /\ (forall px py p q a b c d,
        int_mul (rx - lx) px = Ok p -> float_ratio p = Some (a, b) ->
        int_mul (ry - ly) py = Ok q -> float_ratio q = Some (c, d) ->
        XMLElement.offset el px py = Ok (lx + Z.quot a b, ly + Z.quot c d)
        /\ (Z.quot a b = a / b <-> 0 <= a \/ a mod b = 0)
        /\ (Z.quot c d = c / d <-> 0 <= c \/ c mod d = 0))
  /\ XMLElement.center el = XMLElement.offset el half half
  /\ (Z.abs (rx - lx) < 2 ^ 53 -> Z.abs (ry - ly) < 2 ^ 53 ->
      XMLElement.center el = Ok (lx + Z.quot (rx - lx) 2, ly + Z.quot (ry - ly) 2)).
Proof.
  intros Hb. split; [now apply rect_of_bounds|].
  split; [|split; [reflexivity | now apply center_halves]].
  intros px py p q a b c d Hp Hpr Hq Hqr.
  split.
  - unfold XMLElement.offset. rewrite (rect_of_bounds _ _ _ _ _ Hb). simpl.
    rewrite (int_of_product_quot _ _ _ _ _ Hp Hpr). simpl.
    rewrite (int_of_product_quot _ _ _ _ _ Hq Hqr). reflexivity.
  - split; apply quot_is_floor.
    + now apply to_int_quot in Hpr as [? _].
    + now apply to_int_quot in Hqr as [? _].
Qed.

(** C5 on the specification's bounds: the rectangle is (10, 20, 100, 200)
    and the centre is (60, 120). *)
Lemma rect_offset_center_example :
  XMLElement.bounds (with_bounds "[10,20][110,220]") = Ok (10, 20, 110, 220)
  /\ XMLElement.rect (with_bounds "[10,20][110,220]") = Ok (10, 20, 100, 200)
  /\ XMLElement.center (with_bounds "[10,20][110,220]") = Ok (60, 120).
Proof.
  destruct (rect_offset_center (with_bounds "[10,20][110,220]") 10 20 110 220 eq_refl)
    as (Hrect & Hoff & Hc & _).
  split; [reflexivity|]. split; [exact Hrect|].
  rewrite Hc.
  destruct (Hoff half half
              (S754_finite false 7036874417766400 (-47)) (S754_finite false 7036874417766400 (-46))
              7036874417766400 (2 ^ 47) 7036874417766400 (2 ^ 46)
              eq_refl eq_refl eq_refl eq_refl) as (H & _).
  exact H.
Defined.

(** C5 as the specification states it fails where a product is negative and
    not whole: at [px = -0.125] on the same bounds the code gives -2 where
    the floor gives -3, and on a node whose right edge lies left of its left
    edge the centre is (4, 7) where the floor gives (3, 7). *)
Lemma offset_is_not_floor :
  XMLElement.offset (with_bounds "[10,20][110,220]") minus_eighth half = Ok (-2, 120)
  /\ offset_spec (with_bounds "[10,20][110,220]") minus_eighth half = Some (-3, 120)
  /\ XMLElement.center (with_bounds "[5,7][2,7]") = Ok (4, 7)
  /\ offset_spec (with_bounds "[5,7][2,7]") half half = Some (3, 7).
Proof. repeat split. Qed.

End Geometry.

(** ** Swipe *)

Section Swipe.
Import PyFloat.

Lemma mid_of_inset (a b v : Z) : a + (b - a) / 2 = (a + v + (b - v)) / 2.
Proof.
  replace (a + v + (b - v)) with (a * 2 + (b - a)) by lia.
  rewrite Z.div_add_l by lia. reflexivity.
Qed.

Lemma swipe_valid (el : XMLElement) (direction : string) (scale : spec_float)
    (lx ly rx ry h v : Z) (st : State) :
  scale_ok scale = true ->
  XMLElement.bounds el = Ok (lx, ly, rx, ry) ->
  trim (rx - lx) scale = Ok h ->
  trim (ry - ly) scale = Ok v ->
  XMLElement.swipe el direction scale st =
    match swipe_edges direction with
    | Some (a, b) =>
        let r := inset (lx, ly, rx, ry) h v in
        Ok (tt, with_event (EvSwipe (edge_mid r a).1 (edge_mid r a).2
                                    (edge_mid r b).1 (edge_mid r b).2) st)
    | None => Raise (RuntimeError ["Unknown direction:"; direction])
    end.
Proof.
  unfold scale_ok, trim, int_of_product. intros Hs Hb Hh Hv.
  unfold XMLElement.swipe. rewrite Hs. cbn [negb].
  unfold bind, lift. rewrite Hb.
  destruct (int_sub 1 scale) as [rest|]; [|discriminate]. cbn [mbind result_bind] in Hh, Hv |- *.
  destruct (int_mul (rx - lx) rest) as [p|]; [|discriminate]. cbn [mbind result_bind] in Hh |- *.
  destruct (to_int p) as [n|]; [|discriminate]. cbn [mbind result_bind] in Hh |- *.
  destruct (int_mul (ry - ly) rest) as [q|]; [|discriminate]. cbn [mbind result_bind] in Hv |- *.
  destruct (to_int q) as [m|]; [|discriminate]. cbn [mbind result_bind] in Hv |- *.
  injection Hh as <-. injection Hv as <-.
  unfold swipe_edges, inset, edge_mid, XPath.send_swipe, modify, raise. cbn [fst snd].
  rewrite <- !mid_of_inset.
  destruct (String.eqb direction "left"); [reflexivity|].
  destruct (String.eqb direction "right"); [reflexivity|].
  destruct (String.eqb direction "up"); [reflexivity|].
  destruct (String.eqb direction "down"); reflexivity.
Qed.

Lemma swipe_unknown (el : XMLElement) (direction : string) (scale : spec_float) (st : State) :
  swipe_edges direction = None ->
  exists e, XMLElement.swipe el direction scale st = Raise e.
Proof.
  unfold swipe_edges. intros Hd.
  destruct (String.eqb direction "left") eqn:H1; [discriminate|].
  destruct (String.eqb direction "right") eqn:H2; [discriminate|].
  destruct (String.eqb direction "up") eqn:H3; [discriminate|].
  destruct (String.eqb direction "down") eqn:H4; [discriminate|].
  unfold XMLElement.swipe.
  destruct (negb _); [now eexists|].
  unfold bind, lift.
  destruct (XMLElement.bounds el) as [[[[lx ly] rx] ry]|]; [|now eexists].
  destruct (int_sub 1 scale) as [rest|]; [|now eexists].
  destruct (int_mul (rx - lx) rest) as [p|]; cbn [mbind result_bind]; [|now eexists].
  destruct (to_int p) as [n|]; [|now eexists].
  destruct (int_mul (ry - ly) rest) as [q|]; cbn [mbind result_bind]; [|now eexists].
  destruct (to_int q) as [m|]; [|now eexists].
  rewrite H1, H2, H3, H4. now eexists.
Qed.

Lemma trim_full_scale (n : Z) : Z.abs n < 2 ^ 53 -> trim n one = Ok 0.
Proof.
  intros Hn. unfold trim. change (int_sub 1 one) with (Ok (S754_zero false)).
  cbn [mbind result_bind]. now rewrite int_of_product_zero.
Qed.

Lemma trim_half_scale (n : Z) : Z.abs n < 2 ^ 53 -> trim n half = Ok (Z.quot n 2 / 2).
Proof.
  intros Hn. unfold trim. change (int_sub 1 half) with (Ok half).
  cbn [mbind result_bind]. now rewrite int_of_product_half.
Qed.

(** C7.  For an element with bounds and a scale in (0, 1], [swipe] trims
    the same amount from the left and the right and the same amount from the
    top and the bottom, and swipes between the midpoints of two opposite
    edges of what is left: from the right edge to the left one for [left],
    the other way for [right], from the bottom edge to the top one for [up],
    the other way for [down].  A direction that is none of the four is an
    error whatever the element and the scale.  For a width and a height
    below [2 ^ 53] in absolute value, nothing is trimmed at scale 1.0, and
    at scale 0.5 half of the halved extent, a quarter, is trimmed from each
    side. *)
Theorem swipe_between_trimmed_edges (el : XMLElement) (direction : string)
    (scale : spec_float) (lx ly rx ry h v : Z) (st : State) :
  scale_ok scale = true ->
  XMLElement.bounds el = Ok (lx, ly, rx, ry) ->
  trim (rx - lx) scale = Ok h ->
  trim (ry - ly) scale = Ok v ->
  let r := inset (lx, ly, rx, ry) h v in
  let sent (a b : edge) :=
    Ok (tt, with_event (EvSwipe (edge_mid r a).1 (edge_mid r a).2
                                (edge_mid r b).1 (edge_mid r b).2) st) in
  XMLElement.swipe el "left" scale st = sent RightEdge LeftEdge
  /\ XMLElement.swipe el "right" scale st = sent LeftEdge RightEdge
  /\ XMLElement.swipe el "up" scale st = sent BottomEdge TopEdge
  /\ XMLElement.swipe el "down" scale st = sent TopEdge BottomEdge
  /\ (direction <> "left" -> direction <> "right" -> direction <> "up" ->
      direction <> "down" ->
      forall el' scale' st', exists e, XMLElement.swipe el' direction scale' st' = Raise e)
  /\ (Z.abs (rx - lx) < 2 ^ 53 -> Z.abs (ry - ly) < 2 ^ 53 ->
      trim (rx - lx) one = Ok 0 /\ trim (ry - ly) one = Ok 0
      /\ trim (rx - lx) half = Ok (Z.quot (rx - lx) 2 / 2)
      /\ trim (ry - ly) half = Ok (Z.quot (ry - ly) 2 / 2)
      /\ XMLElement.swipe el "left" one st
         = Ok (tt, with_event (EvSwipe rx ((ly + ry) / 2) lx ((ly + ry) / 2)) st)).
Proof.
  intros Hs Hb Hh Hv r sent.
  repeat split; try exact (swipe_valid el _ scale lx ly rx ry h v st Hs Hb Hh Hv).
  - intros N1 N2 N3 N4 el' scale' st'. apply swipe_unknown. unfold swipe_edges.
    apply String.eqb_neq in N1, N2, N3, N4. now rewrite N1, N2, N3, N4.
  - now apply trim_full_scale.
  - now apply trim_full_scale.
  - now apply trim_half_scale.
  - now apply trim_half_scale.
  - rewrite (swipe_valid el "left" one lx ly rx ry 0 0 st eq_refl Hb)
      by now apply trim_full_scale.
    cbn [swipe_edges String.eqb Ascii.eqb Bool.eqb inset edge_mid fst snd].
    now rewrite !Z.add_0_r, !Z.sub_0_r.
Qed.

(** C7 on the specification's case: bounds (0, 0, 100, 100), scale 1.0 and
    direction [left] swipe from (100, 50) to (0, 50). *)
Lemma swipe_left_full_scale :
  XMLElement.swipe (with_bounds "[0,0][100,100]") "left" one
    (Example.start 20000 (XPathSelector.init "Settings" None))
  = Ok (tt, with_event (EvSwipe 100 50 0 50)
              (Example.start 20000 (XPathSelector.init "Settings" None)))
  /\ exists e, XMLElement.swipe (with_bounds "[0,0][100,100]") "forward" one
                (Example.start 20000 (XPathSelector.init "Settings" None)) = Raise e.
Proof.
  destruct (swipe_between_trimmed_edges (with_bounds "[0,0][100,100]") "forward" one
              0 0 100 100 0 0 (Example.start 20000 (XPathSelector.init "Settings" None))
              eq_refl eq_refl eq_refl eq_refl) as (H & _ & _ & _ & Hbad & _).
  split; [exact H|].
  apply Hbad; discriminate.
Defined.

End Swipe.

(** ** The hierarchy after the tags are set *)

Section Tree.

Lemma element_ind (P : element -> Prop) :
  (forall t a cs, Forall P cs -> P (Element t a cs)) -> forall e, P e.
Proof.
  intros H. fix IH 1. intros [t a cs]. apply H.
  induction cs as [|c cs IHcs]; constructor; [apply IH | exact IHcs].
Qed.

Lemma retag_unfold (t : string) (a : gmap string string) (cs : list element) :
  retagged (Element t a cs) =
    if String.eqb t "node"
    then Element (retag_node a) (delete "class" a) (retagged <$> cs)
    else Element t a (retagged <$> cs).
Proof. reflexivity. Qed.

Lemma children_retag (e : element) : children (retagged e) = retagged <$> children e.
Proof. destruct e as [t a cs]. rewrite retag_unfold. now destruct (String.eqb t "node"). Qed.

Lemma iter_unfold (e : element) : iter e = e :: flat_map iter (children e).
Proof. now destruct e. Qed.

(** Setting the tags keeps the shape of the tree: the elements of the new
    tree are those of the old one, each with its tag set, in the same order. *)
Lemma iter_retag (e : element) : iter (retagged e) = retagged <$> iter e.
Proof.
  induction e as [t a cs IH] using element_ind.
  rewrite (iter_unfold (retagged _)), children_retag. simpl children.
  simpl iter. rewrite fmap_cons. f_equal.
  induction IH as [|c cs Hc _ IHcs]; [reflexivity|].
  rewrite fmap_cons. simpl flat_map. rewrite fmap_app, Hc, IHcs. reflexivity.
Qed.

Lemma retag_of_node (e : element) :
  tag e = "node" ->
  tag (retagged e) = retag_node (attrib e) /\ attrib (retagged e) = delete "class" (attrib e).
Proof.
  destruct e as [t a cs]. intros Ht. cbn [tag] in Ht. subst t.
  rewrite retag_unfold. now split.
Qed.

Lemma retag_of_other (e : element) :
  tag e <> "node" -> tag (retagged e) = tag e /\ attrib (retagged e) = attrib e.
Proof.
  destruct e as [t a cs]. intros Hn. cbn [tag] in Hn. rewrite retag_unfold.
  apply String.eqb_neq in Hn. rewrite Hn. now split.
Qed.

Lemma safe_xmlstr_no_dollar (s : string) : PyStr.contains_char "$" (safe_xmlstr s) = false.
Proof.
  unfold safe_xmlstr. induction s as [|c s IH]; simpl; [reflexivity|].
  rewrite IH, orb_false_r. now destruct (Ascii.eqb_spec c "$") as [->|Hn%Ascii.eqb_neq].
Qed.

Lemma safe_xmlstr_get (s : string) (i : nat) :
  String.get i (safe_xmlstr s)
  = (fun c => if Ascii.eqb c "$" then "-"%char else c) <$> String.get i s.
Proof.
  unfold safe_xmlstr. revert i. induction s as [|c s IH]; intros [|i]; simpl; try reflexivity.
  apply IH.
Qed.

Lemma retag_node_no_dollar (a : gmap string string) :
  PyStr.contains_char "$" (retag_node a) = false.
Proof.
  unfold retag_node, str_or.
  pose proof (safe_xmlstr_no_dollar (default EmptyString (a !! "class"))) as H.
  now destruct (safe_xmlstr _).
Qed.

Lemma elem_of_wrap (root : element) (ids : list nat) (x : XMLElement) :
  x ∈ wrap root ids <-> el_id x ∈ ids /\ iter root !! el_id x = Some (elem x).
Proof.
  unfold wrap. rewrite list_elem_of_omap. split.
  - intros (i & Hi & Hx). destruct (iter root !! i) as [e|] eqn:He; [|discriminate].
    injection Hx as <-. now simpl.
  - intros [Hi Hx]. exists (el_id x). split; [assumption|]. rewrite Hx. now destruct x.
Qed.

End Tree.

(** ** Resolving a selector *)

Section Resolve.
Context (E : Engine).

Lemma to_set_intersect (m : matches) (y : list nat) :
  to_set (intersect m y) = to_set m ∩ list_to_set y.
Proof. reflexivity. Qed.

Lemma elem_of_fold_intersect (n : nat) (m : matches) (rest : list (list nat)) :
  n ∈ to_set (foldl intersect m rest) <-> n ∈ to_set m /\ Forall (fun y => n ∈ y) rest.
Proof.
  revert m. induction rest as [|y rest IH]; intros m; simpl.
  - split; [intros H; split; [exact H | constructor] | now intros [H _]].
  - rewrite IH, to_set_intersect, elem_of_intersection, elem_of_list_to_set, Forall_cons.
    tauto.
Qed.

Lemma elem_of_iterate (n : nat) (m : matches) : n ∈ iterate E m <-> n ∈ to_set m.
Proof.
  destruct m as [l|s]; simpl.
  - now rewrite elem_of_list_to_set.
  - now rewrite (set_iter_perm E s), elem_of_elements.
Qed.

Lemma eval_all_Ok (root : element) (qs : list string) (ms : list (list nat)) :
  eval_all E root qs = Ok ms <-> Forall2 (fun q m => xpath_eval E root q = Some m) qs ms.
Proof.
  revert ms. induction qs as [|q qs IH]; intros ms; simpl.
  - split; [intros [= <-]; constructor | intros H; now inversion H].
  - destruct (xpath_eval E root q) as [m|] eqn:Hq.
    + destruct (eval_all E root qs) as [ms'|e] eqn:Hqs; simpl.
      * split.
        -- intros [= <-]. constructor; [assumption | now apply IH].
        -- intros H. inversion H as [|? m' ? ms'' Hm Hms]; subst.
           apply IH in Hms. congruence.
      * split; [discriminate|]. intros H. inversion H as [|? m' ? ms'' Hm Hms]; subst.
        apply IH in Hms. discriminate.
    + split; [discriminate|]. intros H. inversion H; congruence.
Qed.

(** [resolve] on a snapshot that parses. *)
Lemma resolve_parsed (xml : string) (qs : list string) (root0 : element) :
  parse_xml E xml = Some root0 ->
  resolve E xml qs =
    if tags_ok E root0 then
      match_sets ← eval_all E (retagged root0) qs;
      match_nodes ← reduce_intersection match_sets;
      Ok (wrap (retagged root0) (iterate E match_nodes))
    else Raise ValueError.
Proof. intros Hp. unfold resolve, retag. rewrite Hp. now destruct (tags_ok E root0). Qed.

(** What a successful [resolve] returns: the wrappers of the elements that
    every query selects in the tree with its tags set. *)
Lemma resolve_Ok (xml : string) (qs : list string) (R : list XMLElement) :
  resolve E xml qs = Ok R ->
  exists root0 ms,
    parse_xml E xml = Some root0
    /\ tags_ok E root0 = true
    /\ Forall2 (fun q m => xpath_eval E (retagged root0) q = Some m) qs ms
    /\ qs <> []
    /\ forall x, x ∈ R <->
         iter (retagged root0) !! el_id x = Some (elem x) /\ Forall (fun m => el_id x ∈ m) ms.
Proof.
  destruct (parse_xml E xml) as [root0|] eqn:Hp; [|unfold resolve; now rewrite Hp].
  rewrite (resolve_parsed _ _ _ Hp). destruct (tags_ok E root0) eqn:Htags; [|discriminate].
  destruct (eval_all E (retagged root0) qs) as [ms|] eqn:Hms; [|discriminate].
  apply eval_all_Ok in Hms. simpl.
  destruct ms as [|m ms]; [discriminate|]. simpl. intros [= <-].
  exists root0, (m :: ms). repeat split; try assumption.
  - intros ->. inversion Hms.
  - apply elem_of_wrap in H. tauto.
  - apply elem_of_wrap in H as [H _].
    apply elem_of_iterate, elem_of_fold_intersect in H as [H1 H2].
    constructor; [now apply elem_of_list_to_set in H1 | assumption].
  - intros [Hx Hall]. apply elem_of_wrap. split; [|assumption].
    apply elem_of_iterate, elem_of_fold_intersect. inversion Hall; subst.
    split; [now apply elem_of_list_to_set | assumption].
Qed.

Lemma resolve_one (xml q : string) (root0 : element) (m : list nat) :
  parse_xml E xml = Some root0 -> tags_ok E root0 = true ->
  xpath_eval E (retagged root0) q = Some m ->
  resolve E xml [q] = Ok (wrap (retagged root0) m).
Proof. intros Hp Ht Hq. rewrite (resolve_parsed _ _ _ Hp), Ht. simpl. now rewrite Hq. Qed.

(** The intersection law on [resolve]. *)
Lemma resolve_intersection (xml : string) (qs : list string) (R : list XMLElement) :
  resolve E xml qs = Ok R ->
  (forall q, q ∈ qs -> exists Rq, resolve E xml [q] = Ok Rq)
  /\ (forall x, x ∈ R <-> forall q Rq, q ∈ qs -> resolve E xml [q] = Ok Rq -> x ∈ Rq).
Proof.
  intros HR. destruct (resolve_Ok _ _ _ HR) as (root0 & ms & Hp & Htags & Hms & Hne & Hin).
  assert (Hone : forall q, q ∈ qs -> exists m, m ∈ ms /\ xpath_eval E (retagged root0) q = Some m).
  { intros q Hq. apply list_elem_of_lookup in Hq as [i Hi].
    destruct (Forall2_lookup_l _ _ _ _ _ Hms Hi) as (m & Hm & Hqm).
    exists m. split; [|assumption]. apply list_elem_of_lookup. now exists i. }
  split.
  - intros q Hq. destruct (Hone q Hq) as (m & _ & Hm).
    eexists. exact (resolve_one _ _ _ _ Hp Htags Hm).
  - intros x. rewrite Hin. split.
    + intros [Hx Hall] q Rq Hq HRq. destruct (Hone q Hq) as (m & Hmm & Hm).
      rewrite (resolve_one _ _ _ _ Hp Htags Hm) in HRq. injection HRq as <-.
      apply elem_of_wrap. split; [|assumption].
      rewrite Forall_forall in Hall. now apply Hall.
    + intros H.
      assert (Hall : forall q m, q ∈ qs -> xpath_eval E (retagged root0) q = Some m ->
                                 el_id x ∈ m /\ iter (retagged root0) !! el_id x = Some (elem x)).
      { intros q m Hq Hm. apply elem_of_wrap. apply (H q); [assumption|].
        exact (resolve_one _ _ _ _ Hp Htags Hm). }
      split.
      * destruct qs as [|q qs']; [contradiction|].
        inversion Hms as [|? m ? ms' Hqm Hrest]; subst.
        apply (Hall q m); [left | assumption].
      * apply Forall_forall. intros m Hm. apply list_elem_of_lookup in Hm as [i Hi].
        destruct (Forall2_lookup_r _ _ _ _ _ Hms Hi) as (q & Hq & Hqm).
        apply (Hall q m); [|assumption]. apply list_elem_of_lookup. now exists i.
Qed.

(** One more query can only take elements away. *)
Lemma resolve_narrows (xml : string) (qs : list string) (q : string) (R2 : list XMLElement) :
  qs <> [] -> resolve E xml (qs ++ [q]) = Ok R2 ->
  exists R, resolve E xml qs = Ok R /\ forall x, x ∈ R2 -> x ∈ R.
Proof.
  intros Hne H2. destruct (resolve_Ok _ _ _ H2) as (root0 & ms & Hp & Htags & Hms & _ & Hin).
  apply Forall2_app_inv_l in Hms as (ms1 & ms2 & Hms1 & Hms2 & ->).
  assert (Heval : eval_all E (retagged root0) qs = Ok ms1) by now apply eval_all_Ok.
  destruct ms1 as [|m ms1]; [inversion Hms1; congruence|].
  eexists. split.
  - rewrite (resolve_parsed _ _ _ Hp), Htags. simpl. rewrite Heval. reflexivity.
  - intros x Hx. apply Hin in Hx as [Hx Hall].
    apply Forall_app in Hall as [Hall _]. inversion Hall; subst.
    apply elem_of_wrap. split; [|assumption].
    apply elem_of_iterate, elem_of_fold_intersect.
    split; [now apply elem_of_list_to_set | assumption].
Qed.

End Resolve.

(** ** [XPathSelector.all] *)

Section All.
Context (dev : Device) (E : Engine).

Lemma attach_fields (sel : XPathSelector) (shs : list string) :
  _xpath_list (attach sel shs) = _xpath_list sel ++ (strict_xpath <$> shs)
  /\ _source (attach sel shs) = _source sel.
Proof.
  unfold attach. revert sel. induction shs as [|sh shs IH]; intros sel; simpl.
  - now rewrite app_nil_r.
  - destruct (IH (XPathSelector.xpath sh sel)) as [-> ->]. simpl.
    now rewrite <- app_assoc.
Qed.

(** Called with no argument, [all] resolves the pinned snapshot, or dumps
    the hierarchy when none is pinned. *)
Lemma all_resolves (st : State) (R : list XMLElement) (st' : State) :
  XPathSelector.all dev E None st = Ok (R, st') ->
  resolve E (snapshot_for dev (_source (selector st)) st) (_xpath_list (selector st)) = Ok R.
Proof.
  unfold XPathSelector.all, XPathSelector.choose_source, bind, get_state, modify, lift, ret,
    snapshot_for.
  simpl truthy. destruct (truthy (_source (selector st))) as [s|]; simpl;
    (destruct (resolve E _ _); [now intros [= -> _] | discriminate]).
Qed.

Lemma resolves_all (st : State) (R : list XMLElement) :
  resolve E (snapshot_for dev (_source (selector st)) st) (_xpath_list (selector st)) = Ok R ->
  exists st', XPathSelector.all dev E None st = Ok (R, st').
Proof.
  unfold XPathSelector.all, XPathSelector.choose_source, bind, get_state, modify, lift, ret,
    snapshot_for.
  simpl truthy. destruct (truthy (_source (selector st))) as [s|]; simpl;
    intros ->; now eexists.
Qed.

(** C1.  Let a selector be made from the shorthand query [sh0], with a
    pinned snapshot or with none, and the queries [shs] be attached to it.
    When it resolves, every one of the queries resolves alone on the same
    snapshot, and an element is returned exactly when it is returned for
    each of the queries alone: the result is the intersection.  Attaching
    one more query returns no element that was not returned before. *)
Theorem all_is_intersection (sh0 : string) (shs : list string) (source : option string)
    (st : State) (R : list XMLElement) (st' : State) :
  XPathSelector.all dev E None
    (with_selector (attach (XPathSelector.init sh0 source) shs) st) = Ok (R, st') ->
  (forall sh, sh ∈ sh0 :: shs ->
     exists Rq stq,
       XPathSelector.all dev E None (with_selector (XPathSelector.init sh source) st)
       = Ok (Rq, stq))
  /\ (forall x, x ∈ R <->
        forall sh Rq stq, sh ∈ sh0 :: shs ->
          XPathSelector.all dev E None (with_selector (XPathSelector.init sh source) st)
          = Ok (Rq, stq) ->
          x ∈ Rq)
  /\ (forall sh R2 st2,
        XPathSelector.all dev E None
          (with_selector (XPathSelector.xpath sh (attach (XPathSelector.init sh0 source) shs)) st)
        = Ok (R2, st2) ->
        forall x, x ∈ R2 -> x ∈ R).
Proof.
  intros Hall.
  destruct (attach_fields (XPathSelector.init sh0 source) shs) as [Hl Hs].
  cbn [XPathSelector.init _xpath_list _source] in Hl, Hs.
  apply all_resolves in Hall. cbn [with_selector selector] in Hall.
  rewrite Hl, Hs in Hall. change (snapshot_for dev source (mkState _ _ _ _))
    with (snapshot_for dev source st) in Hall.
  change ([strict_xpath sh0] ++ (strict_xpath <$> shs))
    with (strict_xpath <$> sh0 :: shs) in Hall.
  destruct (resolve_intersection E _ _ _ Hall) as [Hsingle Hiff].
  assert (Halone : forall sh Rq,
            resolve E (snapshot_for dev source st) [strict_xpath sh] = Ok Rq ->
            exists stq, XPathSelector.all dev E None
                          (with_selector (XPathSelector.init sh source) st) = Ok (Rq, stq)).
  { intros sh Rq HRq. apply resolves_all. exact HRq. }
  assert (Hback : forall sh Rq stq,
            XPathSelector.all dev E None (with_selector (XPathSelector.init sh source) st)
            = Ok (Rq, stq) ->
            resolve E (snapshot_for dev source st) [strict_xpath sh] = Ok Rq).
  { intros sh Rq stq Hq. apply all_resolves in Hq. exact Hq. }
  split; [|split].
  - intros sh Hsh.
    destruct (Hsingle (strict_xpath sh)) as [Rq HRq]; [now apply list_elem_of_fmap_2|].
    destruct (Halone sh Rq HRq) as [stq Hq]. now exists Rq, stq.
  - intros x. rewrite Hiff. split.
    + intros H sh Rq stq Hsh Hq.
      apply (H (strict_xpath sh)); [now apply list_elem_of_fmap_2 | exact (Hback _ _ _ Hq)].
    + intros H q Rq Hq HRq. apply list_elem_of_fmap in Hq as (sh & -> & Hsh).
      destruct (Halone sh Rq HRq) as [stq Hq].
      exact (H sh Rq stq Hsh Hq).
  - intros sh R2 st2 H2 x Hx.
    apply all_resolves in H2. cbn [with_selector selector XPathSelector.xpath _xpath_list _source] in H2.
    rewrite Hl, Hs in H2.
    apply resolve_narrows in H2 as (R' & HR' & Hsub); [|discriminate].
    assert (Heq : Ok R' = Ok R) by (rewrite <- HR'; exact Hall).
    injection Heq as <-. now apply Hsub.
Qed.

End All.

(** C1 on a snapshot with one node: the selector for [Settings] with [//*]
    attached returns that node, the one element both queries return. *)
Lemma all_is_intersection_settings :
  exists R st',
    XPathSelector.all (Example.still Example.settings_xml) Example.engine None
      (with_selector
         (attach (XPathSelector.init "Settings" (Some Example.settings_xml)) ["//*"])
         (Example.start 20000 (XPathSelector.init "Settings" None)))
    = Ok (R, st')
    /\ el_id <$> R = [1%nat]
    /\ forall x, x ∈ R <->
         forall sh Rq stq, sh ∈ ["Settings"; "//*"] ->
           XPathSelector.all (Example.still Example.settings_xml) Example.engine None
             (with_selector (XPathSelector.init sh (Some Example.settings_xml))
                (Example.start 20000 (XPathSelector.init "Settings" None)))
           = Ok (Rq, stq) ->
           x ∈ Rq.
Proof.
  eexists. eexists. split; [reflexivity|]. split; [reflexivity|].
  exact (proj1 (proj2 (all_is_intersection (Example.still Example.settings_xml)
           Example.engine "Settings" ["//*"] (Some Example.settings_xml)
           (Example.start 20000 (XPathSelector.init "Settings" None)) _ _ eq_refl))).
Defined.

(** An element [resolve] returns is an element of the snapshot with its
    tag set. *)
Lemma resolved_element (E : Engine) (xml : string) (qs : list string) (root0 : element)
    (R : list XMLElement) (x : XMLElement) :
  parse_xml E xml = Some root0 -> resolve E xml qs = Ok R -> x ∈ R ->
  exists e0, iter root0 !! el_id x = Some e0 /\ elem x = retagged e0.
Proof.
  intros Hp HR Hx.
  destruct (resolve_Ok E _ _ _ HR) as (root & ms & Hp' & Htags & _ & _ & Hin).
  assert (root = root0) by congruence. subst root.
  destruct (proj1 (Hin x) Hx) as [Hl _].
  rewrite iter_retag, list_lookup_fmap in Hl.
  destruct (iter root0 !! el_id x) as [e0|]; [|discriminate].
  injection Hl as Hl. now exists e0.
Qed.

Lemma retag_keeps_attribute (e0 : element) (k : string) :
  k <> "class" -> attrib (retagged e0) !! k = attrib e0 !! k.
Proof.
  intros Hk. destruct (String.eqb_spec (tag e0) "node") as [Ht|Ht].
  - destruct (retag_of_node e0 Ht) as [_ ->]. now apply lookup_delete_ne.
  - now destruct (retag_of_other e0 Ht) as [_ ->].
Qed.

(** The queries are evaluated on the tree with its tags set. *)
Lemma resolve_on_retagged (E : Engine) (xml : string) (qs : list string) (root0 : element)
    (R : list XMLElement) :
  parse_xml E xml = Some root0 -> resolve E xml qs = Ok R ->
  tags_ok E root0 = true
  /\ forall x, x ∈ R <->
       iter (retagged root0) !! el_id x = Some (elem x)
       /\ forall q, q ∈ qs ->
            exists m, xpath_eval E (retagged root0) q = Some m /\ el_id x ∈ m.
Proof.
  intros Hp HR.
  destruct (resolve_Ok E _ _ _ HR) as (root & ms & Hp' & Htags & Hms & _ & Hin).
  assert (root = root0) by congruence. subst root. split; [assumption|].
  intros x. rewrite Hin. split; intros [Hx Hall]; (split; [assumption|]).
  - intros q Hq. apply list_elem_of_lookup in Hq as [i Hi].
    destruct (Forall2_lookup_l _ _ _ _ _ Hms Hi) as (m & Hm & Hqm).
    exists m. split; [assumption|]. rewrite Forall_forall in Hall. apply Hall.
    apply list_elem_of_lookup. now exists i.
  - apply Forall_forall. intros m Hm. apply list_elem_of_lookup in Hm as [i Hi].
    destruct (Forall2_lookup_r _ _ _ _ _ Hms Hi) as (q & Hq & Hqm).
    destruct (Hall q) as (m' & Hm' & Hel); [apply list_elem_of_lookup; now exists i|].
    congruence.
Qed.

Lemma elem_of_positions (p : element -> bool) (es : list element) (k i : nat) :
  i ∈ Example.positions p k es ->
  exists e, es !! (i - k)%nat = Some e /\ p e = true /\ (k <= i)%nat.
Proof.
  revert k. induction es as [|e es IH]; intros k; cbn [Example.positions];
    [intros H; inversion H|].
  assert (Hrec : i ∈ Example.positions p (S k) es ->
            exists e0, (e :: es) !! (i - k)%nat = Some e0 /\ p e0 = true /\ (k <= i)%nat).
  { intros H. apply IH in H as (e0 & He0 & Hp & Hle). exists e0.
    replace (i - k)%nat with (S (i - S k)) by lia. repeat split; [assumption..|lia]. }
  destruct (p e) eqn:Hpe; [|exact Hrec].
  intros H. apply elem_of_cons in H as [->|H]; [|now apply Hrec].
  exists e. rewrite Nat.sub_diag. repeat split; [assumption|lia].
Qed.

(** C10, as amended.  On a snapshot that parses, resolving raises
    [ValueError] when lxml refuses the tag of some [node] element, and
    otherwise sets all the tags before any query is evaluated: the elements
    it returns are those every query selects in the tree with its tags set.
    Every element returned is an element of the snapshot with its tag set.
    If its tag was [node], its [class] attribute is gone and nothing else
    of its attributes has changed, and its tag is the class with every [$]
    replaced by [-], or [node] when the class is absent or empty, so no [$]
    is left in the tag.  If its tag was not [node], its tag and its
    attributes are what the parser gave, the [class] attribute included.  So
    for a query that selects only elements whose [class] attribute has a
    given value, every element returned is one whose tag was not [node]. *)
Theorem resolved_nodes_lose_class (E : Engine) (xml : string) (qs : list string)
    (root0 : element) :
  parse_xml E xml = Some root0 ->
  (tags_ok E root0 = false -> resolve E xml qs = Raise ValueError)
  /\ forall R, resolve E xml qs = Ok R ->
       tags_ok E root0 = true
       /\ (forall x, x ∈ R <->
             iter (retagged root0) !! el_id x = Some (elem x)
             /\ forall q, q ∈ qs ->
                  exists m, xpath_eval E (retagged root0) q = Some m /\ el_id x ∈ m)
       /\ (forall x, x ∈ R ->
             exists e0,
               iter root0 !! el_id x = Some e0
               /\ elem x = retagged e0
               /\ (tag e0 = "node" ->
                     attrib (elem x) = delete "class" (attrib e0)
                     /\ attrib (elem x) !! "class" = None
                     /\ tag (elem x)
                        = str_or (safe_xmlstr (default EmptyString (attrib e0 !! "class")))
                                 "node"
                     /\ tag_ok E (tag (elem x)) = true
                     /\ PyStr.contains_char "$" (tag (elem x)) = false)
               /\ (tag e0 <> "node" -> tag (elem x) = tag e0 /\ attrib (elem x) = attrib e0))
       /\ (forall q v,
             q ∈ qs ->
             (forall root m i, xpath_eval E root q = Some m -> i ∈ m ->
                exists e, iter root !! i = Some e /\ attr_is "class" v e = true) ->
             forall x, x ∈ R ->
               exists e0, iter root0 !! el_id x = Some e0 /\ tag e0 <> "node"
                          /\ attrib e0 !! "class" = Some v).
Proof.
  intros Hp. split.
  - intros Ht. now rewrite (resolve_parsed E _ _ _ Hp), Ht.
  - intros R HR. destruct (resolve_on_retagged E _ _ _ _ Hp HR) as [Htags Hiff].
    split; [assumption|]. split; [assumption|]. split.
    + intros x Hx. destruct (resolved_element E _ _ _ _ _ Hp HR Hx) as (e0 & He0 & Hel).
      exists e0. split; [assumption|]. split; [assumption|]. rewrite Hel. split.
      * intros Ht. destruct (retag_of_node e0 Ht) as [Htag Hattr].
        rewrite Htag, Hattr. repeat split.
        -- apply lookup_delete_eq.
        -- unfold tags_ok in Htags. rewrite forallb_forall in Htags.
           specialize (Htags e0). rewrite Ht in Htags. cbn in Htags. apply Htags.
           apply list_elem_of_In, list_elem_of_lookup. now exists (el_id x).
        -- apply retag_node_no_dollar.
      * apply retag_of_other.
    + intros q v Hq Hclass x Hx.
      destruct (resolved_element E _ _ _ _ _ Hp HR Hx) as (e0 & He0 & Hel).
      destruct (proj1 (Hiff x) Hx) as [Hlook Hall].
      destruct (Hall q Hq) as (m & Hm & Hin).
      destruct (Hclass _ _ _ Hm Hin) as (e & He & Hattr).
      assert (e = elem x) by congruence. subst e.
      unfold attr_is in Hattr. apply bool_decide_eq_true in Hattr. rewrite Hel in Hattr.
      exists e0. split; [assumption|].
      destruct (String.eqb_spec (tag e0) "node") as [Ht|Ht].
      * destruct (retag_of_node e0 Ht) as [_ Ha]. rewrite Ha, lookup_delete_eq in Hattr.
        discriminate.
      * split; [assumption|]. destruct (retag_of_other e0 Ht) as [_ Ha].
        now rewrite Ha in Hattr.
Qed.

(** C10 on the snapshot with one node: the element returned for [Settings]
    has the tag [android.widget.TextView] and no [class] attribute.  On the
    snapshot whose node has the class [a b], resolving raises
    [ValueError].  On the snapshot with a [view] and a [node] of class
    [a.B], the query on that class returns only what was not a [node]. *)
Lemma resolved_nodes_lose_class_settings :
  (exists x,
     resolve Example.engine Example.settings_xml [strict_xpath "Settings"] = Ok [x]
     /\ tag (elem x) = "android.widget.TextView"
     /\ attrib (elem x) !! "class" = None
     /\ attrib (elem x) !! "text" = Some "Settings")
  /\ resolve Example.odd_engine Example.odd_xml ["//*"] = Raise ValueError
  /\ (exists R, resolve Example.engine Example.mixed_xml ["//*[@class='a.B']"] = Ok R
        /\ forall x, x ∈ R ->
             exists e0, iter Example.mixed_tree !! el_id x = Some e0 /\ tag e0 <> "node"
                        /\ attrib e0 !! "class" = Some "a.B").
Proof.
  split; [|split].
  - eexists. split; [reflexivity|].
    destruct (proj2 (resolved_nodes_lose_class Example.engine Example.settings_xml
                       [strict_xpath "Settings"] Example.settings_tree eq_refl) _ eq_refl)
      as (_ & _ & Hx & _).
    destruct (Hx _ (list_elem_of_here _ _)) as (e0 & He0 & _ & Hnode & _).
    injection He0 as <-.
    destruct (Hnode eq_refl) as (Ha & Hc & Ht & _).
    split; [exact Ht|]. split; [exact Hc|]. reflexivity.
  - exact (proj1 (resolved_nodes_lose_class Example.odd_engine Example.odd_xml ["//*"]
                    Example.odd_tree eq_refl) eq_refl).
  - eexists. split; [reflexivity|].
    destruct (proj2 (resolved_nodes_lose_class Example.engine Example.mixed_xml
                       ["//*[@class='a.B']"] Example.mixed_tree eq_refl) _ eq_refl)
      as (_ & _ & _ & Hq).
    apply (Hq "//*[@class='a.B']" "a.B"); [apply list_elem_of_here|].
    intros root m i Hm Hi. cbn in Hm. injection Hm as <-.
    apply elem_of_positions in Hi as (e & He & Hp & _).
    rewrite Nat.sub_0_r in He. now exists e.
Defined.

(** C10 as stated fails on a snapshot with an element whose tag is not
    [node]: its class stays an attribute, the element is returned with it,
    and a query on the class attribute matches it. *)
Lemma class_stays_on_other_tags :
  resolve Example.engine Example.mixed_xml ["//*[@class='a.B']"]
  = Ok [mkXMLElement 1
          (Element "view" {[ "class" := "a.B"; "bounds" := "[0,0][9,9]" ]} [])]
  /\ attrib (Element "view" {[ "class" := "a.B"; "bounds" := "[0,0][9,9]" ]} []) !! "class"
     = Some "a.B"
  /\ tag <$> iter (retagged Example.mixed_tree) = ["hierarchy"; "view"; "a.B"].
Proof. repeat split. Qed.

(** ** Runs of the selector *)

Section Wait.
Context (dev : Device) (E : Engine).
Import XPathSelector.

Lemma count_app (p : event -> bool) (a b : list event) :
  count p (a ++ b) = (count p a + count p b)%nat.
Proof. induction a as [|ev a IH]; simpl; [reflexivity | rewrite IH; lia]. Qed.

Lemma eval_all_raises (root : element) (qs : list string) (e : exn) :
  eval_all E root qs = Raise e -> e = XPathEvalError.
Proof.
  revert e. induction qs as [|q qs IH]; simpl; [discriminate|]. intros e.
  destruct (xpath_eval E root q); [|now intros [= <-]].
  destruct (eval_all E root qs) as [?|e'']; simpl; [discriminate|].
  intros [= <-]. now apply IH.
Qed.

Lemma resolve_raises_all (xml : string) (qs : list string) (e : exn) :
  resolve E xml qs = Raise e -> all_error e.
Proof.
  unfold all_error. destruct (parse_xml E xml) as [root0|] eqn:Hp;
    [|unfold resolve; rewrite Hp; intros [= <-]; tauto].
  rewrite (resolve_parsed E _ _ _ Hp). destruct (tags_ok E root0); [|intros [= <-]; tauto].
  destruct (eval_all E (retagged root0) qs) as [ms|e'] eqn:Hms; simpl.
  - destruct ms; simpl; [intros [= <-]; tauto | discriminate].
  - intros [= <-]. apply eval_all_raises in Hms. tauto.
Qed.

Lemma resolve_raises (xml : string) (qs : list string) (e : exn) :
  resolve E xml qs = Raise e -> resolve_error e.
Proof. intros H. apply resolve_raises_all in H. unfold all_error, resolve_error in *. tauto. Qed.

(** [all] as one step: it resolves the chosen snapshot. *)
Lemma all_run (source : option string) (st : State) :
  all dev E source st
  = match resolve E (chosen_source dev source st) (_xpath_list (selector st)) with
    | Ok R => Ok (R, after_all dev source st)
    | Raise e => Raise e
    end.
Proof.
  unfold all, choose_source, after_all, chosen_source, pinned, snapshot_for, bind, get_state,
    modify, lift, ret, XPath.dump_hierarchy, with_selector, with_event.
  destruct (truthy source) as [s|]; [|destruct (truthy (_source (selector st))) as [s|]];
    cbn [clock trace parent selector set_last_source _xpath_list];
    destruct (resolve E _ _); rewrite <- ?app_assoc; reflexivity.
Qed.

Lemma after_all_facts (source : option string) (st : State) :
  let st1 := after_all dev source st in
  _xpath_list (selector st1) = _xpath_list (selector st)
  /\ _source (selector st1) = _source (selector st)
  /\ _last_source (selector st1) = Some (chosen_source dev source st)
  /\ same_settings (parent st) (parent st1)
  /\ resolves st1 = S (resolves st) /\ sleeps st1 = sleeps st /\ clicks st1 = clicks st
  /\ last (trace st1) = Some (EvResolve (chosen_source dev source st))
  /\ (if pinned source st
      then dumps st1 = dumps st /\ clock st1 = clock st /\ parent st1 = parent st
      else dumps st1 = S (dumps st) /\ clock st1 = clock st + dump_latency dev
           /\ p_last_source (parent st1) = Some (chosen_source dev source st)).
Proof.
  unfold after_all, same_settings, resolves, sleeps, clicks, dumps.
  destruct (pinned source st); cbn [clock trace parent selector set_last_source
    XPath.set_last_source _xpath_list _source _last_source wait_timeout _click_before_delay
    _click_after_delay send_click_callbacks p_last_source];
    rewrite !count_app, last_app; cbn [count last is_resolve is_sleep is_click is_dump];
    repeat split; lia.
Qed.

Lemma after_all_clock (source : option string) (st : State) :
  0 <= dump_latency dev -> clock st <= clock (after_all dev source st).
Proof. intros Hlat. unfold after_all. destruct (pinned source st); cbn [clock]; lia. Qed.

(** A call with no argument is a poll. *)
Lemma after_all_poll (st : State) :
  chosen_source dev None st = snapshot_at dev (_source (selector st)) (clock st)
  /\ clock (after_all dev None st) = clock st + poll_cost dev (_source (selector st))
  /\ trace (after_all dev None st)
     = trace st ++ poll_events dev (_source (selector st)) (clock st).
Proof.
  unfold after_all, chosen_source, pinned, snapshot_for, snapshot_at, poll_cost, poll_events.
  cbn [truthy]. destruct (truthy (_source (selector st))); cbn [clock trace];
    repeat split; lia.
Qed.

Lemma chosen_source_some (x : string) (st : State) :
  x <> EmptyString -> chosen_source dev (Some x) st = x /\ pinned (Some x) st = true.
Proof. intros Hx. unfold chosen_source, pinned. destruct x; [contradiction | now split]. Qed.

Lemma all_returns (source : option string) (st : State) (R : list XMLElement) (st1 : State) :
  all dev E source st = Ok (R, st1) ->
  resolve E (chosen_source dev source st) (_xpath_list (selector st)) = Ok R
  /\ st1 = after_all dev source st.
Proof.
  rewrite all_run. destruct (resolve E _ _) as [R'|]; [|discriminate].
  intros [= <- <-]. now split.
Qed.

Lemma exists_run (st : State) :
  exists_ dev E st
  = match resolve E (chosen_source dev None st) (_xpath_list (selector st)) with
    | Ok R => Ok ((0 <? length R)%nat, after_all dev None st)
    | Raise e => Raise e
    end.
Proof. unfold exists_, bind, ret. rewrite all_run. now destruct (resolve E _ _). Qed.

Lemma get_last_match_run (st : State) :
  get_last_match dev E st
  = match resolve E (chosen_source dev (_last_source (selector st)) st)
            (_xpath_list (selector st)) with
    | Ok (el :: _) => Ok (el, after_all dev (_last_source (selector st)) st)
    | Ok [] => Raise IndexError
    | Raise e => Raise e
    end.
Proof.
  unfold get_last_match, bind, get_state, lift. rewrite all_run.
  destruct (resolve E _ _) as [[|el R]|]; reflexivity.
Qed.

Lemma get_last_match_returns (st : State) (el : XMLElement) (st1 : State) :
  get_last_match dev E st = Ok (el, st1) ->
  st1 = after_all dev (_last_source (selector st)) st.
Proof.
  rewrite get_last_match_run. destruct (resolve E _ _) as [[|x R]|]; try discriminate.
  now intros [= _ <-].
Qed.

Lemma set_last_source_same (sel : XPathSelector) (xml : string) :
  _last_source sel = Some xml -> set_last_source xml sel = sel.
Proof. destruct sel as [l s ls]. cbn. now intros ->. Qed.



Lemma sleep_200 (st : State) :
  sleep 200 st = Ok (tt, mkState (clock st + 200) (trace st ++ [EvSleep 200]) (parent st)
                                 (selector st)).
Proof. reflexivity. Qed.


(** One call of [all]: one resolve, no sleep, and the clock does not go
    back. *)
Lemma all_step (source : option string) (st : State) (els : list XMLElement) (st1 : State) :
  0 <= dump_latency dev ->
  all dev E source st = Ok (els, st1) ->
  resolves st1 = S (resolves st) /\ sleeps st1 = sleeps st
  /\ clock st <= clock st1
  /\ wait_timeout (parent st1) = wait_timeout (parent st)
  /\ exists xml, last (trace st1) = Some (EvResolve xml)
                 /\ _last_source (selector st1) = Some xml
                 /\ resolve E xml (_xpath_list (selector st1)) = Ok els.
Proof.
  intros Hlat Hall. apply all_returns in Hall as [HR ->].
  destruct (after_all_facts source st) as (Hq & _ & Hls & Hset & Hr & Hs & _ & Hlast & _).
  cbv zeta in *. repeat split; try assumption.
  - now apply after_all_clock.
  - apply Hset.
  - eexists. split; [exact Hlast|]. split; [exact Hls|]. now rewrite Hq.
Qed.

Lemma all_raises (source : option string) (st : State) (e : exn) :
  all dev E source st = Raise e -> resolve_error e.
Proof.
  rewrite all_run. destruct (resolve E _ _) eqn:HR; [discriminate|]. intros [= <-].
  now apply resolve_raises in HR.
Qed.

Lemma exists_step (st : State) (b : bool) (st1 : State) :
  0 <= dump_latency dev ->
  exists_ dev E st = Ok (b, st1) ->
  resolves st1 = S (resolves st) /\ sleeps st1 = sleeps st
  /\ clock st <= clock st1
  /\ wait_timeout (parent st1) = wait_timeout (parent st).
Proof.
  intros Hlat. unfold exists_, bind, ret.
  destruct (all dev E None st) as [[els st']|] eqn:Hall; [|discriminate].
  intros [= _ <-]. apply all_step in Hall; tauto.
Qed.

Lemma exists_raises (st : State) (e : exn) :
  exists_ dev E st = Raise e -> resolve_error e.
Proof.
  unfold exists_, bind, ret.
  destruct (all dev E None st) as [[els st']|] eqn:Hall; [discriminate|].
  intros [= <-]. now apply all_raises in Hall.
Qed.

Lemma get_last_match_step (st : State) (el : XMLElement) (st1 : State) :
  0 <= dump_latency dev ->
  get_last_match dev E st = Ok (el, st1) ->
  resolves st1 = S (resolves st) /\ sleeps st1 = sleeps st
  /\ clock st <= clock st1
  /\ exists xml els, last (trace st1) = Some (EvResolve xml)
                     /\ resolve E xml (_xpath_list (selector st1)) = Ok (el :: els).
Proof.
  intros Hlat. unfold get_last_match, bind, get_state, lift.
  destruct (all dev E _ st) as [[els st']|] eqn:Hall; [|discriminate].
  destruct els as [|x els]; simpl; [discriminate|]. intros [= <- <-].
  apply all_step in Hall as (? & ? & ? & _ & xml & ? & _ & ?); [|assumption].
  repeat split; try assumption. now exists xml, els.
Qed.

Lemma get_last_match_raises (st : State) (e : exn) :
  get_last_match dev E st = Raise e -> resolve_error e.
Proof.
  unfold get_last_match, bind, get_state, lift.
  destruct (all dev E _ st) as [[els st']|] eqn:Hall.
  - destruct els; simpl; [|discriminate]. intros [= <-]. unfold resolve_error. tauto.
  - intros [= <-]. now apply all_raises in Hall.
Qed.

(** *** The loop of [wait] *)

(** With enough fuel the loop reaches its end. *)
Lemma wait_loop_returns (fuel : nat) (deadline : Z) (st : State) :
  0 <= dump_latency dev ->
  (Z.to_nat (deadline - clock st) < fuel)%nat ->
  exists r, wait_loop dev E fuel deadline st = Some r.
Proof.
  intros Hlat. revert st. induction fuel as [|fuel IH]; intros st Hfuel; [lia|]. cbn [wait_loop].
  destruct (Z.ltb_spec (clock st) deadline) as [Hlt|]; [|now eexists].
  destruct (exists_ dev E st) as [[[|] st1]|e] eqn:Hex; [now eexists | | now eexists].
  apply exists_step in Hex as (_ & _ & Hclock & _); [|assumption].
  rewrite sleep_200. apply IH. cbn [clock]. lia.
Qed.

(** More fuel does not change what the loop returns. *)
Lemma wait_loop_more_fuel (fuel fuel' : nat) (deadline : Z) (st : State)
    (r : result (option XMLElement * State)) :
  (fuel <= fuel')%nat ->
  wait_loop dev E fuel deadline st = Some r -> wait_loop dev E fuel' deadline st = Some r.
Proof.
  revert fuel' st. induction fuel as [|fuel IH]; intros fuel' st Hle; [discriminate|].
  destruct fuel' as [|fuel']; [lia|]. cbn [wait_loop].
  destruct (clock st <? deadline); [|exact id].
  destruct (exists_ dev E st) as [[[|] st1]|e]; try exact id.
  rewrite sleep_200. apply IH. lia.
Qed.

(** What the loop returns, counted. *)
Lemma wait_loop_outcome (fuel : nat) (deadline : Z) (st : State)
    (r : result (option XMLElement * State)) :
  0 <= dump_latency dev ->
  wait_loop dev E fuel deadline st = Some r ->
  match r with
  | Ok (None, st') =>
      deadline <= clock st'
      /\ (deadline <= clock st -> st' = st)
      /\ exists k, resolves st' = (resolves st + k)%nat /\ sleeps st' = (sleeps st + k)%nat
                   /\ (clock st < deadline -> (0 < k)%nat)
  | Ok (Some el, st') =>
      clock st < deadline
      /\ exists k xml els,
           resolves st' = (resolves st + k + 2)%nat /\ sleeps st' = (sleeps st + k)%nat
           /\ last (trace st') = Some (EvResolve xml)
           /\ resolve E xml (_xpath_list (selector st')) = Ok (el :: els)
  | Raise e => resolve_error e
  end.
Proof.
  intros Hlat. revert st. induction fuel as [|fuel IH]; intros st; [discriminate|]. cbn [wait_loop].
  destruct (Z.ltb_spec (clock st) deadline) as [Hlt|Hge].
  - destruct (exists_ dev E st) as [[[|] st1]|e] eqn:Hex.
    + apply exists_step in Hex as (Hr & Hs & Hc & _); [|assumption].
      unfold bind, ret.
      destruct (get_last_match dev E st1) as [[el st2]|e] eqn:Hget; intros [= <-].
      * apply get_last_match_step in Hget as (Hr2 & Hs2 & Hc2 & xml & els & Hlast & Hres);
          [|assumption].
        split; [assumption|]. exists 0%nat, xml, els. repeat split; try assumption; lia.
      * now apply get_last_match_raises in Hget.
    + apply exists_step in Hex as (Hr & Hs & Hc & _); [|assumption].
      rewrite sleep_200. intros Hloop. specialize (IH _ Hloop).
      unfold resolves, sleeps in *. cbn [clock trace selector] in IH.
      rewrite !count_app in IH. cbn [count is_resolve is_sleep] in IH.
      destruct r as [[[el|] st']|e]; [| |exact IH].
      * destruct IH as (_ & k & xml & els & Hr' & Hs' & Hrest).
        split; [assumption|]. exists (S k), xml, els. repeat split; try apply Hrest; lia.
      * destruct IH as (Hd & _ & k & Hr' & Hs' & _).
        split; [assumption|]. split; [lia|].
        exists (S k). repeat split; lia.
    + intros [= <-]. now apply exists_raises in Hex.
  - intros [= <-]. split; [assumption|]. split; [reflexivity|].
    exists 0%nat. repeat split; lia.
Qed.

(** The queries and the pinned snapshot stay as they are. *)
Lemma wait_loop_queries (fuel : nat) (deadline : Z) (st : State) (o : option XMLElement)
    (st' : State) :
  wait_loop dev E fuel deadline st = Some (Ok (o, st')) ->
  _xpath_list (selector st') = _xpath_list (selector st).
Proof.
  revert st. induction fuel as [|fuel IH]; intros st; [discriminate|]. cbn [wait_loop].
  destruct (clock st <? deadline); [|now intros [= _ <-]].
  rewrite exists_run. destruct (resolve E _ _) as [R|e]; [|discriminate].
  destruct (after_all_facts None st) as (Hq & _). cbv zeta in Hq.
  destruct (0 <? length R)%nat.
  - unfold bind, ret.
    destruct (get_last_match dev E (after_all dev None st)) as [[el st2]|e] eqn:Hget;
      [|discriminate].
    intros [= _ <-]. apply get_last_match_returns in Hget. rewrite Hget.
    destruct (after_all_facts (_last_source (selector (after_all dev None st)))
                (after_all dev None st)) as (Hq' & _).
    cbv zeta in Hq'. congruence.
  - rewrite sleep_200. intros Hloop. apply IH in Hloop. cbn [selector] in Hloop. congruence.
Qed.

(** What the loop returns, poll by poll. *)
Lemma wait_loop_polls (fuel : nat) (deadline : Z) (st : State)
    (r : result (option XMLElement * State)) :
  wait_loop dev E fuel deadline st = Some r ->
  let source := _source (selector st) in
  let qs := _xpath_list (selector st) in
  match r with
  | Ok (None, st') =>
      exists tr, trace st' = trace st ++ tr
                 /\ polls dev E source qs false deadline (clock st) tr (clock st')
  | Ok (Some el, st') =>
      exists tr c R tr' xml els,
        polls dev E source qs false deadline (clock st) tr c
        /\ c < deadline
        /\ resolve E (snapshot_at dev source c) qs = Ok R /\ R <> []
        /\ trace st' = trace st ++ tr ++ poll_events dev source c ++ tr'
        /\ last tr' = Some (EvResolve xml)
        /\ resolve E xml qs = Ok (el :: els)
        /\ (snapshot_at dev source c <> EmptyString ->
            xml = snapshot_at dev source c /\ tr' = [EvResolve xml]
            /\ clock st' = c + poll_cost dev source)
  | Raise e => True
  end.
Proof.
  revert st. induction fuel as [|fuel IH]; intros st; [discriminate|]. cbn [wait_loop].
  cbv zeta. set (source := _source (selector st)). set (qs := _xpath_list (selector st)).
  destruct (Z.ltb_spec (clock st) deadline) as [Hlt|Hge].
  - rewrite exists_run. destruct (after_all_poll st) as (Hxml & Hclock & Htrace).
    fold source in Hxml, Hclock, Htrace. fold qs. rewrite Hxml.
    destruct (resolve E (snapshot_at dev source (clock st)) qs) as [R|e] eqn:HR;
      [|intros [= <-]; exact I].
    destruct (after_all_facts None st) as (Hq & Hsrc & Hls & _). cbv zeta in Hq, Hsrc, Hls.
    set (st1 := after_all dev None st) in *.
    destruct R as [|el0 R]; cbn [length Nat.ltb Nat.leb].
    + rewrite sleep_200. intros Hloop. specialize (IH _ Hloop). cbv zeta in IH.
      cbn [selector clock trace] in IH. rewrite Hq, Hsrc, Hclock in IH.
      fold source qs in IH.
      assert (Hpoll : forall tr c',
                polls dev E source qs false deadline
                  (clock st + poll_cost dev source + 200) tr c' ->
                polls dev E source qs false deadline (clock st)
                  (poll_events dev source (clock st) ++ EvSleep 200 :: tr) c').
      { intros tr c' Hp. now apply (polls_poll _ _ _ _ _ _ _ []). }
      destruct r as [[[el|] st']|e]; [| |exact I].
      * destruct IH as (tr & c & R & tr' & xml & els & Hp & Hc & HRc & Hne & Htr & Hrest).
        exists (poll_events dev source (clock st) ++ EvSleep 200 :: tr), c, R, tr', xml, els.
        split; [now apply Hpoll|]. split; [assumption|]. split; [assumption|].
        split; [assumption|]. split; [|exact Hrest].
        rewrite Htr, Htrace, <- !app_assoc. reflexivity.
      * destruct IH as (tr & Htr & Hp).
        exists (poll_events dev source (clock st) ++ EvSleep 200 :: tr).
        split; [|now apply Hpoll]. rewrite Htr, Htrace, <- !app_assoc. reflexivity.
    + unfold bind, ret. rewrite get_last_match_run, Hls, Hq, Hxml. fold qs.
      set (x1 := snapshot_at dev source (clock st)) in *.
      set (xml := chosen_source dev (Some x1) st1).
      destruct (resolve E xml qs) as [[|el els]|e] eqn:Hres; intros [= <-]; try exact I.
      exists [], (clock st), (el0 :: R),
        (if pinned (Some x1) st1 then [EvResolve xml] else [EvDump; EvResolve xml]), xml, els.
      fold x1.
      split; [constructor|]. split; [assumption|]. split; [assumption|].
      split; [discriminate|]. split; [|split; [|split; [assumption|]]].
      * unfold after_all. fold xml.
        destruct (pinned (Some x1) st1); cbn [trace];
          rewrite Htrace, <- !app_assoc; reflexivity.
      * now destruct (pinned (Some x1) st1).
      * intros Hne. destruct (chosen_source_some x1 st1 Hne) as [Hx Hpin].
        fold xml in Hx. rewrite Hpin. split; [assumption|]. split; [reflexivity|].
        unfold after_all. rewrite Hpin. cbn [clock]. exact Hclock.
  - intros [= <-]. exists []. rewrite app_nil_r. split; [reflexivity | constructor].
Qed.

End Wait.

(** C6, as amended.  [wait] computes its deadline once, as the clock plus
    the timeout, where a timeout of zero, like no timeout, stands for the
    session's default.  It returns or raises: while the clock is before the
    deadline it polls, that is, it resolves the snapshot of the instant; at
    the first poll that finds something it resolves the snapshot once more
    and returns the first element of that; after a poll that finds nothing
    it sleeps 200 ms.  So when it returns no match, the trace it leaves is a
    run of polls that all found nothing, each one started before the
    deadline and followed by a sleep of 200 ms, the deadline has passed, and
    nothing was resolved at all if the deadline had passed at the start, as
    it has when the timeout in effect is zero.  When it returns a match,
    the trace is such a run of polls, then a poll that found something, then
    the resolve whose first element is returned, which, when the snapshot is
    not the empty string, is a resolve of the same snapshot with no dump.
    It raises only what resolving raises. *)
Theorem wait_polls_until_deadline (dev : Device) (E : Engine) (timeout : option Z) (st : State) :
  0 <= dump_latency dev ->
  let default := wait_timeout (parent st) in
  let deadline := clock st + XPathSelector.timeout_or timeout default in
  let source := _source (selector st) in
  let qs := _xpath_list (selector st) in
  XPathSelector.timeout_or (Some 0) default = default
  /\ XPathSelector.timeout_or None default = default
  /\ (forall t, t <> 0 -> XPathSelector.timeout_or (Some t) default = t)
  /\ (exists fuel, forall fuel', (fuel <= fuel')%nat ->
        exists r, XPathSelector.wait dev E fuel' timeout st = Some r)
  /\ (forall fuel fuel' r, (fuel <= fuel')%nat ->
        XPathSelector.wait dev E fuel timeout st = Some r ->
        XPathSelector.wait dev E fuel' timeout st = Some r)
  /\ (forall fuel r, XPathSelector.wait dev E fuel timeout st = Some r ->
        match r with
        | Ok (None, st') =>
            deadline <= clock st'
            /\ (deadline <= clock st -> st' = st)
            /\ (exists tr, trace st' = trace st ++ tr
                           /\ polls dev E source qs false deadline (clock st) tr (clock st'))
            /\ exists k, resolves st' = (resolves st + k)%nat
                         /\ sleeps st' = (sleeps st + k)%nat
                         /\ (clock st < deadline -> (0 < k)%nat)
        | Ok (Some el, st') =>
            clock st < deadline
            /\ (exists tr c R tr' xml els,
                  polls dev E source qs false deadline (clock st) tr c
                  /\ c < deadline
                  /\ resolve E (snapshot_at dev source c) qs = Ok R /\ R <> []
                  /\ trace st' = trace st ++ tr ++ poll_events dev source c ++ tr'
                  /\ last tr' = Some (EvResolve xml)
                  /\ resolve E xml qs = Ok (el :: els)
                  /\ (snapshot_at dev source c <> EmptyString ->
                      xml = snapshot_at dev source c /\ tr' = [EvResolve xml]
                      /\ clock st' = c + poll_cost dev source))
            /\ exists k xml els,
                 resolves st' = (resolves st + k + 2)%nat
                 /\ sleeps st' = (sleeps st + k)%nat
                 /\ last (trace st') = Some (EvResolve xml)
                 /\ resolve E xml (_xpath_list (selector st')) = Ok (el :: els)
        | Raise e => resolve_error e
        end).
Proof.
  intros Hlat default deadline source qs.
  split; [reflexivity|]. split; [reflexivity|].
  split; [intros t Ht; simpl; now destruct (Z.eqb_spec t 0)|].
  split.
  - exists (S (Z.to_nat (deadline - clock st))). intros fuel' Hfuel.
    subst deadline default. apply wait_loop_returns; [assumption | lia].
  - split.
    + intros fuel fuel' r Hle. apply wait_loop_more_fuel. exact Hle.
    + intros fuel r Hr.
      pose proof (wait_loop_outcome dev E fuel deadline st r Hlat Hr) as Hcount.
      pose proof (wait_loop_polls dev E fuel deadline st r Hr) as Hpolls.
      cbv zeta in Hpolls. fold source qs in Hpolls.
      destruct r as [[[el|] st']|e]; [| |exact Hcount].
      * destruct Hcount as [Hlt Hk]. split; [assumption|]. split; assumption.
      * destruct Hcount as (Hd & Hsame & Hk). repeat split; assumption.
Qed.

(** C6 on a device that shows the Settings node: with a timeout of 400 ms
    the selector for [Settings] is found by the first resolve, with no
    sleep. *)
Lemma wait_polls_until_deadline_settings :
  exists el st',
    XPathSelector.wait (Example.still Example.settings_xml) Example.engine 5 (Some 400)
      (Example.start 20000 (XPathSelector.init "Settings" None))
    = Some (Ok (Some el, st'))
    /\ sleeps st' = 0%nat
    /\ exists fuel, forall fuel', (fuel <= fuel')%nat ->
         exists r, XPathSelector.wait (Example.still Example.settings_xml) Example.engine
                     fuel' (Some 400)
                     (Example.start 20000 (XPathSelector.init "Settings" None)) = Some r.
Proof.
  eexists. eexists. split; [reflexivity|]. split; [reflexivity|].
  exact (proj1 (proj2 (proj2 (proj2
           (wait_polls_until_deadline (Example.still Example.settings_xml) Example.engine
              (Some 400) (Example.start 20000 (XPathSelector.init "Settings" None))
              (Z.le_refl 0)))))).
Defined.

(** C6 as stated fails for a timeout of zero.  With a default of one second
    and the element absent, [wait(0)] resolves five times and sleeps five
    times before it gives up at the deadline; with a default of zero and the
    element present, it resolves nothing and returns no match. *)
Lemma wait_zero_is_not_one_resolve :
  report (XPathSelector.wait (Example.still Example.settings_xml) Example.engine 10 (Some 0)
            (Example.start 1000 (XPathSelector.init "Wifi" None)))
  = Some (Ok (None, (5%nat, 5%nat, 1000)))
  /\ XPathSelector.wait (Example.still Example.settings_xml) Example.engine 10 (Some 0)
       (Example.start 0 (XPathSelector.init "Settings" None))
     = Some (Ok (None, Example.start 0 (XPathSelector.init "Settings" None)))
  /\ length <$> (fst <$> XPathSelector.all (Example.still Example.settings_xml)
                           Example.engine None
                           (Example.start 0 (XPathSelector.init "Settings" None)))
     = Ok 1%nat.
Proof. split; [|split]; vm_compute; reflexivity. Qed.

(** ** [XPathSelector.click_nowait] *)

Lemma click_nowait_no_match (dev : Device) (E : Engine) (st st' : State) :
  XPathSelector.all dev E None st = Ok ([], st') ->
  XPathSelector.click_nowait dev E st = Raise IndexError.
Proof. intros H. unfold XPathSelector.click_nowait, bind. now rewrite H. Qed.

Lemma click_nowait_first_match (dev : Device) (E : Engine) (st st' : State)
    (el : XMLElement) (els : list XMLElement) (x y : Z) :
  XPathSelector.all dev E None st = Ok (el :: els, st') ->
  XMLElement.center el = Ok (x, y) ->
  XPathSelector.click_nowait dev E st = XPath.send_click x y st'.
Proof.
  intros H Hc. unfold XPathSelector.click_nowait, bind, lift. rewrite H. simpl.
  now rewrite Hc.
Qed.

(** C9 on the code.  [click_nowait] resolves once and never waits: when the
    result is empty it raises [IndexError], and when it is not it clicks the
    centre of the first element.  So on a snapshot where nothing matches it
    raises [IndexError], not the error [get] raises for the same selector;
    where the Settings node matches it dumps, resolves and clicks (100, 25). *)
Theorem click_nowait_leaks_index_error :
  (forall dev E st st',
     XPathSelector.all dev E None st = Ok ([], st') ->
     XPathSelector.click_nowait dev E st = Raise IndexError)
  /\ (forall dev E st st' el els x y,
        XPathSelector.all dev E None st = Ok (el :: els, st') ->
        XMLElement.center el = Ok (x, y) ->
        XPathSelector.click_nowait dev E st = XPath.send_click x y st')
  /\ XPathSelector.click_nowait (Example.still Example.settings_xml) Example.engine
       (Example.start 20000 (XPathSelector.init "Wifi" None))
     = Raise IndexError
  /\ XPathSelector.get (Example.still Example.settings_xml) Example.engine 10
       (Example.start 400 (XPathSelector.init "Wifi" None))
     = Some (Raise (XPathElementNotFoundError
                      ["//*[@text='Wifi' or @content-desc='Wifi']"]))
  /\ trace <$> (snd <$> (XPathSelector.click_nowait (Example.still Example.settings_xml)
                           Example.engine
                           (Example.start 20000 (XPathSelector.init "Settings" None))))
     = Ok [EvDump; EvResolve Example.settings_xml; EvClick 100 25].
Proof.
  split; [exact click_nowait_no_match|]. split; [exact click_nowait_first_match|].
  split; [|split]; vm_compute; reflexivity.
Qed.

(** ** The order of the elements [all] returns *)

Section Order.

Lemma tags_ok_same (E1 E2 : Engine) (root : element) :
  same_lxml E1 E2 -> tags_ok E1 root = tags_ok E2 root.
Proof.
  intros (_ & Ht & _). unfold tags_ok.
  induction (iter root) as [|e es IH]; [reflexivity|]. cbn [forallb]. now rewrite Ht, IH.
Qed.

Lemma eval_all_same (E1 E2 : Engine) (root : element) (qs : list string) :
  same_lxml E1 E2 -> eval_all E1 root qs = eval_all E2 root qs.
Proof.
  intros (_ & _ & Hq). induction qs as [|q qs IH]; [reflexivity|].
  cbn [eval_all]. now rewrite Hq, IH.
Qed.

Lemma iterate_perm (E1 E2 : Engine) (m : matches) : iterate E1 m ≡ₚ iterate E2 m.
Proof.
  destruct m as [l|X]; cbn [iterate]; [reflexivity|].
  now rewrite (set_iter_perm E1 X), (set_iter_perm E2 X).
Qed.

(** With one query the result is the evaluator's own list. *)
Lemma resolve_one_same (E1 E2 : Engine) (xml q : string) :
  same_lxml E1 E2 -> resolve E1 xml [q] = resolve E2 xml [q].
Proof.
  intros Hsame. pose proof Hsame as (Hp & _ & Hq).
  destruct (parse_xml E1 xml) as [root0|] eqn:Hp1.
  - assert (Hp2 : parse_xml E2 xml = Some root0) by (now rewrite <- Hp).
    rewrite (resolve_parsed E1 _ _ _ Hp1), (resolve_parsed E2 _ _ _ Hp2).
    rewrite <- (tags_ok_same E1 E2 root0 Hsame). destruct (tags_ok E1 root0); [|reflexivity].
    cbn [eval_all]. rewrite <- Hq. now destruct (xpath_eval E1 (retagged root0) q).
  - unfold resolve. now rewrite Hp1, <- Hp, Hp1.
Qed.

(** With any queries the two runs return the same elements, in some order. *)
Lemma resolve_perm (E1 E2 : Engine) (xml : string) (qs : list string) (R1 : list XMLElement) :
  same_lxml E1 E2 -> resolve E1 xml qs = Ok R1 ->
  exists R2, resolve E2 xml qs = Ok R2 /\ R1 ≡ₚ R2.
Proof.
  intros Hsame. pose proof Hsame as (Hp & _ & _).
  destruct (parse_xml E1 xml) as [root0|] eqn:Hp1;
    [|unfold resolve; rewrite Hp1; discriminate].
  assert (Hp2 : parse_xml E2 xml = Some root0) by (now rewrite <- Hp).
  rewrite (resolve_parsed E1 _ _ _ Hp1), (resolve_parsed E2 _ _ _ Hp2).
  rewrite <- (tags_ok_same E1 E2 root0 Hsame), <- (eval_all_same E1 E2 _ qs Hsame).
  destruct (tags_ok E1 root0); [|discriminate].
  destruct (eval_all E1 (retagged root0) qs) as [ms|e]; cbn [mbind result_bind];
    [|discriminate].
  destruct (reduce_intersection ms) as [nodes|e]; cbn [mbind result_bind]; [|discriminate].
  intros [= <-]. eexists. split; [reflexivity|].
  apply omap_Permutation, iterate_perm.
Qed.

(** C3 on the code.  What the code fixes for a snapshot and a list of
    queries is the set of the elements returned, and their order only when
    there is one query, where the result is the evaluator's list.  With two
    or more queries the elements are returned in the order in which the run
    iterates a set of them, and two runs of the same lxml that iterate a
    set in different orders return different lists: on the snapshot with a
    [view] and a [node], the queries [//*] and [//*] give the elements
    2, 1, 0 in one run and 0, 1, 2 in the other, and [get_last_match] on the
    cached snapshot gives the element 2 in one and the element 0 in the
    other. *)
Theorem resolution_order_is_set_order :
  (forall E1 E2 xml q, same_lxml E1 E2 -> resolve E1 xml [q] = resolve E2 xml [q])
  /\ (forall E1 E2 xml qs R1, same_lxml E1 E2 -> resolve E1 xml qs = Ok R1 ->
        exists R2, resolve E2 xml qs = Ok R2 /\ R1 ≡ₚ R2)
  /\ same_lxml Example.engine (Example.reversed Example.engine)
  /\ positions_of (resolve Example.engine Example.mixed_xml ["//*"; "//*"])
     = Ok [2; 1; 0]%nat
  /\ positions_of (resolve (Example.reversed Example.engine) Example.mixed_xml
                     ["//*"; "//*"])
     = Ok [0; 1; 2]%nat
  /\ position_of (XPathSelector.get_last_match (Example.still Example.mixed_xml)
                    Example.engine (resolved_selector ["//*"; "//*"] Example.mixed_xml))
     = Ok 2%nat
  /\ position_of (XPathSelector.get_last_match (Example.still Example.mixed_xml)
                    (Example.reversed Example.engine)
                    (resolved_selector ["//*"; "//*"] Example.mixed_xml))
     = Ok 0%nat.
Proof.
  split; [exact resolve_one_same|]. split; [exact resolve_perm|].
  split; [repeat split|]. repeat split; vm_compute; reflexivity.
Qed.

End Order.

(** ** More on the translator *)

Section TranslatorMore.
Import PyStr XPathSyntax.

Lemma strict_xpath_full (t : string) :
  startswith "//" t = true -> strict_xpath t = t.
Proof. intros H. unfold strict_xpath. now rewrite H. Qed.

Lemma strict_xpath_is_full (s : string) : startswith "//" (strict_xpath s) = true.
Proof.
  unfold strict_xpath.
  destruct (startswith "//" s) eqn:H1; [exact H1|].
  destruct (startswith "@" s); [reflexivity|].
  destruct (startswith "^" s); [reflexivity|].
  destruct (startswith "%" s && endswith "%" s); [reflexivity|].
  destruct (startswith "%" s); [reflexivity|].
  destruct (endswith "%" s); reflexivity.
Qed.

(** X1.  Whatever the shorthand, the translated query starts with [//], so
    it is a query the translator passes through: translating a second time
    changes nothing. *)
Theorem strict_xpath_idempotent (s : string) :
  startswith "//" (strict_xpath s) = true
  /\ strict_xpath (strict_xpath s) = strict_xpath s.
Proof.
  split; [apply strict_xpath_is_full|].
  apply strict_xpath_full, strict_xpath_is_full.
Qed.

Lemma repr_of_plain (v : string) :
  plain_literal v = true ->
  repr v = String (repr_quote v) (v +:+ String (repr_quote v) EmptyString).
Proof.
  unfold plain_literal, repr. intros H.
  apply andb_true_iff in H as [Hc Hq]. apply negb_true_iff in Hq.
  now rewrite repr_body_plain by (try assumption; now apply repr_quote_absent).
Qed.

(** X2.  A literal of printable characters with no backslash and at most
    one kind of quote is written as it is between quotes, double quotes
    exactly when it holds a single quote, and XPath reads the quoted form
    back as the literal. *)
Theorem string_quote_round_trip (v : string) :
  plain_literal v = true ->
  string_quote v = String (repr_quote v) (v +:+ String (repr_quote v) EmptyString)
  /\ repr_quote v = (if contains_char squote v then dquote else squote)
  /\ literal (string_quote v) = Some (v, EmptyString).
Proof.
  intros H. split; [now apply repr_of_plain|]. split.
  - unfold plain_literal in H. apply andb_true_iff in H as [_ Hq].
    apply negb_true_iff in Hq. unfold repr_quote.
    destruct (contains_char squote v); [|reflexivity].
    simpl in Hq. now rewrite Hq.
  - now apply string_quote_plain.
Qed.

(** X2 on a text with an apostrophe. *)
Lemma string_quote_round_trip_apostrophe :
  literal (string_quote "it's") = Some ("it's", EmptyString)
  /\ repr_quote "it's" = dquote.
Proof.
  destruct (string_quote_round_trip "it's" eq_refl) as (_ & Hq & Hl).
  split; [exact Hl | exact Hq].
Defined.

Lemma replace_char_length (a b : ascii) (s : string) :
  String.length (replace_char a b s) = String.length s.
Proof. induction s as [|c s IH]; simpl; [reflexivity | now rewrite IH]. Qed.

Lemma replace_char_absent (a b : ascii) (s : string) :
  contains_char a s = false -> replace_char a b s = s.
Proof.
  induction s as [|c s IH]; simpl; [reflexivity|]. intros H.
  apply orb_false_iff in H as [Hc Hs]. now rewrite Hc, IH.
Qed.

(** X3.  [safe_xmlstr] keeps the length of its argument, leaves no [$] in
    it, returns a string without [$] as it is, and so does nothing when it
    is applied a second time. *)
Theorem safe_xmlstr_cleans (s : string) :
  String.length (safe_xmlstr s) = String.length s
  /\ contains_char "$" (safe_xmlstr s) = false
  /\ (contains_char "$" s = false -> safe_xmlstr s = s)
  /\ safe_xmlstr (safe_xmlstr s) = safe_xmlstr s.
Proof.
  split; [apply replace_char_length|].
  split; [apply safe_xmlstr_no_dollar|].
  split; [apply replace_char_absent|].
  apply replace_char_absent, safe_xmlstr_no_dollar.
Qed.

End TranslatorMore.

(** ** More on the geometry of an element *)

Section GeometryMore.
Import PyFloat Re.

Lemma digit_value_range (c : ascii) : is_digit c = true -> 0 <= digit_value c <= 9.
Proof.
  unfold is_digit, digit_value. intros H. apply andb_true_iff in H as [H1 H2].
  apply N.leb_le in H1, H2. lia.
Qed.

Lemma int_of_digits_from_nonneg (s : string) (acc : Z) :
  all_chars is_digit s = true -> 0 <= acc -> 0 <= digits_value_from acc s.
Proof.
  revert acc. induction s as [|c s IH]; simpl; intros acc H Hacc; [assumption|].
  apply andb_true_iff in H as [Hc Hs]. apply IH; [assumption|].
  pose proof (digit_value_range c Hc). lia.
Qed.

Lemma int_of_digits_nonneg (s : string) : digits s = true -> 0 <= digits_value s.
Proof.
  unfold digits, digits_value. intros H. apply andb_true_iff in H as [H _].
  now apply int_of_digits_from_nonneg.
Qed.

(** What [re.findall] returns are digit runs. *)
Lemma findall_digits_runs (b : string) : Forall (fun t => digits t = true) (findall_digits b).
Proof.
  destruct (spaced_complete b) as (toks & tail & Hw & ->).
  rewrite (findall_spaced _ _ Hw). unfold well_spaced in Hw.
  apply andb_true_iff in Hw as [Hw _]. apply andb_true_iff in Hw as [Hruns _].
  induction toks as [|[sep run] r IH]; [constructor|].
  simpl in Hruns. apply andb_true_iff in Hruns as [Hrun Hruns].
  apply andb_true_iff in Hrun as [_ Hrun]. constructor; [exact Hrun | now apply IH].
Qed.

Lemma bounds_coords_nonneg (el : XMLElement) (lx ly rx ry : Z) :
  XMLElement.bounds el = Ok (lx, ly, rx, ry) ->
  0 <= lx /\ 0 <= ly /\ 0 <= rx /\ 0 <= ry.
Proof.
  destruct (attrib (elem el) !! "bounds") as [b|] eqn:Hb;
    [|unfold XMLElement.bounds; rewrite Hb; discriminate].
  rewrite (bounds_of_runs _ _ Hb).
  pose proof (findall_digits_runs b) as Hruns.
  destruct (findall_digits b) as [|t1 [|t2 [|t3 [|t4 [|t5 rest]]]]]; try discriminate.
  destruct (short_run t1 && short_run t2 && short_run t3 && short_run t4); [|discriminate].
  intros [= <- <- <- <-].
  inversion Hruns as [|? ? H1 Hr1]; subst. inversion Hr1 as [|? ? H2 Hr2]; subst.
  inversion Hr2 as [|? ? H3 Hr3]; subst. inversion Hr3 as [|? ? H4 _]; subst.
  repeat split; now apply int_of_digits_nonneg.
Qed.

(** X4.  The coordinates [bounds] returns are never negative: a sign in the
    attribute is a separator like any other, and is lost. *)
Theorem bounds_nonnegative (el : XMLElement) (lx ly rx ry : Z) :
  XMLElement.bounds el = Ok (lx, ly, rx, ry) ->
  0 <= lx /\ 0 <= ly /\ 0 <= rx /\ 0 <= ry.
Proof. apply bounds_coords_nonneg. Qed.

(** X4 on bounds that reach off the screen to the left: the left edge -10
    is read as 10. *)
Lemma bounds_nonnegative_off_screen :
  XMLElement.bounds (with_bounds "[-10,0][100,50]") = Ok (10, 0, 100, 50)
  /\ 0 <= 10 /\ 0 <= 0 /\ 0 <= 100 /\ 0 <= 50.
Proof.
  split; [reflexivity|].
  exact (bounds_nonnegative (with_bounds "[-10,0][100,50]") 10 0 100 50 eq_refl).
Defined.

(** X5.  An element with no [bounds] attribute has no geometry: [bounds],
    [rect], [offset] and [center] raise [TypeError], [click] raises it, and
    so does [swipe] once the scale has been accepted, even for a direction
    that is none of the four. *)
Theorem no_bounds_no_geometry (el : XMLElement) :
  attrib (elem el) !! "bounds" = None ->
  XMLElement.bounds el = Raise TypeError
  /\ XMLElement.rect el = Raise TypeError
  /\ (forall px py, XMLElement.offset el px py = Raise TypeError)
  /\ XMLElement.center el = Raise TypeError
  /\ (forall st, XMLElement.click el st = Raise TypeError)
  /\ (forall direction scale st,
        scale_ok scale = true -> XMLElement.swipe el direction scale st = Raise TypeError).
Proof.
  intros Hb.
  assert (Hbounds : XMLElement.bounds el = Raise TypeError)
    by (unfold XMLElement.bounds; now rewrite Hb).
  assert (Hrect : XMLElement.rect el = Raise TypeError)
    by (unfold XMLElement.rect; now rewrite Hbounds).
  assert (Hoff : forall px py, XMLElement.offset el px py = Raise TypeError)
    by (intros; unfold XMLElement.offset; now rewrite Hrect).
  repeat split; try assumption.
  - apply Hoff.
  - intros st. unfold XMLElement.click, bind, lift, XMLElement.center. now rewrite Hoff.
  - intros direction scale st Hs. unfold scale_ok in Hs.
    unfold XMLElement.swipe. rewrite Hs. cbn [negb]. unfold bind, lift. now rewrite Hbounds.
Qed.

(** X5 on an element with a text and nothing else. *)
Lemma no_bounds_no_geometry_text_only :
  XMLElement.center (mkXMLElement 0 (Element "node" {[ "text" := "Settings" ]} []))
  = Raise TypeError.
Proof.
  exact (proj1 (proj2 (proj2 (proj2
           (no_bounds_no_geometry
              (mkXMLElement 0 (Element "node" {[ "text" := "Settings" ]} [])) eq_refl))))).
Defined.

Lemma center_mid (el : XMLElement) (lx ly rx ry : Z) :
  XMLElement.bounds el = Ok (lx, ly, rx, ry) ->
  lx <= rx < 2 ^ 53 -> ly <= ry < 2 ^ 53 ->
  XMLElement.center el = Ok ((lx + rx) / 2, (ly + ry) / 2)
  /\ lx <= (lx + rx) / 2 <= rx
  /\ ly <= (ly + ry) / 2 <= ry.
Proof.
  intros Hb Hx Hy. destruct (bounds_coords_nonneg _ _ _ _ _ Hb) as (? & ? & ? & ?).
  assert (Hmid : forall a b, a <= b -> a + Z.quot (b - a) 2 = (a + b) / 2).
  { intros a b Hab. rewrite Z.quot_div_nonneg by lia.
    replace (a + b) with (a * 2 + (b - a)) by lia. now rewrite Z.div_add_l by lia. }
  split.
  - rewrite (center_halves el lx ly rx ry Hb) by (apply Z.abs_lt; lia).
    now rewrite !Hmid by lia.
  - split.
    + split; [apply Z.div_le_lower_bound | apply Z.div_le_upper_bound]; lia.
    + split; [apply Z.div_le_lower_bound | apply Z.div_le_upper_bound]; lia.
Qed.

(** X6.  For bounds with the right edge not left of the left one and the
    bottom edge not above the top one, all below [2 ^ 53], [center] returns the
    midpoint of the bounds with its halves rounded down, a point of the
    rectangle. *)
Theorem center_inside_bounds (el : XMLElement) (lx ly rx ry : Z) :
  XMLElement.bounds el = Ok (lx, ly, rx, ry) ->
  lx <= rx < 2 ^ 53 -> ly <= ry < 2 ^ 53 ->
  XMLElement.center el = Ok ((lx + rx) / 2, (ly + ry) / 2)
  /\ lx <= (lx + rx) / 2 <= rx
  /\ ly <= (ly + ry) / 2 <= ry.
Proof. apply center_mid. Qed.

(** X6 on the bounds of a row of a list. *)
Lemma center_inside_bounds_row :
  XMLElement.center (with_bounds "[0,0][200,50]") = Ok (100, 25).
Proof.
  refine (proj1 (center_inside_bounds (with_bounds "[0,0][200,50]") 0 0 200 50 eq_refl _ _));
    split; reflexivity || discriminate.
Defined.

Lemma int_of_product_one (n : Z) : Z.abs n < 2 ^ 53 -> int_of_product n one = Ok n.
Proof.
  intros Hn. unfold int_of_product, int_mul, of_int, prec, emax.
  assert (Hpos : forall s m, Z.pos m < 2 ^ 53 ->
            to_int (SFmul 53 1024 (binary_round 53 1024 s m 0) one)
            = Ok (if s then - Z.pos m else Z.pos m)).
  { intros s m Hm. destruct (float_of_small s m Hm) as (mz & -> & Hdz & Hv).
    pose proof (digits2_pos_le m 53 ltac:(lia) Hm) as Hd.
    pose proof (Pos2Z.is_pos (digits2_pos m)) as Hd0.
    unfold one. cbn [SFmul]. rewrite mul_pow52, xorb_false_r.
    replace (Z.pos (digits2_pos m) - 53 + -52) with (Z.pos (digits2_pos m) - 53 - 52) by lia.
    rewrite round_zeros by (try assumption; lia).
    cbn [to_int]. unfold magnitude. rewrite Hv.
    destruct (Z.leb_spec 0 (Z.pos (digits2_pos m) - 53)) as [Hz|Hz].
    - replace (Z.pos (digits2_pos m) - 53) with 0 by lia.
      replace (53 - Z.pos (digits2_pos m)) with 0 by lia.
      now rewrite !Z.mul_1_r.
    - replace (- (Z.pos (digits2_pos m) - 53)) with (53 - Z.pos (digits2_pos m)) by lia.
      rewrite Z.div_mul; [reflexivity|]. apply Z.pow_nonzero; lia. }
  destruct n as [|m|m]; [reflexivity| |]; cbn [binary_normalize].
  - destruct (float_of_small false m Hn) as (mz & Hf & _).
    pose proof (Hpos false m Hn) as H. rewrite Hf in H |- *. cbn [mbind result_bind].
    exact H.
  - destruct (float_of_small true m Hn) as (mz & Hf & _).
    pose proof (Hpos true m Hn) as H. rewrite Hf in H |- *. cbn [mbind result_bind].
    exact H.
Qed.

(** X7.  For a width and a height below [2 ^ 53] in absolute value,
    [offset(0.0, 0.0)], which is [offset()], is the top left corner of the
    bounds and [offset(1.0, 1.0)] is the bottom right one. *)
Theorem offset_corners (el : XMLElement) (lx ly rx ry : Z) :
  XMLElement.bounds el = Ok (lx, ly, rx, ry) ->
  Z.abs (rx - lx) < 2 ^ 53 -> Z.abs (ry - ly) < 2 ^ 53 ->
  XMLElement.offset el float_zero float_zero = Ok (lx, ly)
  /\ XMLElement.offset el one one = Ok (rx, ry).
Proof.
  intros Hb Hw Hh. unfold XMLElement.offset, float_zero.
  rewrite (rect_of_bounds _ _ _ _ _ Hb). cbn [mbind result_bind].
  rewrite !int_of_product_zero, !int_of_product_one by assumption.
  cbn [mbind result_bind]. split; do 2 f_equal; lia.
Qed.

(** X7 on the bounds of a row of a list. *)
Lemma offset_corners_row :
  XMLElement.offset (with_bounds "[0,0][200,50]") float_zero float_zero = Ok (0, 0)
  /\ XMLElement.offset (with_bounds "[0,0][200,50]") one one = Ok (200, 50).
Proof.
  refine (offset_corners (with_bounds "[0,0][200,50]") 0 0 200 50 eq_refl _ _); reflexivity.
Defined.

End GeometryMore.

(** ** Clicks and swipes *)

Section ClickMore.
Import PyFloat.











(** X10.  [swipe] checks the scale first, then reads the bounds, and looks
    at the direction last.  A scale that is zero, negative, infinite or not
    a number is refused with [AssertionError] whatever the element and the
    direction; with the scale accepted, an element whose bounds do not parse
    raises the error of [bounds] whatever the direction. *)
Theorem swipe_checks_in_order :
  (forall s, scale_ok (S754_zero s) = false)
  /\ (forall m e, scale_ok (S754_finite true m e) = false)
  /\ (forall s, scale_ok (S754_infinity s) = false)
  /\ scale_ok S754_nan = false
  /\ (forall el direction scale st,
        scale_ok scale = false ->
        XMLElement.swipe el direction scale st = Raise AssertionError)
  /\ (forall el direction scale st e,
        scale_ok scale = true -> XMLElement.bounds el = Raise e ->
        XMLElement.swipe el direction scale st = Raise e).
Proof.
  split; [now intros []|]. split; [reflexivity|]. split; [now intros []|].
  split; [reflexivity|]. split.
  - intros el direction scale st Hs. unfold scale_ok in Hs.
    unfold XMLElement.swipe. now rewrite Hs.
  - intros el direction scale st e Hs Hb. unfold scale_ok in Hs.
    unfold XMLElement.swipe. rewrite Hs. cbn [negb]. unfold bind, lift. now rewrite Hb.
Qed.

End ClickMore.

(** ** More on the selector *)

Section SelectorMore.
Context (dev : Device) (E : Engine).
Import XPathSelector.

(** X11.  Which snapshot [all] resolves: its argument when that is a
    non-empty string, else the snapshot the selector was made with when that
    is a non-empty string, else a fresh dump of the hierarchy.  [all]
    raises what resolving that snapshot raises, and otherwise returns what
    it gives and remembers the snapshot as the selector's last source.  With
    a snapshot at hand the device is not asked and the clock and the session
    stay as they are; otherwise the hierarchy is dumped once, and the session
    remembers the dump.  The queries, the pinned snapshot and the session's
    settings are never changed. *)
Theorem all_source_precedence (source : option string) (st : State) :
  let xml := chosen_source dev source st in
  (forall s, source = Some s -> s <> EmptyString -> xml = s /\ pinned source st = true)
  /\ (forall s, truthy source = None -> _source (selector st) = Some s -> s <> EmptyString ->
        xml = s /\ pinned source st = true)
  /\ (truthy source = None -> truthy (_source (selector st)) = None ->
        xml = hierarchy_at dev (clock st) /\ pinned source st = false)
  /\ (forall e, resolve E xml (_xpath_list (selector st)) = Raise e ->
        all dev E source st = Raise e /\ all_error e)
  /\ (forall R, resolve E xml (_xpath_list (selector st)) = Ok R ->
        exists st1,
          all dev E source st = Ok (R, st1)
          /\ _last_source (selector st1) = Some xml
          /\ _xpath_list (selector st1) = _xpath_list (selector st)
          /\ _source (selector st1) = _source (selector st)
          /\ same_settings (parent st) (parent st1)
          /\ resolves st1 = S (resolves st)
          /\ (if pinned source st
              then dumps st1 = dumps st /\ clock st1 = clock st /\ parent st1 = parent st
              else dumps st1 = S (dumps st) /\ clock st1 = clock st + dump_latency dev
                   /\ p_last_source (parent st1) = Some xml)).
Proof.
  intros xml. subst xml. split; [|split; [|split; [|split]]].
  - intros s -> Hs. unfold chosen_source, pinned. destruct s; [contradiction | now split].
  - intros s Hsrc Hsel Hs. unfold chosen_source, pinned, snapshot_for. rewrite Hsrc, Hsel.
    destruct s; [contradiction | now split].
  - intros Hsrc Hsel. unfold chosen_source, pinned, snapshot_for. rewrite Hsrc, Hsel. now split.
  - intros e He. rewrite all_run, He. split; [reflexivity | now apply resolve_raises_all in He].
  - intros R HR. exists (after_all dev source st). rewrite all_run, HR.
    destruct (after_all_facts dev source st) as (H1 & H2 & H3 & H4 & H5 & _ & _ & _ & H9).
    repeat split; try assumption; apply H4.
Qed.

(** X12.  On a selector whose last source is a non-empty snapshot,
    [get_last_match] resolves that snapshot again and returns the first
    element, or raises [IndexError] when there is none: the device is not
    asked, the clock, the session and the selector stay as they are, and the
    trace gains the one resolve.  On a selector that has not resolved yet it
    is the first element of [all()]. *)
Theorem get_last_match_cached (st : State) :
  (forall xml, _last_source (selector st) = Some xml -> xml <> EmptyString ->
     get_last_match dev E st
     = match resolve E xml (_xpath_list (selector st)) with
       | Ok (el :: _) => Ok (el, with_event (EvResolve xml) st)
       | Ok [] => Raise IndexError
       | Raise e => Raise e
       end)
  /\ (_last_source (selector st) = None ->
      get_last_match dev E st = (let* els := all dev E None in lift (first_item els)) st).
Proof.
  split.
  - intros xml Hls Hne. rewrite get_last_match_run, Hls.
    assert (Hc : chosen_source dev (Some xml) st = xml)
      by (unfold chosen_source; destruct xml; [contradiction | reflexivity]).
    assert (Hp : pinned (Some xml) st = true)
      by (unfold pinned; destruct xml; [contradiction | reflexivity]).
    unfold after_all. rewrite Hc, Hp, (set_last_source_same _ _ Hls). reflexivity.
  - intros Hls. unfold get_last_match, bind, get_state. now rewrite Hls.
Qed.

(** *** [wait_gone] *)

Lemma wait_gone_loop_returns (fuel : nat) (deadline : Z) (st : State) :
  0 <= dump_latency dev ->
  (Z.to_nat (deadline - clock st) < fuel)%nat ->
  exists r, wait_gone_loop dev E fuel deadline st = Some r.
Proof.
  intros Hlat. revert st. induction fuel as [|fuel IH]; intros st Hfuel; [lia|].
  cbn [wait_gone_loop].
  destruct (Z.ltb_spec (clock st) deadline) as [Hlt|]; [|now eexists].
  destruct (exists_ dev E st) as [[[|] st1]|e] eqn:Hex; [ | now eexists | now eexists].
  apply exists_step in Hex as (_ & _ & Hclock & _); [|assumption].
  rewrite sleep_200. apply IH. cbn [clock]. lia.
Qed.

Lemma wait_gone_loop_more_fuel (fuel fuel' : nat) (deadline : Z) (st : State)
    (r : result (bool * State)) :
  (fuel <= fuel')%nat ->
  wait_gone_loop dev E fuel deadline st = Some r ->
  wait_gone_loop dev E fuel' deadline st = Some r.
Proof.
  revert fuel' st. induction fuel as [|fuel IH]; intros fuel' st Hle; [discriminate|].
  destruct fuel' as [|fuel']; [lia|]. cbn [wait_gone_loop].
  destruct (clock st <? deadline); [|exact id].
  destruct (exists_ dev E st) as [[[|] st1]|e]; try exact id.
  rewrite sleep_200. apply IH. lia.
Qed.

Lemma wait_gone_loop_outcome (fuel : nat) (deadline : Z) (st : State)
    (r : result (bool * State)) :
  0 <= dump_latency dev ->
  wait_gone_loop dev E fuel deadline st = Some r ->
  match r with
  | Ok (true, st') =>
      clock st < deadline
      /\ exists k xml,
           resolves st' = (resolves st + k + 1)%nat /\ sleeps st' = (sleeps st + k)%nat
           /\ last (trace st') = Some (EvResolve xml)
           /\ resolve E xml (_xpath_list (selector st)) = Ok []
  | Ok (false, st') =>
      deadline <= clock st'
      /\ (deadline <= clock st -> st' = st)
      /\ exists k,
           resolves st' = (resolves st + k)%nat /\ sleeps st' = (sleeps st + k)%nat
           /\ (clock st < deadline -> (0 < k)%nat /\ last (trace st') = Some (EvSleep 200))
  | Raise e => all_error e
  end.
Proof.
  intros Hlat. revert st. induction fuel as [|fuel IH]; intros st; [discriminate|].
  cbn [wait_gone_loop].
  destruct (Z.ltb_spec (clock st) deadline) as [Hlt|Hge].
  - rewrite exists_run.
    destruct (resolve E _ _) as [R|e] eqn:HR.
    + destruct (after_all_facts dev None st) as (Hq & _ & _ & _ & Hr & Hs & _ & Hlast & Hp).
      cbv zeta in Hq, Hr, Hs, Hlast, Hp.
      assert (Hclock : clock st <= clock (after_all dev None st))
        by (destruct (pinned None st); lia).
      destruct R as [|el R]; cbn [length Nat.ltb Nat.leb].
      * intros [= <-]. split; [assumption|].
        exists 0%nat, (chosen_source dev None st). repeat split; try assumption; lia.
      * rewrite sleep_200. intros Hloop. specialize (IH _ Hloop).
        unfold resolves, sleeps in *. cbn [clock trace selector] in IH.
        rewrite !count_app in IH. cbn [count is_resolve is_sleep] in IH.
        destruct r as [[[|] st']|e]; [| |exact IH].
        -- destruct IH as (_ & k & xml & Hr' & Hs' & Hl' & Hres).
           split; [assumption|]. exists (S k), xml. rewrite <- Hq.
           repeat split; try assumption; lia.
        -- destruct IH as (Hd & Hsame & k & Hr' & Hs' & Hk).
           split; [assumption|]. split; [lia|]. exists (S k).
           split; [lia|]. split; [lia|]. intros _. split; [lia|].
           destruct (Z.lt_ge_cases (clock (after_all dev None st) + 200) deadline) as [Hl|Hg].
           ++ now apply Hk.
           ++ rewrite (Hsame ltac:(lia)). cbn [trace]. apply last_snoc.
    + intros [= <-]. now apply resolve_raises_all in HR.
  - intros [= <-]. split; [assumption|]. split; [reflexivity|].
    exists 0%nat. repeat split; lia.
Qed.

(** What the loop returns, poll by poll. *)
Lemma wait_gone_loop_polls (fuel : nat) (deadline : Z) (st : State)
    (r : result (bool * State)) :
  wait_gone_loop dev E fuel deadline st = Some r ->
  let source := _source (selector st) in
  let qs := _xpath_list (selector st) in
  match r with
  | Ok (true, st') =>
      exists tr c,
        polls dev E source qs true deadline (clock st) tr c
        /\ c < deadline
        /\ resolve E (snapshot_at dev source c) qs = Ok []
        /\ trace st' = trace st ++ tr ++ poll_events dev source c
        /\ clock st' = c + poll_cost dev source
  | Ok (false, st') =>
      exists tr, trace st' = trace st ++ tr
                 /\ polls dev E source qs true deadline (clock st) tr (clock st')
  | Raise e => True
  end.
Proof.
  revert st. induction fuel as [|fuel IH]; intros st; [discriminate|].
  cbn [wait_gone_loop]. cbv zeta.
  set (source := _source (selector st)). set (qs := _xpath_list (selector st)).
  destruct (Z.ltb_spec (clock st) deadline) as [Hlt|Hge].
  - rewrite exists_run. destruct (after_all_poll dev st) as (Hxml & Hclock & Htrace).
    fold source in Hxml, Hclock, Htrace. fold qs. rewrite Hxml.
    destruct (resolve E (snapshot_at dev source (clock st)) qs) as [R|e] eqn:HR;
      [|intros [= <-]; exact I].
    destruct (after_all_facts dev None st) as (Hq & Hsrc & _). cbv zeta in Hq, Hsrc.
    destruct R as [|el0 R]; cbn [length Nat.ltb Nat.leb].
    + intros [= <-]. exists [], (clock st). split; [constructor|]. split; [assumption|].
      split; [assumption|]. split; assumption.
    + rewrite sleep_200. intros Hloop. specialize (IH _ Hloop). cbv zeta in IH.
      cbn [selector clock trace] in IH. rewrite Hq, Hsrc, Hclock in IH.
      fold source qs in IH.
      assert (Hpoll : forall tr c',
                polls dev E source qs true deadline
                  (clock st + poll_cost dev source + 200) tr c' ->
                polls dev E source qs true deadline (clock st)
                  (poll_events dev source (clock st) ++ EvSleep 200 :: tr) c').
      { intros tr c' Hp. now apply (polls_poll _ _ _ _ _ _ _ (el0 :: R)). }
      destruct r as [[[|] st']|e]; [| |exact I].
      * destruct IH as (tr & c & Hp & Hc & HRc & Htr & Hcl).
        exists (poll_events dev source (clock st) ++ EvSleep 200 :: tr), c.
        split; [now apply Hpoll|]. split; [assumption|]. split; [assumption|].
        split; [|assumption]. rewrite Htr, Htrace, <- !app_assoc. reflexivity.
      * destruct IH as (tr & Htr & Hp).
        exists (poll_events dev source (clock st) ++ EvSleep 200 :: tr).
        split; [|now apply Hpoll]. rewrite Htr, Htrace, <- !app_assoc. reflexivity.
  - intros [= <-]. exists []. rewrite app_nil_r. split; [reflexivity | constructor].
Qed.

(** X13.  [wait_gone] computes its deadline once, as the clock plus the
    timeout, zero and [None] standing for the session's default.  It
    returns or raises: while the clock is before the deadline it polls,
    returns [True] at the first poll that finds nothing, and sleeps 200 ms
    after a poll that finds something.  So [True] means that the trace is a
    run of polls that all found something, each followed by a sleep of
    200 ms, and then a poll, before the deadline, that found nothing;
    [False] means that the trace is a run of polls that all found something,
    each started before the deadline and followed by a sleep, that the
    deadline has passed, and that nothing was resolved at all if the
    deadline had passed at the start.  It raises only what [all] raises. *)
Theorem wait_gone_polls (timeout : option Z) (st : State) :
  0 <= dump_latency dev ->
  let deadline := clock st + timeout_or timeout (wait_timeout (parent st)) in
  let source := _source (selector st) in
  let qs := _xpath_list (selector st) in
  (exists fuel, forall fuel', (fuel <= fuel')%nat ->
     exists r, wait_gone dev E fuel' timeout st = Some r)
  /\ (forall fuel fuel' r, (fuel <= fuel')%nat ->
        wait_gone dev E fuel timeout st = Some r ->
        wait_gone dev E fuel' timeout st = Some r)
  /\ (forall fuel r, wait_gone dev E fuel timeout st = Some r ->
        match r with
        | Ok (true, st') =>
            clock st < deadline
            /\ (exists tr c,
                  polls dev E source qs true deadline (clock st) tr c
                  /\ c < deadline
                  /\ resolve E (snapshot_at dev source c) qs = Ok []
                  /\ trace st' = trace st ++ tr ++ poll_events dev source c
                  /\ clock st' = c + poll_cost dev source)
            /\ exists k xml,
                 resolves st' = (resolves st + k + 1)%nat
                 /\ sleeps st' = (sleeps st + k)%nat
                 /\ last (trace st') = Some (EvResolve xml)
                 /\ resolve E xml (_xpath_list (selector st)) = Ok []
        | Ok (false, st') =>
            deadline <= clock st'
            /\ (deadline <= clock st -> st' = st)
            /\ (exists tr, trace st' = trace st ++ tr
                           /\ polls dev E source qs true deadline (clock st) tr (clock st'))
            /\ exists k,
                 resolves st' = (resolves st + k)%nat
                 /\ sleeps st' = (sleeps st + k)%nat
                 /\ (clock st < deadline ->
                     (0 < k)%nat /\ last (trace st') = Some (EvSleep 200))
        | Raise e => all_error e
        end).
Proof.
  intros Hlat deadline source qs. split; [|split].
  - exists (S (Z.to_nat (deadline - clock st))). intros fuel' Hfuel.
    subst deadline. apply wait_gone_loop_returns; [assumption | lia].
  - intros fuel fuel' r Hle. apply wait_gone_loop_more_fuel. exact Hle.
  - intros fuel r Hr.
    pose proof (wait_gone_loop_outcome fuel deadline st r Hlat Hr) as Hcount.
    pose proof (wait_gone_loop_polls fuel deadline st r Hr) as Hpolls.
    cbv zeta in Hpolls. fold source qs in Hpolls.
    destruct r as [[[|] st']|e]; [| |exact Hcount].
    + destruct Hcount as [Hlt Hk]. split; [assumption|]. split; assumption.
    + destruct Hcount as (Hd & Hsame & Hk). repeat split; assumption.
Qed.

(** X14.  [get] waits for the session's timeout.  With a timeout that is
    zero or negative it raises [XPathElementNotFoundError] with the
    selector's queries at once.  Otherwise it returns or raises: the element
    it returns is the first one of the last resolve, which comes after at
    least two others; it raises [XPathElementNotFoundError] with the
    selector's queries, or what resolving raises.  [get_text] returns the
    [text] attribute of that element, the empty string when it has none, and
    raises what [get] raises. *)
Theorem get_finds_or_raises (st : State) :
  0 <= dump_latency dev ->
  (wait_timeout (parent st) <= 0 -> forall fuel,
     get dev E (S fuel) st
     = Some (Raise (XPathElementNotFoundError (_xpath_list (selector st)))))
  /\ (exists fuel, forall fuel', (fuel <= fuel')%nat -> exists r, get dev E fuel' st = Some r)
  /\ (forall fuel r, get dev E fuel st = Some r ->
        match r with
        | Ok (el, st') =>
            0 < wait_timeout (parent st)
            /\ exists k xml els,
                 resolves st' = (resolves st + k + 3)%nat
                 /\ sleeps st' = (sleeps st + k)%nat
                 /\ last (trace st') = Some (EvResolve xml)
                 /\ resolve E xml (_xpath_list (selector st)) = Ok (el :: els)
        | Raise e =>
            e = XPathElementNotFoundError (_xpath_list (selector st)) \/ resolve_error e
        end)
  /\ (forall fuel s st', get_text dev E fuel st = Some (Ok (s, st')) ->
        exists el, get dev E fuel st = Some (Ok (el, st'))
                   /\ s = default EmptyString (attrib (elem el) !! "text"))
  /\ (forall fuel e, get_text dev E fuel st = Some (Raise e) <->
                     get dev E fuel st = Some (Raise e)).
Proof.
  intros Hlat.
  assert (Hto : timeout_or (Some (wait_timeout (parent st))) (wait_timeout (parent st))
                = wait_timeout (parent st))
    by (unfold timeout_or; now destruct (wait_timeout (parent st) =? 0)).
  split; [|split; [|split; [|split]]].
  - intros Hle fuel. unfold get, wait. rewrite Hto. cbn [wait_loop].
    destruct (Z.ltb_spec (clock st) (clock st + wait_timeout (parent st))); [lia|reflexivity].
  - exists (S (Z.to_nat (wait_timeout (parent st)))). intros fuel' Hfuel.
    destruct (wait_loop_returns dev E fuel' (clock st + wait_timeout (parent st)) st Hlat)
      as [r Hr]; [lia|].
    unfold get, wait. rewrite Hto, Hr. destruct r as [[[el|] st1]|e]; now eexists.
  - intros fuel r. unfold get, wait. rewrite Hto.
    destruct (wait_loop dev E fuel _ st) as [[[[el0|] st1]|e0]|] eqn:Hw; try discriminate.
    + pose proof (wait_loop_queries dev E _ _ _ _ _ Hw) as Hq.
      apply wait_loop_outcome in Hw; [|assumption].
      destruct Hw as (Hlt & k & _ & _ & Hr1 & Hs1 & _).
      destruct (get_last_match dev E st1) as [[el st2]|e] eqn:Hget; intros [= <-].
      * pose proof (get_last_match_returns dev E _ _ _ Hget) as Hst2.
        apply get_last_match_step in Hget as (Hr2 & Hs2 & _ & xml & els & Hlast & Hres);
          [|assumption].
        split; [lia|]. exists k, xml, els.
        split; [lia|]. split; [lia|]. split; [assumption|].
        rewrite <- Hq. rewrite Hst2 in Hres.
        destruct (after_all_facts dev (_last_source (selector st1)) st1) as (Hq' & _).
        cbv zeta in Hq'. now rewrite Hq' in Hres.
      * right. now apply get_last_match_raises in Hget.
    + intros [= <-]. left. now rewrite (wait_loop_queries dev E _ _ _ _ _ Hw).
    + intros [= <-]. right. now apply wait_loop_outcome in Hw.
  - intros fuel s st'. unfold get_text.
    destruct (get dev E fuel st) as [[[el st1]|e]|]; try discriminate.
    intros [= <- <-]. now exists el.
  - intros fuel e. unfold get_text.
    destruct (get dev E fuel st) as [[[el st1]|e']|]; split; try discriminate; now intros [= <-].
Qed.

(** *** Selectors on a list of queries *)

Lemma eval_all_total (root : element) (qs : list string) :
  (forall q, q ∈ qs -> exists m, xpath_eval E root q = Some m) ->
  exists ms, eval_all E root qs = Ok ms /\ length ms = length qs.
Proof.
  induction qs as [|q qs IH]; intros H; [now exists []|].
  destruct (H q) as [m Hm]; [left|].
  destruct IH as (ms & Hms & Hlen); [intros q' Hq'; apply H; now right|].
  exists (m :: ms). cbn [eval_all]. rewrite Hm, Hms. cbn. now rewrite Hlen.
Qed.

Lemma resolve_same_queries (xml : string) (l1 l2 : list string) (R1 : list XMLElement) :
  (forall q, q ∈ l1 <-> q ∈ l2) ->
  resolve E xml l1 = Ok R1 ->
  exists R2, resolve E xml l2 = Ok R2 /\ forall x, x ∈ R1 <-> x ∈ R2.
Proof.
  intros Hsame H1.
  destruct (resolve_Ok E _ _ _ H1) as (root0 & ms & Hp & Htags & Hms & Hne & _).
  destruct (eval_all_total (retagged root0) l2) as (ms2 & Hms2 & Hlen).
  { intros q Hq. apply Hsame in Hq. apply list_elem_of_lookup in Hq as [i Hi].
    destruct (Forall2_lookup_l _ _ _ _ _ Hms Hi) as (m & _ & Hm). now exists m. }
  assert (Hne2 : l2 <> []).
  { destruct l1 as [|q l1]; [contradiction|]. intros ->.
    assert (Hq : q ∈ @nil string) by (apply Hsame; left). inversion Hq. }
  assert (H2 : exists R2, resolve E xml l2 = Ok R2).
  { rewrite (resolve_parsed E _ _ _ Hp), Htags. cbn [mbind result_bind]. rewrite Hms2.
    destruct ms2 as [|m ms2]; [|now eexists].
    destruct l2; [contradiction | discriminate]. }
  destruct H2 as [R2 H2]. exists R2. split; [assumption|].
  intros x. rewrite (proj2 (resolve_intersection E _ _ _ H1) x),
    (proj2 (resolve_intersection E _ _ _ H2) x).
  split; intros H q Rq Hq; apply H; now apply Hsame.
Qed.

(** X15.  Which elements a selector finds depends on which queries it
    holds, not on their order nor on how often each one is there: when a
    selector resolves, a selector with the same queries in another list, on
    the same snapshot, resolves too and returns the same elements. *)
Theorem all_ignores_query_order (source src : option string) (l1 l2 : list string)
    (ls1 ls2 : option string) (st : State) (R1 : list XMLElement) (st1 : State) :
  (forall q, q ∈ l1 <-> q ∈ l2) ->
  all dev E source (with_selector (mkXPathSelector l1 src ls1) st) = Ok (R1, st1) ->
  exists R2 st2,
    all dev E source (with_selector (mkXPathSelector l2 src ls2) st) = Ok (R2, st2)
    /\ forall x, x ∈ R1 <-> x ∈ R2.
Proof.
  intros Hsame H1. apply all_returns in H1 as [H1 _].
  cbn [with_selector selector _xpath_list] in H1.
  destruct (resolve_same_queries _ _ _ _ Hsame H1) as (R2 & H2 & Hiff).
  exists R2. eexists. split; [|exact Hiff]. rewrite all_run.
  cbn [with_selector selector _xpath_list].
  change (chosen_source dev source (with_selector (mkXPathSelector l2 src ls2) st))
    with (chosen_source dev source (with_selector (mkXPathSelector l1 src ls1) st)).
  now rewrite H2.
Qed.

(** X16.  A selector made from an empty list of queries never resolves:
    whatever the snapshot, [all] raises [XMLSyntaxError] when it does not
    parse, [ValueError] when it parses and lxml refuses a tag, and
    [TypeError] otherwise, and so do [exists] and, before their deadline,
    [wait] and [wait_gone]. *)
Theorem empty_query_list_raises (source src : option string) (st : State) :
  let st0 := with_selector (init_list [] source) st in
  let err xml := match parse_xml E xml with
                 | None => XMLSyntaxError
                 | Some root0 => if tags_ok E root0 then TypeError else ValueError
                 end in
  all dev E src st0 = Raise (err (chosen_source dev src st0))
  /\ exists_ dev E st0 = Raise (err (chosen_source dev None st0))
  /\ forall fuel timeout,
       0 < timeout_or timeout (wait_timeout (parent st)) ->
       wait dev E (S fuel) timeout st0 = Some (Raise (err (chosen_source dev None st0)))
       /\ wait_gone dev E (S fuel) timeout st0
          = Some (Raise (err (chosen_source dev None st0))).
Proof.
  intros st0 err.
  assert (Hres : forall xml, resolve E xml [] = Raise (err xml)).
  { intros xml. subst err. cbv beta. destruct (parse_xml E xml) as [root0|] eqn:Hp.
    - rewrite (resolve_parsed E _ _ _ Hp). now destruct (tags_ok E root0).
    - unfold resolve. now rewrite Hp. }
  assert (Hex : exists_ dev E st0 = Raise (err (chosen_source dev None st0))).
  { rewrite exists_run. subst st0. cbn [with_selector selector init_list _xpath_list].
    now rewrite Hres. }
  split; [|split].
  - rewrite all_run. subst st0. cbn [with_selector selector init_list _xpath_list].
    now rewrite Hres.
  - exact Hex.
  - intros fuel timeout Hpos. unfold wait, wait_gone. cbn [wait_loop wait_gone_loop].
    assert (Hlt : (clock st0 <? clock st0 + timeout_or timeout (wait_timeout (parent st0)))
                  = true) by (apply Z.ltb_lt; subst st0; cbn [with_selector clock parent]; lia).
    rewrite Hlt, Hex. now split.
Qed.

End SelectorMore.

(** X12 on the selector for [Settings] after it has resolved the snapshot
    with the Settings node: the node is found again, with no dump. *)
Lemma get_last_match_cached_settings :
  (trace ∘ snd) <$> XPathSelector.get_last_match (Example.still Example.settings_xml) Example.engine
    (mkState 0 [] (Example.session 20000)
       (mkXPathSelector [strict_xpath "Settings"] None (Some Example.settings_xml)))
  = Ok [EvResolve Example.settings_xml].
Proof.
  rewrite (proj1 (get_last_match_cached (Example.still Example.settings_xml) Example.engine
             (mkState 0 [] (Example.session 20000)
                (mkXPathSelector [strict_xpath "Settings"] None (Some Example.settings_xml))))
             Example.settings_xml eq_refl); [reflexivity | discriminate].
Defined.

(** X13 on a device that shows the Settings node: [wait_gone] for [Wifi]
    returns [True] after one resolve, and [wait_gone] for [Settings] with a
    timeout of 400 ms returns [False] after two resolves and two sleeps. *)
Lemma wait_gone_polls_settings :
  report (XPathSelector.wait_gone (Example.still Example.settings_xml) Example.engine 5 (Some 400)
            (Example.start 20000 (XPathSelector.init "Wifi" None)))
  = Some (Ok (true, (1%nat, 0%nat, 0)))
  /\ report (XPathSelector.wait_gone (Example.still Example.settings_xml) Example.engine 5 (Some 400)
               (Example.start 20000 (XPathSelector.init "Settings" None)))
     = Some (Ok (false, (2%nat, 2%nat, 400)))
  /\ exists fuel, forall fuel', (fuel <= fuel')%nat ->
       exists r, XPathSelector.wait_gone (Example.still Example.settings_xml) Example.engine fuel' (Some 400)
                   (Example.start 20000 (XPathSelector.init "Settings" None)) = Some r.
Proof.
  split; [vm_compute; reflexivity|]. split; [vm_compute; reflexivity|].
  exact (proj1 (wait_gone_polls (Example.still Example.settings_xml) Example.engine (Some 400) (Example.start 20000 (XPathSelector.init "Settings" None))
                  (Z.le_refl 0))).
Defined.

(** X14 on a device that shows the Settings node: [get] finds [Settings]
    with three resolves and no sleep, and with a timeout of 400 ms it raises
    [XPathElementNotFoundError] for [Wifi]. *)
Lemma get_finds_or_raises_settings :
  report (XPathSelector.get (Example.still Example.settings_xml) Example.engine 5
            (Example.start 400 (XPathSelector.init "Settings" None)))
  = Some (Ok (mkXMLElement 1 (retagged (Element "node"
                {[ "text" := "Settings"; "class" := "android.widget.TextView";
                   "bounds" := "[0,0][200,50]" ]} [])), (3%nat, 0%nat, 0)))
  /\ XPathSelector.get (Example.still Example.settings_xml) Example.engine 5
       (Example.start 400 (XPathSelector.init "Wifi" None))
     = Some (Raise (XPathElementNotFoundError [strict_xpath "Wifi"]))
  /\ exists fuel, forall fuel', (fuel <= fuel')%nat ->
       exists r, XPathSelector.get (Example.still Example.settings_xml) Example.engine fuel'
                   (Example.start 400 (XPathSelector.init "Wifi" None)) = Some r.
Proof.
  split; [vm_compute; reflexivity|]. split; [vm_compute; reflexivity|].
  exact (proj1 (proj2 (get_finds_or_raises (Example.still Example.settings_xml)
                         Example.engine (Example.start 400 (XPathSelector.init "Wifi" None))
                         (Z.le_refl 0)))).
Defined.

(** X15 on the snapshot with the Settings node: the queries [Settings] and
    [//*] in this order, and [//*], [Settings] and [//*] again. *)
Lemma all_ignores_query_order_settings :
  exists R1 st1 R2 st2,
    XPathSelector.all (Example.still Example.settings_xml) Example.engine None
      (with_selector (mkXPathSelector [strict_xpath "Settings"; "//*"] None None)
         (Example.start 400 (XPathSelector.init "Settings" None))) = Ok (R1, st1)
    /\ XPathSelector.all (Example.still Example.settings_xml) Example.engine None
         (with_selector (mkXPathSelector ["//*"; strict_xpath "Settings"; "//*"] None None)
            (Example.start 400 (XPathSelector.init "Settings" None))) = Ok (R2, st2)
    /\ el_id <$> R1 = [1%nat]
    /\ forall x, x ∈ R1 <-> x ∈ R2.
Proof.
  assert (Hsame : forall q : string,
            q ∈ [strict_xpath "Settings"; "//*"] <-> q ∈ ["//*"; strict_xpath "Settings"; "//*"])
    by (intros q; rewrite !elem_of_cons; tauto).
  destruct (all_ignores_query_order (Example.still Example.settings_xml) Example.engine
              None None _ _ None None (Example.start 400 (XPathSelector.init "Settings" None))
              _ _ Hsame eq_refl) as (R2 & st2 & H2 & Hiff).
  eexists. eexists. exists R2, st2.
  split; [reflexivity|]. split; [exact H2|]. split; [reflexivity | exact Hiff].
Defined.

(** ** The methods of [XPath] that make a selector *)

Section CallsMore.
Context (dev : Device) (E : Engine).
Import XPathCalls.
















(** X18.  [match] makes a selector of its own and asks whether it resolves
    to anything.  With a non-empty snapshot as its source it answers for
    that snapshot without asking the device: the clock and the session stay
    as they are and the trace gains the one resolve.  With no source, or an
    empty one, it dumps the hierarchy once and answers for the dump, which
    the session remembers.  It raises what resolving raises. *)
Theorem match_resolves_once (xpath : string) (source : option string) (st : State) :
  (forall s, source = Some s -> s <> EmptyString ->
     match_ dev E (XStr xpath) source st
     = match resolve E s [strict_xpath xpath] with
       | Ok R => Ok ((0 <? length R)%nat, with_event (EvResolve s) st)
       | Raise e => Raise e
       end)
  /\ (truthy source = None ->
      let xml := hierarchy_at dev (clock st) in
      match_ dev E (XStr xpath) source st
      = match resolve E xml [strict_xpath xpath] with
        | Ok R => Ok ((0 <? length R)%nat,
                      mkState (clock st + dump_latency dev)
                              (trace st ++ [EvDump; EvResolve xml])
                              (XPath.set_last_source xml (parent st)) (selector st))
        | Raise e => Raise e
        end)
  /\ (forall e, match_ dev E (XStr xpath) source st = Raise e -> all_error e).
Proof.
  split; [|split].
  - intros s -> Hs. unfold match_, on_selector. rewrite (exists_run dev E).
    destruct s as [|c s]; [contradiction|]. cbn. now destruct (resolve E _ _).
  - intros Hs xml. unfold match_, on_selector. rewrite (exists_run dev E).
    unfold after_all, chosen_source, pinned, snapshot_for, call, XPathSelector.init.
    cbn [with_selector selector _source _xpath_list truthy clock trace parent].
    rewrite Hs. subst xml. now destruct (resolve E _ _).
  - intros e. unfold match_, on_selector. rewrite (exists_run dev E).
    destruct (resolve E _ _) eqn:HR; [discriminate|]. intros [= <-].
    now apply (resolve_raises_all E) in HR.
Qed.

End CallsMore.


(** ** [XMLElement.info] on a resolved element *)

Section InfoMore.
Context (E : Engine).

(** X19.  For an element [all] returns, [info] raises [TypeError] when the
    element of the snapshot has no [bounds] attribute, whatever else it
    has.  When [info] returns, its text, its flags, its content description
    and its package name are the attributes of the element of the snapshot,
    [None] for one that is absent, and its bounds are those [bounds]
    returns.  Its class name is the tag: for a [node] element this is the
    [class] attribute with every [$] replaced by [-], or [node] when that is
    absent or empty, and never holds a [$]; for another element it is the
    tag the snapshot gives. *)
Theorem info_of_resolved (xml : string) (qs : list string) (root0 : element)
    (R : list XMLElement) (x : XMLElement) :
  parse_xml E xml = Some root0 -> resolve E xml qs = Ok R -> x ∈ R ->
  exists e0,
    iter root0 !! el_id x = Some e0
    /\ (attrib e0 !! "bounds" = None -> XMLElement.info x = Raise TypeError)
    /\ (forall e, XMLElement.info x = Raise e <-> XMLElement.bounds x = Raise e)
    /\ forall i, XMLElement.info x = Ok i ->
         XMLElement.bounds x = Ok (info_bounds i)
         /\ info_text i = attrib e0 !! "text"
         /\ info_focusable i = attrib e0 !! "focusable"
         /\ info_enabled i = attrib e0 !! "enabled"
         /\ info_focused i = attrib e0 !! "focused"
         /\ info_scrollable i = attrib e0 !! "scrollable"
         /\ info_selected i = attrib e0 !! "selected"
         /\ info_contentDescription i = attrib e0 !! "content-desc"
         /\ info_longClickable i = attrib e0 !! "long-clickable"
         /\ info_packageName i = attrib e0 !! "package"
         /\ (tag e0 = "node" ->
             info_className i
             = str_or (safe_xmlstr (default EmptyString (attrib e0 !! "class"))) "node"
             /\ PyStr.contains_char "$" (info_className i) = false)
         /\ (tag e0 <> "node" -> info_className i = tag e0).
Proof.
  intros Hp HR Hx. destruct (resolved_element E _ _ _ _ _ Hp HR Hx) as (e0 & He0 & Hel).
  exists e0. split; [assumption|]. split; [|split].
  - intros Hb.
    assert (Hbx : XMLElement.bounds x = Raise TypeError).
    { unfold XMLElement.bounds.
      rewrite Hel, (retag_keeps_attribute e0 "bounds"), Hb by discriminate. reflexivity. }
    unfold XMLElement.info. now rewrite Hbx.
  - intros e. unfold XMLElement.info.
    destruct (XMLElement.bounds x) as [[[[lx ly] rx] ry]|e']; cbn [mbind result_bind];
      split; try discriminate; now intros [= <-].
  - intros i. unfold XMLElement.info.
    destruct (XMLElement.bounds x) as [[[[lx ly] rx] ry]|e']; cbn [mbind result_bind];
      [|discriminate].
    intros [= <-]. cbn [info_bounds info_text info_focusable info_enabled info_focused
      info_scrollable info_selected info_contentDescription info_longClickable
      info_packageName info_className].
    rewrite Hel, !retag_keeps_attribute by discriminate.
    repeat (split; [reflexivity|]). split.
    + intros Ht. destruct (retag_of_node e0 Ht) as [-> _].
      split; [reflexivity | apply retag_node_no_dollar].
    + intros Ht. now destruct (retag_of_other e0 Ht) as [-> _].
Qed.

End InfoMore.

(** X19 on the snapshot with the Settings node: the class name is
    [android.widget.TextView] and the text is [Settings]. *)
Lemma info_of_resolved_settings :
  exists x,
    resolve Example.engine Example.settings_xml [strict_xpath "Settings"] = Ok [x]
    /\ forall i, XMLElement.info x = Ok i ->
         info_className i = "android.widget.TextView" /\ info_text i = Some "Settings".
Proof.
  eexists. split; [reflexivity|].
  destruct (info_of_resolved Example.engine Example.settings_xml [strict_xpath "Settings"]
              Example.settings_tree _ _ eq_refl eq_refl (list_elem_of_here _ _))
    as (e0 & He0 & _ & _ & Hinfo).
  injection He0 as <-. intros i Hi.
  destruct (Hinfo i Hi) as (_ & Ht & _ & _ & _ & _ & _ & _ & _ & _ & Hnode & _).
  split; [exact (proj1 (Hnode eq_refl)) | exact Ht].
Defined.
